(** * KMDD input drivers: byte queue, packet assembler, scan-code translator

    A shallow embedding of the event assembly core of
    [drivers/mouse_driver.c] and [drivers/keyboard_driver.c], with the
    properties of the specification stated over it.

    Conventions.
    - C integers are [Z] with the wrap-around of their type written out
      ([C.uint], [C.sint]); the kernel is built with wrapping signed
      arithmetic, and [unsigned long]/[long] are 64 bits wide (LP64).
    - C arrays are lists read with [rd] and written with [wr]; every index
      used by the code is in range under the invariants proved below.
    - The input core ([input_report_key], [input_report_rel], [input_sync])
      is the event sink: the model appends what the driver reports to a log.
    - [pr_debug]/[pr_info]/[pr_warn] only write to the kernel log and are
      left out. *)

From Stdlib Require Import ZArith List Bool Lia DecimalString.
From stdpp Require Import base list strings gmap.
Import ListNotations.

Local Open Scope Z_scope.

(* ------------------------------------------------------------------ *)
(** ** Machine integers *)

Module C.

(** Value of [x] after conversion to an unsigned type of [w] bits. *)
Definition uint (w x : Z) : Z := x mod 2 ^ w.

(** Value of [x] after conversion to a signed type of [w] bits. *)
Definition sint (w x : Z) : Z :=
  let u := x mod 2 ^ w in
  if u <? 2 ^ (w - 1) then u else u - 2 ^ w.

Definition uchar : Z -> Z := uint 8.
Definition schar : Z -> Z := sint 8.
Definition uint32 : Z -> Z := uint 32.
Definition int32 : Z -> Z := sint 32.
Definition ulong : Z -> Z := uint 64.
Definition long : Z -> Z := sint 64.

Definition ULONG_MAX : Z := 2 ^ 64 - 1.

(** [abs()] of the kernel on an [int]. *)
Definition abs (x : Z) : Z := if x <? 0 then int32 (- x) else x.

(** C truth value of an integer used as a condition. *)
Definition truthy (x : Z) : bool := negb (x =? 0).

End C.

(** Conversions are kept folded when a goal is simplified. *)
Arguments C.uint : simpl never.
Arguments C.sint : simpl never.
Arguments C.uchar : simpl never.
Arguments C.schar : simpl never.
Arguments C.uint32 : simpl never.
Arguments C.int32 : simpl never.
Arguments C.ulong : simpl never.
Arguments C.long : simpl never.
Arguments C.abs : simpl never.

(** Array read and write. *)
Definition rd (l : list Z) (i : Z) : Z := default 0 (l !! Z.to_nat i).
Definition wr (l : list Z) (i : Z) (v : Z) : list Z := <[Z.to_nat i := v]> l.

(* ------------------------------------------------------------------ *)
(** ** Bounded byte queue

    Both drivers carry the same four fields ([buffer], [head], [tail],
    [buffer_overflows]) and the same four functions over them, which differ
    only in [BUFFER_SIZE]; they are grouped here as [ring]. The spinlock
    makes each function atomic, so each is one state transformer. *)

Record ring : Type := mk_ring {
  buffer : list Z;          (* unsigned char buffer[BUFFER_SIZE] *)
  head : Z;                 (* unsigned int *)
  tail : Z;                 (* unsigned int *)
  buffer_overflows : Z      (* unsigned long *)
}.

Section ByteQueue.

Variable BUFFER_SIZE : Z.

Definition buffer_empty (dev : ring) : bool := head dev =? tail dev.

Definition buffer_full (dev : ring) : bool :=
  C.uint32 (head dev + 1) mod BUFFER_SIZE =? tail dev.

Definition buffer_push (dev : ring) (byte : Z) : ring :=
  if negb (buffer_full dev) then
    mk_ring (wr (buffer dev) (head dev) byte)
            (C.uint32 (head dev + 1) mod BUFFER_SIZE)
            (tail dev)
            (buffer_overflows dev)
  else
    mk_ring (buffer dev) (head dev) (tail dev)
            (C.ulong (buffer_overflows dev + 1)).

(** [buffer_pop] returns 1 and stores the byte through its pointer
    argument, or returns 0 and stores nothing. *)
Definition buffer_pop (dev : ring) : option Z * ring :=
  if negb (buffer_empty dev) then
    (Some (rd (buffer dev) (tail dev)),
     mk_ring (buffer dev) (head dev)
             (C.uint32 (tail dev + 1) mod BUFFER_SIZE)
             (buffer_overflows dev))
  else (None, dev).

(** State after [kzalloc] and the assignments of the init function. *)
Definition ring_init : ring :=
  mk_ring (replicate (Z.to_nat BUFFER_SIZE) 0) 0 0 0.

(** Pushing a sequence of bytes, one call each, in order. *)
Definition pushes (dev : ring) (bytes : list Z) : ring :=
  fold_left buffer_push bytes dev.

(** [n] successive calls of [buffer_pop], with their results. *)
Fixpoint pops (n : nat) (dev : ring) : list (option Z) * ring :=
  match n with
  | O => ([], dev)
  | S n' =>
      let '(r, dev') := buffer_pop dev in
      let '(rs, dev'') := pops n' dev' in
      (r :: rs, dev'')
  end.

(** Representation invariant of the queue. *)
Definition ring_wf (dev : ring) : Prop :=
  Z.of_nat (length (buffer dev)) = BUFFER_SIZE /\
  0 <= head dev < BUFFER_SIZE /\
  0 <= tail dev < BUFFER_SIZE.

(** Number of bytes held: [count = (head - tail) mod N]. *)
Definition count (dev : ring) : Z := (head dev - tail dev) mod BUFFER_SIZE.

(** The bytes held, oldest first. *)
Definition contents (dev : ring) : list Z :=
  map (fun i : nat => rd (buffer dev) ((tail dev + Z.of_nat i) mod BUFFER_SIZE))
      (seq 0 (Z.to_nat (count dev))).

End ByteQueue.

(* ------------------------------------------------------------------ *)
(** ** Event sink *)

(** What the drivers hand to the input core, in call order. *)
Inductive input_event : Type :=
| report_key (code : Z) (value : bool)   (* input_report_key *)
| report_rel (code : Z) (value : Z)      (* input_report_rel *)
| sync.                                  (* input_sync *)

(** Return value of a sysfs store: [count] on success, or a negative errno
    ([-EINVAL], or what [kstrtoul] returned). *)
Inductive store_result : Type := Stored | Rejected.

(* ------------------------------------------------------------------ *)
(** ** Mouse driver (drivers/mouse_driver.c) *)

Module Mouse.

Definition BUFFER_SIZE : Z := 512.
Definition PACKET_SIZE_STANDARD : Z := 3.
Definition PACKET_SIZE_INTELLIMOUSE : Z := 4.

(** Codes of linux/input-event-codes.h used by the driver. *)
Definition BTN_LEFT : Z := 0x110.
Definition BTN_RIGHT : Z := 0x111.
Definition BTN_MIDDLE : Z := 0x112.
Definition BTN_SIDE : Z := 0x113.
Definition BTN_EXTRA : Z := 0x114.
Definition REL_X : Z := 0x00.
Definition REL_Y : Z := 0x01.
Definition REL_WHEEL : Z := 0x08.

(** [struct vmouse_device]. [input] is the log of what was reported to the
    input device, [tasklet] the scheduled bit of the tasklet, [q] the four
    queue fields. [start_jiffies] is not modelled. *)
Record vmouse_device : Type := mk_dev {
  input : list input_event;
  tasklet : bool;
  q : ring;
  packet : list Z;              (* unsigned char packet[4] *)
  packet_idx : Z;               (* unsigned int *)
  current_packet_size : Z;      (* unsigned int *)
  total_packets : Z;            (* unsigned long *)
  total_clicks : Z;             (* unsigned long *)
  left_clicks : Z;              (* unsigned long *)
  right_clicks : Z;             (* unsigned long *)
  middle_clicks : Z;            (* unsigned long *)
  side_clicks : Z;              (* unsigned long *)
  forward_clicks : Z;           (* unsigned long *)
  scroll_events : Z;            (* unsigned long *)
  total_dx : Z;                 (* long *)
  total_dy : Z;                 (* long *)
  total_distance : Z;           (* unsigned long *)
  invalid_packets : Z           (* unsigned long *)
}.

Definition set_input (v : list input_event) (d : vmouse_device) : vmouse_device :=
  mk_dev v (tasklet d) (q d) (packet d) (packet_idx d) (current_packet_size d)
    (total_packets d) (total_clicks d) (left_clicks d) (right_clicks d)
    (middle_clicks d) (side_clicks d) (forward_clicks d) (scroll_events d)
    (total_dx d) (total_dy d) (total_distance d) (invalid_packets d).

Definition set_tasklet (v : bool) (d : vmouse_device) : vmouse_device :=
  mk_dev (input d) v (q d) (packet d) (packet_idx d) (current_packet_size d)
    (total_packets d) (total_clicks d) (left_clicks d) (right_clicks d)
    (middle_clicks d) (side_clicks d) (forward_clicks d) (scroll_events d)
    (total_dx d) (total_dy d) (total_distance d) (invalid_packets d).

Definition set_q (v : ring) (d : vmouse_device) : vmouse_device :=
  mk_dev (input d) (tasklet d) v (packet d) (packet_idx d) (current_packet_size d)
    (total_packets d) (total_clicks d) (left_clicks d) (right_clicks d)
    (middle_clicks d) (side_clicks d) (forward_clicks d) (scroll_events d)
    (total_dx d) (total_dy d) (total_distance d) (invalid_packets d).

Definition set_packet (v : list Z) (d : vmouse_device) : vmouse_device :=
  mk_dev (input d) (tasklet d) (q d) v (packet_idx d) (current_packet_size d)
    (total_packets d) (total_clicks d) (left_clicks d) (right_clicks d)
    (middle_clicks d) (side_clicks d) (forward_clicks d) (scroll_events d)
    (total_dx d) (total_dy d) (total_distance d) (invalid_packets d).

Definition set_packet_idx (v : Z) (d : vmouse_device) : vmouse_device :=
  mk_dev (input d) (tasklet d) (q d) (packet d) v (current_packet_size d)
    (total_packets d) (total_clicks d) (left_clicks d) (right_clicks d)
    (middle_clicks d) (side_clicks d) (forward_clicks d) (scroll_events d)
    (total_dx d) (total_dy d) (total_distance d) (invalid_packets d).

Definition set_current_packet_size (v : Z) (d : vmouse_device) : vmouse_device :=
  mk_dev (input d) (tasklet d) (q d) (packet d) (packet_idx d) v
    (total_packets d) (total_clicks d) (left_clicks d) (right_clicks d)
    (middle_clicks d) (side_clicks d) (forward_clicks d) (scroll_events d)
    (total_dx d) (total_dy d) (total_distance d) (invalid_packets d).

Definition set_invalid_packets (v : Z) (d : vmouse_device) : vmouse_device :=
  mk_dev (input d) (tasklet d) (q d) (packet d) (packet_idx d) (current_packet_size d)
    (total_packets d) (total_clicks d) (left_clicks d) (right_clicks d)
    (middle_clicks d) (side_clicks d) (forward_clicks d) (scroll_events d)
    (total_dx d) (total_dy d) (total_distance d) v.

(** PS/2 packet bit definitions. *)
Definition PS2_LEFT_BTN : Z := Z.shiftl 1 0.
Definition PS2_RIGHT_BTN : Z := Z.shiftl 1 1.
Definition PS2_MIDDLE_BTN : Z := Z.shiftl 1 2.
Definition PS2_ALWAYS_ONE : Z := Z.shiftl 1 3.
Definition PS2_X_SIGN : Z := Z.shiftl 1 4.
Definition PS2_Y_SIGN : Z := Z.shiftl 1 5.
Definition PS2_X_OVERFLOW : Z := Z.shiftl 1 6.
Definition PS2_Y_OVERFLOW : Z := Z.shiftl 1 7.

(** IntelliMouse byte 3. *)
Definition IM_WHEEL_MASK : Z := 0x0F.
Definition IM_BTN4 : Z := Z.shiftl 1 4.
Definition IM_BTN5 : Z := Z.shiftl 1 5.

(** The queue functions of the driver, on the device. *)
Definition buffer_empty (dev : vmouse_device) : bool := buffer_empty (q dev).
Definition buffer_full (dev : vmouse_device) : bool := buffer_full BUFFER_SIZE (q dev).
Definition buffer_push (dev : vmouse_device) (byte : Z) : vmouse_device :=
  set_q (buffer_push BUFFER_SIZE (q dev) byte) dev.
Definition buffer_pop (dev : vmouse_device) : option Z * vmouse_device :=
  let '(r, q') := buffer_pop BUFFER_SIZE (q dev) in (r, set_q q' dev).

(** [apply_dpi]: [(value * dpi_multiplier) / 100] on [int]; C division
    truncates towards zero. [dpi_multiplier] is a file-scope variable of the
    driver and is passed explicitly. *)
Definition apply_dpi (dpi_multiplier : Z) (value : Z) : Z :=
  Z.quot (C.int32 (value * dpi_multiplier)) 100.

Arguments apply_dpi : simpl never.

(** The locals of [process_packet] once a valid packet is decoded. *)
Record MotionState : Type := mk_motion {
  left : bool;
  right : bool;
  middle : bool;
  btn_side : bool;
  btn_forward : bool;
  dx : Z;                       (* int *)
  dy : Z;                       (* int *)
  scroll : Z                    (* signed char *)
}.

(** Lines 163-208 of [process_packet]: validation and decoding. [None] is
    the early [return false] of the validity check. *)
Definition decode (dpi_multiplier : Z) (dev : vmouse_device) : option MotionState :=
  let status := rd (packet dev) 0 in
  let dx_raw := C.schar (rd (packet dev) 1) in
  let dy_raw := C.schar (rd (packet dev) 2) in
  if negb (C.truthy (Z.land status PS2_ALWAYS_ONE)) then None
  else
    let left := negb (Z.land status PS2_LEFT_BTN =? 0) in
    let right := negb (Z.land status PS2_RIGHT_BTN =? 0) in
    let middle := negb (Z.land status PS2_MIDDLE_BTN =? 0) in
    let dx := apply_dpi dpi_multiplier dx_raw in
    let dy := apply_dpi dpi_multiplier dy_raw in
    let dy := C.int32 (- dy) in
    if current_packet_size dev =? PACKET_SIZE_INTELLIMOUSE then
      let extra := rd (packet dev) 3 in
      let scroll :=
        C.schar (Z.lor (Z.land extra IM_WHEEL_MASK)
                       (if C.truthy (Z.land extra 0x08) then 0xF0 else 0x00)) in
      let btn_side := negb (Z.land extra IM_BTN4 =? 0) in
      let btn_forward := negb (Z.land extra IM_BTN5 =? 0) in
      Some (mk_motion left right middle btn_side btn_forward dx dy scroll)
    else
      Some (mk_motion left right middle false false dx dy 0).

(** [if (b) x++] on an [unsigned long]. *)
Definition bump (b : bool) (x : Z) : Z := if b then C.ulong (x + 1) else x.

(** Lines 210-220: the statistics update. *)
Definition account (m : MotionState) (dev : vmouse_device) : vmouse_device :=
  mk_dev (input dev) (tasklet dev) (q dev) (packet dev) (packet_idx dev)
    (current_packet_size dev)
    (C.ulong (total_packets dev + 1))
    (bump (btn_forward m) (bump (btn_side m) (bump (middle m)
       (bump (right m) (bump (left m) (total_clicks dev))))))
    (bump (left m) (left_clicks dev))
    (bump (right m) (right_clicks dev))
    (bump (middle m) (middle_clicks dev))
    (bump (btn_side m) (side_clicks dev))
    (bump (btn_forward m) (forward_clicks dev))
    (bump (negb (scroll m =? 0)) (scroll_events dev))
    (C.long (total_dx dev + dx m))
    (C.long (total_dy dev + dy m))
    (C.ulong (total_distance dev + C.int32 (C.abs (dx m) + C.abs (dy m))))
    (invalid_packets dev).

(** Lines 225-241: what is reported to the input device. *)
Definition report (m : MotionState) : list input_event :=
  [report_key BTN_LEFT (left m);
   report_key BTN_RIGHT (right m);
   report_key BTN_MIDDLE (middle m);
   report_key BTN_SIDE (btn_side m);
   report_key BTN_EXTRA (btn_forward m)]
  ++ (if negb (dx m =? 0) then [report_rel REL_X (dx m)] else [])
  ++ (if negb (dy m =? 0) then [report_rel REL_Y (dy m)] else [])
  ++ (if negb (scroll m =? 0) then [report_rel REL_WHEEL (scroll m)] else [])
  ++ [sync].

Definition process_packet (dpi_multiplier : Z) (dev : vmouse_device)
  : bool * vmouse_device :=
  match decode dpi_multiplier dev with
  | None => (false, set_invalid_packets (C.ulong (invalid_packets dev + 1)) dev)
  | Some m => (true, set_input (input dev ++ report m) (account m dev))
  end.

(** Body of the loop of [vmouse_tasklet_handler] for one popped byte. *)
Definition feed (dpi_multiplier : Z) (dev : vmouse_device) (byte : Z) : vmouse_device :=
  let dev := set_packet_idx (C.uint32 (packet_idx dev + 1))
               (set_packet (wr (packet dev) (packet_idx dev) byte) dev) in
  if current_packet_size dev <=? packet_idx dev then
    set_packet_idx 0 (snd (process_packet dpi_multiplier dev))
  else dev.

(** [while (buffer_pop(dev, &byte)) ...], unrolled at most [fuel] times. *)
Fixpoint tasklet_loop (fuel : nat) (dpi_multiplier : Z) (dev : vmouse_device)
  : vmouse_device :=
  match fuel with
  | O => dev
  | S fuel' =>
      match buffer_pop dev with
      | (Some byte, dev') => tasklet_loop fuel' dpi_multiplier (feed dpi_multiplier dev' byte)
      | (None, dev') => dev'
      end
  end.

(** The queue never holds [BUFFER_SIZE] bytes, so [BUFFER_SIZE] iterations
    drain it (proved below as [Mouse.tasklet_drains]). *)
Definition vmouse_tasklet_handler (dpi_multiplier : Z) (dev : vmouse_device)
  : vmouse_device :=
  tasklet_loop (Z.to_nat BUFFER_SIZE) dpi_multiplier dev.

(** [vmouse_simulate_irq]: push, then [tasklet_schedule], which only marks
    the tasklet as scheduled; the handler runs later in softirq context. *)
Definition vmouse_simulate_irq (dev : vmouse_device) (byte : Z) : vmouse_device :=
  set_tasklet true (buffer_push dev byte).

(** The softirq running the tasklet if it is scheduled. *)
Definition run_tasklet (dpi_multiplier : Z) (dev : vmouse_device) : vmouse_device :=
  if tasklet dev then vmouse_tasklet_handler dpi_multiplier (set_tasklet false dev)
  else dev.

(** The driver: the device and the two module parameters. *)
Record vmouse : Type := mk_vmouse {
  vmouse_dev : vmouse_device;
  dpi_multiplier : Z;           (* int *)
  intellimouse_mode : bool
}.

Definition packet_size_of_mode (intellimouse_mode : bool) : Z :=
  if intellimouse_mode then PACKET_SIZE_INTELLIMOUSE else PACKET_SIZE_STANDARD.

(** [vmouse_init] with the module parameters given at load time. *)
Definition vmouse_init (dpi : Z) (im : bool) : vmouse :=
  mk_vmouse
    (mk_dev [] false (ring_init BUFFER_SIZE) [0; 0; 0; 0] 0 (packet_size_of_mode im)
            0 0 0 0 0 0 0 0 0 0 0 0)
    dpi im.

(** Invariant of the packet assembler between two steps of the driver:
    the array indices the code uses are in range. *)
Definition dev_ok (dev : vmouse_device) : Prop :=
  ring_wf BUFFER_SIZE (q dev) /\
  length (packet dev) = 4%nat /\
  (current_packet_size dev = PACKET_SIZE_STANDARD \/
   current_packet_size dev = PACKET_SIZE_INTELLIMOUSE) /\
  0 <= packet_idx dev <= 3.

(** Feeding bytes to the packet assembler one after the other. *)
Definition feed_all (dpi_multiplier : Z) (dev : vmouse_device) (bytes : list Z)
  : vmouse_device :=
  fold_left (feed dpi_multiplier) bytes dev.

(** *** Sysfs stores

    A store receives what the kernel parser makes of the written text:
    [kstrtoint] gives [Some v] or fails ([None]); the loop of
    [inject_packet_store] sees, at each non-blank position, the number read
    by [simple_strtoul] ([Some v], [0 <= v]) or no digits at all ([None]). *)

(** Lines 288-307: at most [expected] numbers are read; the end of the text
    stops the loop, a position without digits or a value above [0xFF] is
    rejected ([None]). *)
Fixpoint parse_bytes (expected : nat) (tokens : list (option Z)) : option (list Z) :=
  match expected with
  | O => Some []
  | S expected' =>
      match tokens with
      | [] => Some []
      | None :: _ => None
      | Some v :: rest =>
          if 0xFF <? v then None
          else match parse_bytes expected' rest with
               | Some bytes => Some (v :: bytes)
               | None => None
               end
      end
  end.

(** [for (i = 0; i < n; i++) vmouse_simulate_irq((unsigned char)bytes[i])].
    The store runs in process context, so the softirq may or may not get to
    run the scheduled tasklet before the next statement: [sched] says, for
    each byte in turn, whether it does (missing entries: it does not). *)
Fixpoint inject_bytes (sched : list bool) (dpi_multiplier : Z)
  (dev : vmouse_device) (bytes : list Z) : vmouse_device :=
  match bytes with
  | [] => dev
  | b :: bytes' =>
      let dev := vmouse_simulate_irq dev (C.uchar b) in
      let dev := if hd false sched then run_tasklet dpi_multiplier dev else dev in
      inject_bytes (tl sched) dpi_multiplier dev bytes'
  end.

Definition set_dev (v : vmouse_device) (s : vmouse) : vmouse :=
  mk_vmouse v (dpi_multiplier s) (intellimouse_mode s).

(** [tasklet_disable] waits only for a handler that is running at that
    moment and [tasklet_enable] undoes it; with the handler atomic, the
    pair changes nothing. *)
Definition inject_packet_store (sched : list bool) (s : vmouse)
  (tokens : list (option Z)) : store_result * vmouse :=
  let dev := vmouse_dev s in
  let expected := current_packet_size dev in
  match parse_bytes (Z.to_nat expected) tokens with
  | None => (Rejected, s)
  | Some bytes =>
      let n := Z.of_nat (length bytes) in
      if negb (n =? 3) && negb (n =? 4) then (Rejected, s)
      else if (n =? 3) && (current_packet_size dev =? PACKET_SIZE_INTELLIMOUSE) then
        let saved := current_packet_size dev in
        let dev := set_current_packet_size PACKET_SIZE_STANDARD dev in
        let dev := inject_bytes sched (dpi_multiplier s) dev bytes in
        let dev := set_current_packet_size saved dev in
        (Stored, set_dev dev s)
      else
        (Stored, set_dev (inject_bytes sched (dpi_multiplier s) dev bytes) s)
  end.

Definition dpi_store (s : vmouse) (val : option Z) : store_result * vmouse :=
  match val with
  | None => (Rejected, s)
  | Some val =>
      if (val <? 10) || (1000 <? val) then (Rejected, s)
      else (Stored, mk_vmouse (vmouse_dev s) val (intellimouse_mode s))
  end.

Definition intellimouse_store (s : vmouse) (val : option Z) : store_result * vmouse :=
  match val with
  | None => (Rejected, s)
  | Some val =>
      let im := C.truthy val in
      (Stored,
       mk_vmouse
         (set_packet_idx 0
            (set_current_packet_size (packet_size_of_mode im) (vmouse_dev s)))
         (dpi_multiplier s) im)
  end.

(** *** Operations of the driver as seen from outside *)

Inductive op : Type :=
| inject_packet (sched : list bool) (tokens : list (option Z))
| dpi (val : option Z)
| intellimouse (val : option Z)
| softirq.                      (* the scheduled tasklet gets to run *)

Definition step (s : vmouse) (o : op) : vmouse :=
  match o with
  | inject_packet sched tokens => snd (inject_packet_store sched s tokens)
  | dpi val => snd (dpi_store s val)
  | intellimouse val => snd (intellimouse_store s val)
  | softirq => set_dev (run_tasklet (dpi_multiplier s) (vmouse_dev s)) s
  end.

Definition run (s : vmouse) (ops : list op) : vmouse := fold_left step ops s.

(** States the driver can be in: loaded with some parameters, then any
    sequence of operations. *)
Definition reachable (s : vmouse) : Prop :=
  exists dpi im ops, s = run (vmouse_init dpi im) ops.


(** The unsigned statistics counters of the device. *)
Definition counters (dev : vmouse_device) : list Z :=
  [total_packets dev; total_clicks dev; left_clicks dev; right_clicks dev;
   middle_clicks dev; side_clicks dev; forward_clicks dev; scroll_events dev;
   total_distance dev; buffer_overflows (q dev); invalid_packets dev].

End Mouse.

(* ------------------------------------------------------------------ *)
(** ** Keyboard driver (drivers/keyboard_driver.c) *)

Module Kbd.

Definition BUFFER_SIZE : Z := 256.

(** Key codes of linux/input-event-codes.h named by the table. *)
Definition KEY_ESC : Z := 1.
Definition KEY_1 : Z := 2.
Definition KEY_2 : Z := 3.
Definition KEY_3 : Z := 4.
Definition KEY_4 : Z := 5.
Definition KEY_5 : Z := 6.
Definition KEY_6 : Z := 7.
Definition KEY_7 : Z := 8.
Definition KEY_8 : Z := 9.
Definition KEY_9 : Z := 10.
Definition KEY_0 : Z := 11.
Definition KEY_MINUS : Z := 12.
Definition KEY_EQUAL : Z := 13.
Definition KEY_BACKSPACE : Z := 14.
Definition KEY_TAB : Z := 15.
Definition KEY_Q : Z := 16.
Definition KEY_W : Z := 17.
Definition KEY_E : Z := 18.
Definition KEY_R : Z := 19.
Definition KEY_T : Z := 20.
Definition KEY_Y : Z := 21.
Definition KEY_U : Z := 22.
Definition KEY_I : Z := 23.
Definition KEY_O : Z := 24.
Definition KEY_P : Z := 25.
Definition KEY_LEFTBRACE : Z := 26.
Definition KEY_RIGHTBRACE : Z := 27.
Definition KEY_ENTER : Z := 28.
Definition KEY_LEFTCTRL : Z := 29.
Definition KEY_A : Z := 30.
Definition KEY_S : Z := 31.
Definition KEY_D : Z := 32.
Definition KEY_F : Z := 33.
Definition KEY_G : Z := 34.
Definition KEY_H : Z := 35.
Definition KEY_J : Z := 36.
Definition KEY_K : Z := 37.
Definition KEY_L : Z := 38.
Definition KEY_SEMICOLON : Z := 39.
Definition KEY_APOSTROPHE : Z := 40.
Definition KEY_GRAVE : Z := 41.
Definition KEY_LEFTSHIFT : Z := 42.
Definition KEY_BACKSLASH : Z := 43.
Definition KEY_Z : Z := 44.
Definition KEY_X : Z := 45.
Definition KEY_C : Z := 46.
Definition KEY_V : Z := 47.
Definition KEY_B : Z := 48.
Definition KEY_N : Z := 49.
Definition KEY_M : Z := 50.
Definition KEY_COMMA : Z := 51.
Definition KEY_DOT : Z := 52.
Definition KEY_SLASH : Z := 53.
Definition KEY_RIGHTSHIFT : Z := 54.
Definition KEY_KPASTERISK : Z := 55.
Definition KEY_LEFTALT : Z := 56.
Definition KEY_SPACE : Z := 57.
Definition KEY_CAPSLOCK : Z := 58.
Definition KEY_F1 : Z := 59.
Definition KEY_F2 : Z := 60.
Definition KEY_F3 : Z := 61.
Definition KEY_F4 : Z := 62.
Definition KEY_F5 : Z := 63.
Definition KEY_F6 : Z := 64.
Definition KEY_F7 : Z := 65.
Definition KEY_F8 : Z := 66.
Definition KEY_F9 : Z := 67.
Definition KEY_F10 : Z := 68.
Definition KEY_NUMLOCK : Z := 69.
Definition KEY_SCROLLLOCK : Z := 70.
Definition KEY_KP7 : Z := 71.
Definition KEY_KP8 : Z := 72.
Definition KEY_KP9 : Z := 73.
Definition KEY_KPMINUS : Z := 74.
Definition KEY_KP4 : Z := 75.
Definition KEY_KP5 : Z := 76.
Definition KEY_KP6 : Z := 77.
Definition KEY_KPPLUS : Z := 78.
Definition KEY_KP1 : Z := 79.
Definition KEY_KP2 : Z := 80.
Definition KEY_KP3 : Z := 81.
Definition KEY_KP0 : Z := 82.
Definition KEY_KPDOT : Z := 83.
Definition KEY_102ND : Z := 86.
Definition KEY_F11 : Z := 87.
Definition KEY_F12 : Z := 88.
Definition KEY_LEFTMETA : Z := 125.
Definition KEY_RIGHTMETA : Z := 126.
Definition KEY_COMPOSE : Z := 127.
Definition KEY_POWER : Z := 116.
Definition KEY_SLEEP : Z := 142.
Definition KEY_WAKEUP : Z := 143.
Definition KEY_SEARCH : Z := 217.
Definition KEY_BOOKMARKS : Z := 156.
Definition KEY_UP : Z := 103.
Definition KEY_PAGEUP : Z := 104.
Definition KEY_LEFT : Z := 105.
Definition KEY_RIGHT : Z := 106.
Definition KEY_END : Z := 107.
Definition KEY_DOWN : Z := 108.
Definition KEY_PAGEDOWN : Z := 109.
Definition KEY_INSERT : Z := 110.
Definition KEY_DELETE : Z := 111.
Definition KEY_MUTE : Z := 113.
Definition KEY_VOLUMEDOWN : Z := 114.
Definition KEY_VOLUMEUP : Z := 115.
Definition KEY_PLAYPAUSE : Z := 164.
Definition KEY_STOPCD : Z := 166.
Definition KEY_PREVIOUSSONG : Z := 165.
Definition KEY_NEXTSONG : Z := 163.
Definition KEY_HOMEPAGE : Z := 172.
Definition KEY_MAIL : Z := 155.
Definition KEY_CALC : Z := 140.
Definition KEY_COMPUTER : Z := 157.
Definition KEY_KPENTER : Z := 96.
Definition KEY_RIGHTCTRL : Z := 97.
Definition KEY_RIGHTALT : Z := 100.
Definition KEY_HOME : Z := 102.

(** [scancode_to_keycode[128]]: PS/2 set 1 make codes to key codes, [0] for
    a scan code without mapping. *)
Definition scancode_to_keycode : list Z :=
  [
    (* 0x00 *) 0; KEY_ESC; KEY_1; KEY_2;
    (* 0x04 *) KEY_3; KEY_4; KEY_5; KEY_6;
    (* 0x08 *) KEY_7; KEY_8; KEY_9; KEY_0;
    (* 0x0C *) KEY_MINUS; KEY_EQUAL; KEY_BACKSPACE; KEY_TAB;
    (* 0x10 *) KEY_Q; KEY_W; KEY_E; KEY_R;
    (* 0x14 *) KEY_T; KEY_Y; KEY_U; KEY_I;
    (* 0x18 *) KEY_O; KEY_P; KEY_LEFTBRACE; KEY_RIGHTBRACE;
    (* 0x1C *) KEY_ENTER; KEY_LEFTCTRL; KEY_A; KEY_S;
    (* 0x20 *) KEY_D; KEY_F; KEY_G; KEY_H;
    (* 0x24 *) KEY_J; KEY_K; KEY_L; KEY_SEMICOLON;
    (* 0x28 *) KEY_APOSTROPHE; KEY_GRAVE; KEY_LEFTSHIFT; KEY_BACKSLASH;
    (* 0x2C *) KEY_Z; KEY_X; KEY_C; KEY_V;
    (* 0x30 *) KEY_B; KEY_N; KEY_M; KEY_COMMA;
    (* 0x34 *) KEY_DOT; KEY_SLASH; KEY_RIGHTSHIFT; KEY_KPASTERISK;
    (* 0x38 *) KEY_LEFTALT; KEY_SPACE; KEY_CAPSLOCK; KEY_F1;
    (* 0x3C *) KEY_F2; KEY_F3; KEY_F4; KEY_F5;
    (* 0x40 *) KEY_F6; KEY_F7; KEY_F8; KEY_F9;
    (* 0x44 *) KEY_F10; KEY_NUMLOCK; KEY_SCROLLLOCK; KEY_KP7;
    (* 0x48 *) KEY_KP8; KEY_KP9; KEY_KPMINUS; KEY_KP4;
    (* 0x4C *) KEY_KP5; KEY_KP6; KEY_KPPLUS; KEY_KP1;
    (* 0x50 *) KEY_KP2; KEY_KP3; KEY_KP0; KEY_KPDOT;
    (* 0x54 *) 0; 0; KEY_102ND; KEY_F11;
    (* 0x58 *) KEY_F12; 0; 0; KEY_LEFTMETA;
    (* 0x5C *) KEY_RIGHTMETA; KEY_COMPOSE; KEY_POWER; KEY_SLEEP;
    (* 0x60 *) 0; 0; 0; KEY_WAKEUP;
    (* 0x64 *) 0; KEY_SEARCH; KEY_BOOKMARKS; KEY_UP;
    (* 0x68 *) KEY_PAGEUP; KEY_LEFT; KEY_RIGHT; KEY_END;
    (* 0x6C *) KEY_DOWN; KEY_PAGEDOWN; KEY_INSERT; KEY_DELETE;
    (* 0x70 *) 0; KEY_MUTE; KEY_VOLUMEDOWN; KEY_VOLUMEUP;
    (* 0x74 *) KEY_PLAYPAUSE; KEY_STOPCD; KEY_PREVIOUSSONG; KEY_NEXTSONG;
    (* 0x78 *) KEY_HOMEPAGE; KEY_MAIL; KEY_CALC; KEY_COMPUTER;
    (* 0x7C *) KEY_KPENTER; KEY_RIGHTCTRL; KEY_RIGHTALT; KEY_HOME
  ].

Definition ARRAY_SIZE_scancode_to_keycode : Z := 128.

(** [struct vkbd_device]. [input] is the log of what was reported to the
    input device, [tasklet] the scheduled bit of the tasklet, [q] the four
    queue fields. The counters are [unsigned long]. [start_jiffies] is not
    modelled. *)
Record vkbd_device : Type := mk_dev {
  input : list input_event;
  tasklet : bool;
  q : ring;
  shift_pressed : bool;
  ctrl_pressed : bool;
  alt_pressed : bool;
  caps_lock : bool;
  num_lock : bool;
  scroll_lock : bool;
  total_keypresses : Z;
  total_keyreleases : Z;
  unknown_scancodes : Z;
  combo_detections : Z
}.

Definition set_input (v : list input_event) (d : vkbd_device) : vkbd_device :=
  mk_dev v (tasklet d) (q d) (shift_pressed d) (ctrl_pressed d)
    (alt_pressed d) (caps_lock d) (num_lock d) (scroll_lock d)
    (total_keypresses d) (total_keyreleases d) (unknown_scancodes d)
    (combo_detections d).

Definition set_tasklet (v : bool) (d : vkbd_device) : vkbd_device :=
  mk_dev (input d) v (q d) (shift_pressed d) (ctrl_pressed d) (alt_pressed d)
    (caps_lock d) (num_lock d) (scroll_lock d) (total_keypresses d)
    (total_keyreleases d) (unknown_scancodes d) (combo_detections d).

Definition set_q (v : ring) (d : vkbd_device) : vkbd_device :=
  mk_dev (input d) (tasklet d) v (shift_pressed d) (ctrl_pressed d)
    (alt_pressed d) (caps_lock d) (num_lock d) (scroll_lock d)
    (total_keypresses d) (total_keyreleases d) (unknown_scancodes d)
    (combo_detections d).

Definition set_shift_pressed (v : bool) (d : vkbd_device) : vkbd_device :=
  mk_dev (input d) (tasklet d) (q d) v (ctrl_pressed d) (alt_pressed d)
    (caps_lock d) (num_lock d) (scroll_lock d) (total_keypresses d)
    (total_keyreleases d) (unknown_scancodes d) (combo_detections d).

Definition set_ctrl_pressed (v : bool) (d : vkbd_device) : vkbd_device :=
  mk_dev (input d) (tasklet d) (q d) (shift_pressed d) v (alt_pressed d)
    (caps_lock d) (num_lock d) (scroll_lock d) (total_keypresses d)
    (total_keyreleases d) (unknown_scancodes d) (combo_detections d).

Definition set_alt_pressed (v : bool) (d : vkbd_device) : vkbd_device :=
  mk_dev (input d) (tasklet d) (q d) (shift_pressed d) (ctrl_pressed d) v
    (caps_lock d) (num_lock d) (scroll_lock d) (total_keypresses d)
    (total_keyreleases d) (unknown_scancodes d) (combo_detections d).

Definition set_caps_lock (v : bool) (d : vkbd_device) : vkbd_device :=
  mk_dev (input d) (tasklet d) (q d) (shift_pressed d) (ctrl_pressed d)
    (alt_pressed d) v (num_lock d) (scroll_lock d) (total_keypresses d)
    (total_keyreleases d) (unknown_scancodes d) (combo_detections d).

Definition set_num_lock (v : bool) (d : vkbd_device) : vkbd_device :=
  mk_dev (input d) (tasklet d) (q d) (shift_pressed d) (ctrl_pressed d)
    (alt_pressed d) (caps_lock d) v (scroll_lock d) (total_keypresses d)
    (total_keyreleases d) (unknown_scancodes d) (combo_detections d).

Definition set_scroll_lock (v : bool) (d : vkbd_device) : vkbd_device :=
  mk_dev (input d) (tasklet d) (q d) (shift_pressed d) (ctrl_pressed d)
    (alt_pressed d) (caps_lock d) (num_lock d) v (total_keypresses d)
    (total_keyreleases d) (unknown_scancodes d) (combo_detections d).

Definition set_total_keypresses (v : Z) (d : vkbd_device) : vkbd_device :=
  mk_dev (input d) (tasklet d) (q d) (shift_pressed d) (ctrl_pressed d)
    (alt_pressed d) (caps_lock d) (num_lock d) (scroll_lock d) v
    (total_keyreleases d) (unknown_scancodes d) (combo_detections d).

Definition set_total_keyreleases (v : Z) (d : vkbd_device) : vkbd_device :=
  mk_dev (input d) (tasklet d) (q d) (shift_pressed d) (ctrl_pressed d)
    (alt_pressed d) (caps_lock d) (num_lock d) (scroll_lock d)
    (total_keypresses d) v (unknown_scancodes d) (combo_detections d).

Definition set_unknown_scancodes (v : Z) (d : vkbd_device) : vkbd_device :=
  mk_dev (input d) (tasklet d) (q d) (shift_pressed d) (ctrl_pressed d)
    (alt_pressed d) (caps_lock d) (num_lock d) (scroll_lock d)
    (total_keypresses d) (total_keyreleases d) v (combo_detections d).

Definition set_combo_detections (v : Z) (d : vkbd_device) : vkbd_device :=
  mk_dev (input d) (tasklet d) (q d) (shift_pressed d) (ctrl_pressed d)
    (alt_pressed d) (caps_lock d) (num_lock d) (scroll_lock d)
    (total_keypresses d) (total_keyreleases d) (unknown_scancodes d) v.

(** The queue functions of the driver, on the device. *)
Definition buffer_empty (dev : vkbd_device) : bool := buffer_empty (q dev).
Definition buffer_full (dev : vkbd_device) : bool := buffer_full BUFFER_SIZE (q dev).
Definition buffer_push (dev : vkbd_device) (scancode : Z) : vkbd_device :=
  set_q (buffer_push BUFFER_SIZE (q dev) scancode) dev.
Definition buffer_pop (dev : vkbd_device) : option Z * vkbd_device :=
  let '(r, q') := buffer_pop BUFFER_SIZE (q dev) in (r, set_q q' dev).

(** One combo of [check_combos]: [if (held && keycode == key)
    dev->combo_detections++]. *)
Definition combo (held : bool) (key keycode : Z) (dev : vkbd_device) : vkbd_device :=
  if held && (keycode =? key) then
    set_combo_detections (C.ulong (combo_detections dev + 1)) dev
  else dev.

Definition check_combos (dev : vkbd_device) (keycode : Z) (pressed : bool)
  : vkbd_device :=
  if negb pressed then dev
  else
    let dev := combo (ctrl_pressed dev) KEY_C keycode dev in
    let dev := combo (ctrl_pressed dev) KEY_Z keycode dev in
    let dev := combo (ctrl_pressed dev) KEY_V keycode dev in
    let dev := combo (ctrl_pressed dev) KEY_X keycode dev in
    let dev := combo (alt_pressed dev) KEY_TAB keycode dev in
    let dev := combo (alt_pressed dev) KEY_F4 keycode dev in
    let dev := combo (ctrl_pressed dev && alt_pressed dev) KEY_DELETE keycode dev in
    dev.

(** Body of the loop of [vkbd_tasklet_handler] for one popped scan code. *)
Definition translate (dev : vkbd_device) (scancode : Z) : vkbd_device :=
  let key_release := negb (Z.land scancode 0x80 =? 0) in
  let scancode := Z.land scancode 0x7F in
  if ARRAY_SIZE_scancode_to_keycode <=? scancode then
    set_unknown_scancodes (C.ulong (unknown_scancodes dev + 1)) dev
  else
    let keycode := rd scancode_to_keycode scancode in
    if keycode =? 0 then
      set_unknown_scancodes (C.ulong (unknown_scancodes dev + 1)) dev
    else
      let dev :=
        if (keycode =? KEY_LEFTSHIFT) || (keycode =? KEY_RIGHTSHIFT)
        then set_shift_pressed (negb key_release) dev else dev in
      let dev :=
        if (keycode =? KEY_LEFTCTRL) || (keycode =? KEY_RIGHTCTRL)
        then set_ctrl_pressed (negb key_release) dev else dev in
      let dev :=
        if (keycode =? KEY_LEFTALT) || (keycode =? KEY_RIGHTALT)
        then set_alt_pressed (negb key_release) dev else dev in
      let dev :=
        if negb key_release then
          let dev := if keycode =? KEY_CAPSLOCK
                     then set_caps_lock (negb (caps_lock dev)) dev else dev in
          let dev := if keycode =? KEY_NUMLOCK
                     then set_num_lock (negb (num_lock dev)) dev else dev in
          let dev := if keycode =? KEY_SCROLLLOCK
                     then set_scroll_lock (negb (scroll_lock dev)) dev else dev in
          dev
        else dev in
      let dev := check_combos dev keycode (negb key_release) in
      let dev :=
        if key_release
        then set_total_keyreleases (C.ulong (total_keyreleases dev + 1)) dev
        else set_total_keypresses (C.ulong (total_keypresses dev + 1)) dev in
      set_input (input dev ++ [report_key keycode (negb key_release); sync]) dev.

(** [while (buffer_pop(dev, &scancode)) ...], unrolled at most [fuel] times. *)
Fixpoint tasklet_loop (fuel : nat) (dev : vkbd_device) : vkbd_device :=
  match fuel with
  | O => dev
  | S fuel' =>
      match buffer_pop dev with
      | (Some scancode, dev') => tasklet_loop fuel' (translate dev' scancode)
      | (None, dev') => dev'
      end
  end.

Definition vkbd_tasklet_handler (dev : vkbd_device) : vkbd_device :=
  tasklet_loop (Z.to_nat BUFFER_SIZE) dev.

(** [vkbd_simulate_irq]: push, then [tasklet_schedule]. *)
Definition vkbd_simulate_irq (dev : vkbd_device) (scancode : Z) : vkbd_device :=
  set_tasklet true (buffer_push dev scancode).

Definition run_tasklet (dev : vkbd_device) : vkbd_device :=
  if tasklet dev then vkbd_tasklet_handler (set_tasklet false dev) else dev.

(** The driver: the device, the two module parameters and the repeat
    settings of the input device ([input->rep[]]). *)
Record vkbd : Type := mk_vkbd {
  vkbd_dev : vkbd_device;
  repeat_delay : Z;             (* int *)
  repeat_rate : Z;              (* int *)
  rep_REP_DELAY : Z;
  rep_REP_PERIOD : Z
}.

Definition set_dev (v : vkbd_device) (s : vkbd) : vkbd :=
  mk_vkbd v (repeat_delay s) (repeat_rate s) (rep_REP_DELAY s) (rep_REP_PERIOD s).

(** [vkbd_init] with the module parameters given at load time. *)
Definition vkbd_init (delay rate : Z) : vkbd :=
  mk_vkbd
    (mk_dev [] false (ring_init BUFFER_SIZE) false false false false false false
            0 0 0 0)
    delay rate delay rate.

(** *** Sysfs stores ([kstrtoul]/[kstrtoint] give [Some v] or fail) *)

Definition inject_scancode_store (s : vkbd) (scancode : option Z)
  : store_result * vkbd :=
  match scancode with
  | None => (Rejected, s)
  | Some scancode =>
      if 0xFF <? scancode then (Rejected, s)
      else (Stored, set_dev (vkbd_simulate_irq (vkbd_dev s) (C.uchar scancode)) s)
  end.

Definition led_caps_store (s : vkbd) (val : option Z) : store_result * vkbd :=
  match val with
  | None => (Rejected, s)
  | Some val => (Stored, set_dev (set_caps_lock (C.truthy val) (vkbd_dev s)) s)
  end.

Definition led_num_store (s : vkbd) (val : option Z) : store_result * vkbd :=
  match val with
  | None => (Rejected, s)
  | Some val => (Stored, set_dev (set_num_lock (C.truthy val) (vkbd_dev s)) s)
  end.

Definition led_scroll_store (s : vkbd) (val : option Z) : store_result * vkbd :=
  match val with
  | None => (Rejected, s)
  | Some val => (Stored, set_dev (set_scroll_lock (C.truthy val) (vkbd_dev s)) s)
  end.

Definition repeat_delay_ms_store (s : vkbd) (val : option Z) : store_result * vkbd :=
  match val with
  | None => (Rejected, s)
  | Some val =>
      if (val <? 50) || (2000 <? val) then (Rejected, s)
      else (Stored, mk_vkbd (vkbd_dev s) val (repeat_rate s) val (rep_REP_PERIOD s))
  end.

Definition repeat_rate_ms_store (s : vkbd) (val : option Z) : store_result * vkbd :=
  match val with
  | None => (Rejected, s)
  | Some val =>
      if (val <? 10) || (500 <? val) then (Rejected, s)
      else (Stored, mk_vkbd (vkbd_dev s) (repeat_delay s) val (rep_REP_DELAY s) val)
  end.

(** *** Operations of the driver as seen from outside *)

Inductive op : Type :=
| inject_scancode (scancode : option Z)
| led_caps (val : option Z)
| led_num (val : option Z)
| led_scroll (val : option Z)
| repeat_delay_ms (val : option Z)
| repeat_rate_ms (val : option Z)
| softirq.                      (* the scheduled tasklet gets to run *)

Definition step (s : vkbd) (o : op) : vkbd :=
  match o with
  | inject_scancode scancode => snd (inject_scancode_store s scancode)
  | led_caps val => snd (led_caps_store s val)
  | led_num val => snd (led_num_store s val)
  | led_scroll val => snd (led_scroll_store s val)
  | repeat_delay_ms val => snd (repeat_delay_ms_store s val)
  | repeat_rate_ms val => snd (repeat_rate_ms_store s val)
  | softirq => set_dev (run_tasklet (vkbd_dev s)) s
  end.

Definition run (s : vkbd) (ops : list op) : vkbd := fold_left step ops s.

(** The statistics counters of the device (all unsigned). *)
Definition counters (dev : vkbd_device) : list Z :=
  [total_keypresses dev; total_keyreleases dev; buffer_overflows (q dev);
   unknown_scancodes dev; combo_detections dev].

(** Feeding scan codes to the translator one after the other. *)
Definition feed_all (dev : vkbd_device) (scancodes : list Z) : vkbd_device :=
  fold_left translate scancodes dev.

End Kbd.

(* ------------------------------------------------------------------ *)
(** ** Comparing counters before and after a step *)








(* ------------------------------------------------------------------ *)
(** ** The queue under interleaved pushes and pops *)

(** One call made on the queue by the producer or by the consumer. *)
Inductive queue_op : Type :=
| q_push (byte : Z)
| q_pop.

(** The calls made in order on the ring, with what each pop returned. *)
Fixpoint ring_run (BUFFER_SIZE : Z) (dev : ring) (ops : list queue_op)
  : list (option Z) * ring :=
  match ops with
  | [] => ([], dev)
  | q_push byte :: ops' => ring_run BUFFER_SIZE (buffer_push BUFFER_SIZE dev byte) ops'
  | q_pop :: ops' =>
      let '(r, dev') := buffer_pop BUFFER_SIZE dev in
      let '(rs, dev'') := ring_run BUFFER_SIZE dev' ops' in
      (r :: rs, dev'')
  end.

(** Reference queue: a list of at most [cap] bytes, oldest first, and a
    count of the bytes refused. *)
Fixpoint fifo_run (cap : Z) (held : list Z) (dropped : Z) (ops : list queue_op)
  : list (option Z) * (list Z * Z) :=
  match ops with
  | [] => ([], (held, dropped))
  | q_push byte :: ops' =>
      if Z.of_nat (length held) <? cap
      then fifo_run cap (held ++ [byte]) dropped ops'
      else fifo_run cap held (C.ulong (dropped + 1)) ops'
  | q_pop :: ops' =>
      match held with
      | [] =>
          let '(rs, st) := fifo_run cap [] dropped ops' in (None :: rs, st)
      | byte :: held' =>
          let '(rs, st) := fifo_run cap held' dropped ops' in (Some byte :: rs, st)
      end
  end.

(* ------------------------------------------------------------------ *)
(** ** Consistency of the click statistics *)

(** [total_clicks] is the sum of the five per-button counters, in
    [unsigned long] arithmetic. *)
Definition clicks_consistent (dev : Mouse.vmouse_device) : Prop :=
  Mouse.total_clicks dev
  = C.ulong (Mouse.left_clicks dev + Mouse.right_clicks dev + Mouse.middle_clicks dev
             + Mouse.side_clicks dev + Mouse.forward_clicks dev).

(* ------------------------------------------------------------------ *)
(** ** Reading a scan code *)

(** The table entry a scan code selects, and its release bit. *)
Definition scancode_key (scancode : Z) : Z :=
  rd Kbd.scancode_to_keycode (Z.land scancode 0x7F).

Definition scancode_release (scancode : Z) : bool :=
  negb (Z.land scancode 0x80 =? 0).

(** The combos of [check_combos] as one condition on the held modifiers and
    the key. *)
Definition combo_fires (ctrl alt : bool) (keycode : Z) : bool :=
  (ctrl && ((keycode =? Kbd.KEY_C) || (keycode =? Kbd.KEY_Z)
            || (keycode =? Kbd.KEY_V) || (keycode =? Kbd.KEY_X)))
  || (alt && ((keycode =? Kbd.KEY_TAB) || (keycode =? Kbd.KEY_F4)))
  || (ctrl && alt && (keycode =? Kbd.KEY_DELETE)).

(** Number of presses of [key] among the scan codes. *)
Definition presses_of (key : Z) (scancodes : list Z) : nat :=
  length (List.filter
            (fun sc => negb (scancode_release sc) && (scancode_key sc =? key))
            scancodes).

(** Number of scan codes with a table entry. *)
Definition mapped (scancodes : list Z) : list Z :=
  List.filter (fun sc => negb (scancode_key sc =? 0)) scancodes.

(* ------------------------------------------------------------------ *)
(** ** Touchpad driver (drivers/touchpad_driver.c) *)

Module Touchpad.

Definition TP_MAX_X : Z := 4096.
Definition TP_MAX_Y : Z := 4096.
Definition TP_MAX_PRESSURE : Z := 255.

(** Codes of linux/input-event-codes.h and linux/input.h used by the driver. *)
Definition ABS_X : Z := 0x00.
Definition ABS_Y : Z := 0x01.
Definition ABS_PRESSURE : Z := 0x18.
Definition ABS_MT_POSITION_X : Z := 0x35.
Definition ABS_MT_POSITION_Y : Z := 0x36.
Definition ABS_MT_PRESSURE : Z := 0x3a.
Definition BTN_LEFT : Z := 0x110.
Definition BTN_RIGHT : Z := 0x111.
Definition BTN_TOUCH : Z := 0x14a.
Definition REL_HWHEEL : Z := 0x06.
Definition REL_WHEEL : Z := 0x08.
Definition MT_TOOL_FINGER : Z := 0x00.

(** The calls the driver makes on its input device, in order. *)
Inductive call : Type :=
| tp_slot (slot : Z)                          (* input_mt_slot *)
| tp_slot_state (tool : Z) (active : bool)    (* input_mt_report_slot_state *)
| tp_abs (code value : Z)                     (* input_report_abs *)
| tp_key (code value : Z)                     (* input_report_key *)
| tp_rel (code value : Z)                     (* input_report_rel *)
| tp_sync_frame                               (* input_mt_sync_frame *)
| tp_sync.                                    (* input_sync *)

(** [struct vtp_device]; [input] is the log of the calls made on the input
    device, the counters are [unsigned long]. [start_jiffies] is not
    modelled. *)
Record vtp_device : Type := mk_dev {
  input : list call;
  total_touches : Z;
  total_taps : Z;
  total_two_finger_taps : Z;
  total_scrolls : Z;
  total_moves : Z
}.

(** [vtp_init]: [kzalloc]. *)
Definition vtp_init : vtp_device := mk_dev [] 0 0 0 0 0.

(** The stores receive what [sscanf] read: [Some] of the numbers when all
    of them were converted, [None] otherwise. *)

Definition inject_touch_store (dev : vtp_device) (args : option (Z * Z * Z))
  : store_result * vtp_device :=
  match args with
  | None => (Rejected, dev)
  | Some (x, y, pressure) =>
      if (x <? 0) || (TP_MAX_X <? x) || (y <? 0) || (TP_MAX_Y <? y)
         || (pressure <? 0) || (TP_MAX_PRESSURE <? pressure)
      then (Rejected, dev)
      else if 0 <? pressure then
        (Stored,
         mk_dev (input dev ++
                   [tp_slot 0;
                    tp_slot_state MT_TOOL_FINGER true;
                    tp_abs ABS_MT_POSITION_X x;
                    tp_abs ABS_MT_POSITION_Y y;
                    tp_abs ABS_MT_PRESSURE pressure;
                    tp_abs ABS_X x;
                    tp_abs ABS_Y y;
                    tp_abs ABS_PRESSURE pressure;
                    tp_key BTN_TOUCH 1;
                    tp_sync_frame; tp_sync])
                (total_touches dev) (total_taps dev) (total_two_finger_taps dev)
                (total_scrolls dev) (C.ulong (total_moves dev + 1)))
      else
        (Stored,
         mk_dev (input dev ++
                   [tp_slot 0;
                    tp_slot_state MT_TOOL_FINGER false;
                    tp_key BTN_TOUCH 0;
                    tp_abs ABS_PRESSURE 0;
                    tp_sync_frame; tp_sync])
                (C.ulong (total_touches dev + 1)) (total_taps dev)
                (total_two_finger_taps dev) (total_scrolls dev) (total_moves dev))
  end.

Definition inject_tap_store (dev : vtp_device) (args : option (Z * Z))
  : store_result * vtp_device :=
  match args with
  | None => (Rejected, dev)
  | Some (x, y) =>
      if (x <? 0) || (TP_MAX_X <? x) || (y <? 0) || (TP_MAX_Y <? y)
      then (Rejected, dev)
      else
        (Stored,
         mk_dev (input dev ++
                   [tp_slot 0;
                    tp_slot_state MT_TOOL_FINGER true;
                    tp_abs ABS_MT_POSITION_X x;
                    tp_abs ABS_MT_POSITION_Y y;
                    tp_abs ABS_MT_PRESSURE 128;
                    tp_abs ABS_X x;
                    tp_abs ABS_Y y;
                    tp_abs ABS_PRESSURE 128;
                    tp_key BTN_TOUCH 1;
                    tp_key BTN_LEFT 1;
                    tp_sync_frame; tp_sync;
                    tp_slot 0;
                    tp_slot_state MT_TOOL_FINGER false;
                    tp_key BTN_TOUCH 0;
                    tp_key BTN_LEFT 0;
                    tp_abs ABS_PRESSURE 0;
                    tp_sync_frame; tp_sync])
                (total_touches dev) (C.ulong (total_taps dev + 1))
                (total_two_finger_taps dev) (total_scrolls dev) (total_moves dev))
  end.

Definition inject_two_finger_tap_store (dev : vtp_device) (args : option (Z * Z * Z * Z))
  : store_result * vtp_device :=
  match args with
  | None => (Rejected, dev)
  | Some (x1, y1, x2, y2) =>
      (Stored,
       mk_dev (input dev ++
                 [tp_slot 0;
                  tp_slot_state MT_TOOL_FINGER true;
                  tp_abs ABS_MT_POSITION_X x1;
                  tp_abs ABS_MT_POSITION_Y y1;
                  tp_abs ABS_MT_PRESSURE 128;
                  tp_slot 1;
                  tp_slot_state MT_TOOL_FINGER true;
                  tp_abs ABS_MT_POSITION_X x2;
                  tp_abs ABS_MT_POSITION_Y y2;
                  tp_abs ABS_MT_PRESSURE 128;
                  tp_key BTN_TOUCH 1;
                  tp_key BTN_RIGHT 1;
                  tp_sync_frame; tp_sync;
                  tp_slot 0;
                  tp_slot_state MT_TOOL_FINGER false;
                  tp_slot 1;
                  tp_slot_state MT_TOOL_FINGER false;
                  tp_key BTN_TOUCH 0;
                  tp_key BTN_RIGHT 0;
                  tp_sync_frame; tp_sync])
              (total_touches dev) (total_taps dev)
              (C.ulong (total_two_finger_taps dev + 1))
              (total_scrolls dev) (total_moves dev))
  end.

Definition inject_scroll_store (dev : vtp_device) (args : option (Z * Z))
  : store_result * vtp_device :=
  match args with
  | None => (Rejected, dev)
  | Some (dx, dy) =>
      (Stored,
       mk_dev (input dev
               ++ (if negb (dy =? 0) then [tp_rel REL_WHEEL (C.int32 (- dy))] else [])
               ++ (if negb (dx =? 0) then [tp_rel REL_HWHEEL dx] else [])
               ++ [tp_sync])
              (total_touches dev) (total_taps dev) (total_two_finger_taps dev)
              (C.ulong (total_scrolls dev + 1)) (total_moves dev))
  end.

(** Writes to the sysfs attributes of the driver. *)
Inductive op : Type :=
| inject_touch (args : option (Z * Z * Z))
| inject_tap (args : option (Z * Z))
| inject_two_finger_tap (args : option (Z * Z * Z * Z))
| inject_scroll (args : option (Z * Z)).

Definition store (dev : vtp_device) (o : op) : store_result * vtp_device :=
  match o with
  | inject_touch args => inject_touch_store dev args
  | inject_tap args => inject_tap_store dev args
  | inject_two_finger_tap args => inject_two_finger_tap_store dev args
  | inject_scroll args => inject_scroll_store dev args
  end.

Definition run (dev : vtp_device) (ops : list op) : vtp_device :=
  fold_left (fun d o => snd (store d o)) ops dev.

(** Number of writes among [ops], made in order from [dev], that succeed. *)
Fixpoint accepted (dev : vtp_device) (ops : list op) : Z :=
  match ops with
  | [] => 0
  | o :: ops' =>
      (match fst (store dev o) with Stored => 1 | Rejected => 0 end)
      + accepted (snd (store dev o)) ops'
  end.

(** What the calls made so far leave behind: whether the contact of
    [slot] is active (the slot selected before any call is 0), and the last
    value reported for the key [code]. *)
Definition slot_active (slot : Z) (calls : list call) : bool :=
  snd (fold_left
         (fun (st : Z * bool) (c : call) =>
            match c with
            | tp_slot s => (s, snd st)
            | tp_slot_state _ active =>
                if fst st =? slot then (fst st, active) else st
            | _ => st
            end)
         calls (0, false)).

Definition key_value (code : Z) (calls : list call) : Z :=
  fold_left
    (fun (v : Z) (c : call) =>
       match c with
       | tp_key k value => if k =? code then value else v
       | _ => v
       end)
    calls 0.

End Touchpad.

(* ------------------------------------------------------------------ *)
(** ** Event logger (userspace/event_logger.c): filter and rotation *)

Module Logger.

Definition EV_SYN : Z := 0x00.
Definition EV_KEY : Z := 0x01.
Definition EV_REL : Z := 0x02.
Definition EV_ABS : Z := 0x03.
Definition EV_LED : Z := 0x11.
Definition EV_REP : Z := 0x14.
Definition BTN_MOUSE : Z := 0x110.
Definition BTN_LEFT : Z := 0x110.
Definition BTN_RIGHT : Z := 0x111.
Definition BTN_JOYSTICK : Z := 0x120.
Definition BTN_TOUCH : Z := 0x14a.

(** [struct input_event] without its time stamp. *)
Record event : Type := mk_event {
  type : Z;                     (* __u16 *)
  code : Z;                     (* __u16 *)
  value : Z                     (* __s32 *)
}.

(** [should_log], [config.filter] being passed explicitly. *)
Definition should_log (filter : string) (ev : event) : bool :=
  if String.eqb filter "all" then true
  else if String.eqb filter "keyboard" then
    if (type ev =? EV_KEY) && (code ev <? BTN_MOUSE) then true
    else if (type ev =? EV_SYN) || (type ev =? EV_REP) || (type ev =? EV_LED) then true
    else false
  else if String.eqb filter "mouse" then
    if type ev =? EV_REL then true
    else if (type ev =? EV_KEY) && (BTN_MOUSE <=? code ev) && (code ev <? BTN_JOYSTICK)
    then true
    else if type ev =? EV_SYN then true
    else false
  else if String.eqb filter "touchpad" then
    if type ev =? EV_ABS then true
    else if (type ev =? EV_KEY)
            && ((code ev =? BTN_TOUCH) || (code ev =? BTN_LEFT) || (code ev =? BTN_RIGHT))
    then true
    else if type ev =? EV_SYN then true
    else false
  else true.

(** The test of the main loop on an event read whole: it is written when
    it passes the filter and is not a [SYN] event. *)
Definition written (filter : string) (ev : event) : bool :=
  should_log filter ev && negb (type ev =? EV_SYN).

(** The events the input core makes of the reports of the keyboard and
    mouse drivers ([input_report_key], [input_report_rel], [input_sync] of
    linux/input.h). *)
Definition event_of (e : input_event) : event :=
  match e with
  | report_key code value => mk_event EV_KEY code (if value then 1 else 0)
  | report_rel code value => mk_event EV_REL code value
  | sync => mk_event EV_SYN 0 0
  end.

(** The events of the calls the touchpad driver makes directly
    ([input_report_abs], [input_report_key], [input_report_rel],
    [input_sync]). What [input_mt_slot], [input_mt_report_slot_state] and
    [input_mt_sync_frame] emit depends on the state the input core keeps
    for the slots and is not given here. *)
Definition event_of_call (c : Touchpad.call) : option event :=
  match c with
  | Touchpad.tp_abs code value => Some (mk_event EV_ABS code value)
  | Touchpad.tp_key code value =>
      Some (mk_event EV_KEY code (if value =? 0 then 0 else 1))
  | Touchpad.tp_rel code value => Some (mk_event EV_REL code value)
  | Touchpad.tp_sync => Some (mk_event EV_SYN 0 0)
  | _ => None
  end.

(** A reported event that passes [filter] and that the logger run with any
    of the filters [others] does not write. *)
Definition passes_only (filter : string) (others : list string) (e : input_event)
  : Prop :=
  should_log filter (event_of e) = true /\
  Forall (fun f => written f (event_of e) = false) others.

(** *** Rotation

    The file system is a map from names to contents. [unlink] and
    [rename] are those of POSIX: a missing source leaves everything as it
    is, an existing target is replaced, and renaming a file to its own name
    changes nothing. *)

Definition MAX_ROTATIONS : nat := 5.

(** [sizeof(old_name)] and [sizeof(new_name)]. *)
Definition NAME_SIZE : nat := 512.

(** The first [n] characters of [s]. *)
Fixpoint truncate (n : nat) (s : string) : string :=
  match n, s with
  | S n', String c s' => String c (truncate n' s')
  | _, _ => EmptyString
  end.

(** [snprintf(name, sizeof(name), "%s.%d", path, i)] for [0 <= i]: the
    text is cut to [NAME_SIZE - 1] characters, the last byte of the buffer
    holding the terminator. *)
Definition rotation_name (path : string) (i : nat) : string :=
  truncate (NAME_SIZE - 1)
    (path +:+ "." +:+ NilEmpty.string_of_uint (Nat.to_uint i)).

Definition unlink (name : string) (files : gmap string (list Z))
  : gmap string (list Z) :=
  delete name files.

Definition rename (old new : string) (files : gmap string (list Z))
  : gmap string (list Z) :=
  match files !! old with
  | Some data => <[new := data]> (delete old files)
  | None => files
  end.

(** [for (i = MAX_ROTATIONS - 1; i >= 1; i--) rename(path.i, path.(i+1))],
    entered with [i] at its first value. *)
Fixpoint shift_rotations (path : string) (i : nat) (files : gmap string (list Z))
  : gmap string (list Z) :=
  match i with
  | O => files
  | S i' =>
      shift_rotations path i'
        (rename (rotation_name path (S i')) (rotation_name path (S (S i'))) files)
  end.

Definition rotate_log (path : string) (files : gmap string (list Z))
  : gmap string (list Z) :=
  let files := unlink (rotation_name path MAX_ROTATIONS) files in
  let files := shift_rotations path (MAX_ROTATIONS - 1) files in
  rename path (truncate (NAME_SIZE - 1) (path +:+ ".1")) files.

End Logger.

(* ================================================================== *)
(** * Properties *)

(** Splits a conjunction into its parts without unfolding definitions. *)
Ltac splits := repeat match goal with |- _ /\ _ => split end.

(** ** Machine integers and arrays *)

Lemma uint32_small (x : Z) : 0 <= x < 2 ^ 32 -> C.uint32 x = x.
Proof. intros H. unfold C.uint32, C.uint. apply Z.mod_small. lia. Qed.

Lemma ulong_small (x : Z) : 0 <= x <= C.ULONG_MAX -> C.ulong x = x.
Proof.
  intros H. unfold C.ulong, C.uint. apply Z.mod_small.
  unfold C.ULONG_MAX in H. lia.
Qed.


Lemma mod_cases (n x : Z) :
  0 < n -> - n <= x < 2 * n ->
  x mod n = if x <? 0 then x + n else if x <? n then x else x - n.
Proof.
  intros Hn Hx. symmetry.
  destruct (Z.ltb_spec x 0); [|destruct (Z.ltb_spec x n)].
  - apply (Z.mod_unique x n (-1)); lia.
  - apply (Z.mod_unique x n 0); lia.
  - apply (Z.mod_unique x n 1); lia.
Qed.

Lemma rd_wr_eq (l : list Z) (i v : Z) :
  0 <= i < Z.of_nat (length l) -> rd (wr l i v) i = v.
Proof.
  intros H. unfold rd, wr.
  rewrite list_lookup_insert_eq by lia. reflexivity.
Qed.

Lemma rd_wr_ne (l : list Z) (i j v : Z) :
  0 <= i -> 0 <= j -> i <> j -> rd (wr l i v) j = rd l j.
Proof.
  intros Hi Hj Hne. unfold rd, wr.
  rewrite list_lookup_insert_ne by lia. reflexivity.
Qed.

Lemma length_wr (l : list Z) (i v : Z) : length (wr l i v) = length l.
Proof. unfold wr. apply length_insert. Qed.

(** ** Bounded byte queue *)

Section ByteQueueFacts.

Variable N : Z.
Hypothesis HN : 0 < N < 2 ^ 32.

Lemma next_index (i : Z) :
  0 <= i < N -> C.uint32 (i + 1) mod N = if i + 1 <? N then i + 1 else 0.
Proof.
  intros Hi. rewrite uint32_small by lia.
  rewrite mod_cases by lia.
  destruct (Z.ltb_spec (i + 1) 0); [lia|].
  destruct (Z.ltb_spec (i + 1) N); lia.
Qed.

Lemma count_cases (r : ring) :
  ring_wf N r ->
  count N r = if head r <? tail r then head r - tail r + N else head r - tail r.
Proof.
  intros (_ & Hh & Ht). unfold count. rewrite mod_cases by lia.
  destruct (Z.ltb_spec (head r - tail r) 0), (Z.ltb_spec (head r) (tail r)); try lia.
  destruct (Z.ltb_spec (head r - tail r) N); lia.
Qed.

Lemma count_range (r : ring) : ring_wf N r -> 0 <= count N r < N.
Proof. intros _. unfold count. apply Z.mod_pos_bound. lia. Qed.

Lemma buffer_empty_count (r : ring) :
  ring_wf N r -> buffer_empty r = true <-> count N r = 0.
Proof.
  intros Hwf. rewrite count_cases by assumption.
  destruct Hwf as (_ & Hh & Ht). unfold buffer_empty.
  rewrite Z.eqb_eq. destruct (Z.ltb_spec (head r) (tail r)); lia.
Qed.

Lemma buffer_full_count (r : ring) :
  ring_wf N r -> buffer_full N r = true <-> count N r = N - 1.
Proof.
  intros Hwf. rewrite count_cases by assumption.
  destruct Hwf as (_ & Hh & Ht). unfold buffer_full.
  rewrite next_index by lia. rewrite Z.eqb_eq.
  destruct (Z.ltb_spec (head r + 1) N), (Z.ltb_spec (head r) (tail r)); lia.
Qed.

Lemma ring_init_wf : ring_wf N (ring_init N).
Proof.
  unfold ring_wf, ring_init; simpl. rewrite length_replicate. lia.
Qed.

Lemma buffer_push_wf (r : ring) (b : Z) :
  ring_wf N r -> ring_wf N (buffer_push N r b).
Proof.
  intros (Hl & Hh & Ht). unfold buffer_push.
  destruct (buffer_full N r); simpl; unfold ring_wf; simpl.
  - auto.
  - rewrite length_wr, next_index by lia.
    destruct (Z.ltb_spec (head r + 1) N); lia.
Qed.

Lemma buffer_pop_wf (r : ring) : ring_wf N r -> ring_wf N (snd (buffer_pop N r)).
Proof.
  intros (Hl & Hh & Ht). unfold buffer_pop.
  destruct (buffer_empty r); simpl; unfold ring_wf; simpl.
  - auto.
  - rewrite next_index by lia.
    destruct (Z.ltb_spec (tail r + 1) N); lia.
Qed.

Lemma length_contents (r : ring) :
  Z.of_nat (length (contents N r)) = count N r.
Proof.
  unfold contents. rewrite length_map, length_seq.
  pose proof (Z.mod_pos_bound (head r - tail r) N ltac:(lia)).
  unfold count. lia.
Qed.

(** A push into a queue that is not full appends the byte and counts no
    overflow. *)
Lemma buffer_push_contents (r : ring) (b : Z) :
  ring_wf N r -> buffer_full N r = false ->
  contents N (buffer_push N r b) = contents N r ++ [b] /\
  buffer_overflows (buffer_push N r b) = buffer_overflows r.
Proof.
  intros Hwf Hfull.
  assert (Hc : count N r <> N - 1).
  { rewrite <- buffer_full_count by assumption. congruence. }
  pose proof (count_range r Hwf) as Hcr.
  pose proof (count_cases r Hwf) as Hcc.
  destruct Hwf as (Hl & Hh & Ht).
  unfold buffer_push. rewrite Hfull. simpl. split; [|reflexivity].
  unfold contents, count at 1. simpl.
  rewrite next_index by lia.
  assert (Hcount' : ((if head r + 1 <? N then head r + 1 else 0) - tail r) mod N
                    = count N r + 1).
  { rewrite mod_cases by (destruct (Z.ltb_spec (head r + 1) N); lia).
    destruct (Z.ltb_spec (head r + 1) N), (Z.ltb_spec (head r) (tail r));
      repeat match goal with |- context [?a <? ?b] => destruct (Z.ltb_spec a b) end;
      lia. }
  rewrite Hcount'.
  replace (Z.to_nat (count N r + 1)) with (S (Z.to_nat (count N r))) by lia.
  rewrite seq_S, map_app. simpl. f_equal.
  - apply map_ext_in. intros i Hi. apply in_seq in Hi.
    apply rd_wr_ne; [lia| apply Z.mod_pos_bound; lia |].
    rewrite mod_cases by lia.
    destruct (Z.ltb_spec (head r) (tail r));
      repeat match goal with |- context [?a <? ?b] => destruct (Z.ltb_spec a b) end;
      lia.
  - f_equal.
    replace ((tail r + Z.of_nat (Z.to_nat (count N r))) mod N) with (head r).
    + apply rd_wr_eq. lia.
    + rewrite mod_cases by lia.
      destruct (Z.ltb_spec (head r) (tail r));
        repeat match goal with |- context [?a <? ?b] => destruct (Z.ltb_spec a b) end;
        lia.
Qed.

(** A pop from a queue that is not empty returns its oldest byte. *)
Lemma buffer_pop_contents (r : ring) :
  ring_wf N r -> buffer_empty r = false ->
  exists b r', buffer_pop N r = (Some b, r') /\
               contents N r = b :: contents N r' /\
               buffer_overflows r' = buffer_overflows r.
Proof.
  intros Hwf Hempty.
  assert (Hc : count N r <> 0).
  { rewrite <- buffer_empty_count by assumption. congruence. }
  pose proof (count_range r Hwf) as Hcr.
  pose proof (count_cases r Hwf) as Hcc.
  destruct Hwf as (Hl & Hh & Ht).
  unfold buffer_pop. rewrite Hempty. simpl.
  eexists _, _. split; [reflexivity|]. split; [|reflexivity].
  unfold contents, count at 2. simpl.
  rewrite next_index by lia.
  assert (Hcount' : (head r - (if tail r + 1 <? N then tail r + 1 else 0)) mod N
                    = count N r - 1).
  { rewrite mod_cases by (destruct (Z.ltb_spec (tail r + 1) N); lia).
    destruct (Z.ltb_spec (tail r + 1) N), (Z.ltb_spec (head r) (tail r));
      repeat match goal with |- context [?a <? ?b] => destruct (Z.ltb_spec a b) end;
      lia. }
  rewrite Hcount'.
  replace (Z.to_nat (count N r)) with (S (Z.to_nat (count N r - 1))) by lia.
  simpl. f_equal.
  - f_equal. rewrite Z.add_0_r. apply Z.mod_small. lia.
  - rewrite <- seq_shift, map_map. apply map_ext_in. intros i Hi.
    apply in_seq in Hi. f_equal.
    rewrite !mod_cases
      by (repeat match goal with |- context [?a <? ?b] => destruct (Z.ltb_spec a b) end; lia).
    repeat match goal with |- context [?a <? ?b] => destruct (Z.ltb_spec a b) end; lia.
Qed.

Lemma buffer_pop_empty (r : ring) :
  buffer_empty r = true -> buffer_pop N r = (None, r).
Proof. intros H. unfold buffer_pop. rewrite H. reflexivity. Qed.

Lemma contents_nil_empty (r : ring) :
  ring_wf N r -> contents N r = [] -> buffer_empty r = true.
Proof.
  intros Hwf Hnil. apply buffer_empty_count; [assumption|].
  rewrite <- length_contents, Hnil. reflexivity.
Qed.

Lemma pushes_contents (bytes : list Z) (r : ring) :
  ring_wf N r ->
  count N r + Z.of_nat (length bytes) <= N - 1 ->
  ring_wf N (pushes N r bytes) /\
  contents N (pushes N r bytes) = contents N r ++ bytes /\
  buffer_overflows (pushes N r bytes) = buffer_overflows r.
Proof.
  revert r. induction bytes as [|b bytes IH]; intros r Hwf Hlen; simpl.
  - rewrite app_nil_r. auto.
  - simpl in Hlen.
    assert (Hfull : buffer_full N r = false).
    { destruct (buffer_full N r) eqn:E; [|reflexivity].
      apply buffer_full_count in E; [lia|assumption]. }
    destruct (buffer_push_contents r b Hwf Hfull) as (Hc & Ho).
    pose proof (buffer_push_wf r b Hwf) as Hwf'.
    destruct (IH (buffer_push N r b) Hwf') as (Hwf'' & Hc'' & Ho'').
    { rewrite <- length_contents, Hc, length_app, Nat2Z.inj_add, length_contents.
      simpl. lia. }
    split; [assumption|]. split.
    + unfold pushes in *. rewrite Hc'', Hc, <- app_assoc. reflexivity.
    + unfold pushes in *. rewrite Ho''. assumption.
Qed.

Lemma pops_contents (r : ring) :
  ring_wf N r ->
  exists r', pops N (length (contents N r)) r = (map Some (contents N r), r') /\
             ring_wf N r' /\ buffer_empty r' = true /\
             buffer_overflows r' = buffer_overflows r.
Proof.
  remember (contents N r) as l eqn:Hl. revert r Hl.
  induction l as [|b l IH]; intros r Hl Hwf; simpl.
  - exists r. repeat split; try apply Hwf.
    apply contents_nil_empty; auto.
  - destruct (buffer_empty r) eqn:Hempty.
    { apply buffer_empty_count in Hempty; [|assumption].
      rewrite <- length_contents, <- Hl in Hempty. discriminate. }
    destruct (buffer_pop_contents r Hwf Hempty) as (b' & r' & Hpop & Hc & Ho).
    rewrite <- Hl in Hc. injection Hc as -> ->.
    pose proof (buffer_pop_wf r Hwf) as Hwf'. rewrite Hpop in Hwf'. simpl in Hwf'.
    destruct (IH r' eq_refl Hwf') as (r'' & Hpops & Hwf'' & He & Ho'').
    rewrite Hpop, Hpops. exists r''. repeat split; try apply Hwf''; auto.
    congruence.
Qed.

Lemma pops_empty (k : nat) (r : ring) :
  buffer_empty r = true -> pops N k r = (replicate k None, r).
Proof.
  intros H. induction k as [|k IH]; simpl; [reflexivity|].
  rewrite buffer_pop_empty, IH by assumption. reflexivity.
Qed.

End ByteQueueFacts.

(** C1 (FIFO order). Pushing at most [BUFFER_SIZE - 1] bytes into an empty
    queue counts no overflow, the same number of pops returns exactly those
    bytes in the order pushed, and every further pop returns nothing and
    leaves the queue as it is. *)
Theorem fifo_order (N : Z) (r : ring) (bytes : list Z) :
  0 < N < 2 ^ 32 ->
  ring_wf N r ->
  buffer_empty r = true ->
  Z.of_nat (length bytes) <= N - 1 ->
  exists r',
    pops N (length bytes) (pushes N r bytes) = (map Some bytes, r') /\
    buffer_overflows r' = buffer_overflows r /\
    forall k, pops N k r' = (replicate k None, r').
Proof.
  intros HN Hwf Hempty Hlen.
  assert (Hcount : count N r = 0) by (apply buffer_empty_count; auto).
  assert (Hnil : contents N r = []).
  { apply length_zero_iff_nil.
    pose proof (length_contents N HN r). lia. }
  destruct (pushes_contents N HN bytes r Hwf) as (Hwf' & Hc & Ho); [lia|].
  rewrite Hnil in Hc. simpl in Hc.
  destruct (pops_contents N HN (pushes N r bytes) Hwf') as (r' & Hpops & Hwf'' & He & Ho').
  rewrite Hc in Hpops. exists r'. split; [assumption|]. split; [congruence|].
  intros k. apply pops_empty. assumption.
Qed.

Lemma fifo_order_witness :
  exists r',
    pops Mouse.BUFFER_SIZE 3
      (pushes Mouse.BUFFER_SIZE (ring_init Mouse.BUFFER_SIZE) [0x09; 0x0A; 0x05])
    = (map Some [0x09; 0x0A; 0x05], r') /\
    buffer_overflows r' = buffer_overflows (ring_init Mouse.BUFFER_SIZE) /\
    forall k, pops Mouse.BUFFER_SIZE k r' = (replicate k None, r').
Proof.
  apply (fifo_order Mouse.BUFFER_SIZE (ring_init Mouse.BUFFER_SIZE) [0x09; 0x0A; 0x05]).
  - unfold Mouse.BUFFER_SIZE. lia.
  - apply ring_init_wf. unfold Mouse.BUFFER_SIZE. lia.
  - reflexivity.
  - unfold Mouse.BUFFER_SIZE. simpl. lia.
Defined.

(** C2 (overflow). In either driver, a push into a full queue adds one to
    [buffer_overflows] (in [unsigned long] arithmetic, so by exactly one
    below [ULONG_MAX]) and changes nothing else: the buffer, [head], [tail]
    and every other field of the device are as before, and the byte is not
    stored. *)
Theorem full_push_counts_overflow
  (m : Mouse.vmouse_device) (k : Kbd.vkbd_device) (byte : Z) :
  Mouse.buffer_full m = true ->
  Kbd.buffer_full k = true ->
  let qm := Mouse.q m in
  let qk := Kbd.q k in
  (Mouse.buffer_push m byte =
     Mouse.set_q (mk_ring (buffer qm) (head qm) (tail qm)
                          (C.ulong (buffer_overflows qm + 1))) m /\
   (0 <= buffer_overflows qm < C.ULONG_MAX ->
    buffer_overflows (Mouse.q (Mouse.buffer_push m byte)) = buffer_overflows qm + 1) /\
   contents Mouse.BUFFER_SIZE (Mouse.q (Mouse.buffer_push m byte))
     = contents Mouse.BUFFER_SIZE qm) /\
  (Kbd.buffer_push k byte =
     Kbd.set_q (mk_ring (buffer qk) (head qk) (tail qk)
                        (C.ulong (buffer_overflows qk + 1))) k /\
   (0 <= buffer_overflows qk < C.ULONG_MAX ->
    buffer_overflows (Kbd.q (Kbd.buffer_push k byte)) = buffer_overflows qk + 1) /\
   contents Kbd.BUFFER_SIZE (Kbd.q (Kbd.buffer_push k byte))
     = contents Kbd.BUFFER_SIZE qk).
Proof.
  intros Hm Hk qm qk.
  unfold Mouse.buffer_full in Hm. unfold Kbd.buffer_full in Hk.
  subst qm qk.
  unfold Mouse.buffer_push, Kbd.buffer_push, buffer_push.
  rewrite Hm, Hk. simpl.
  repeat split; intros; apply ulong_small; lia.
Qed.

Lemma full_push_counts_overflow_witness :
  let m := Mouse.mk_dev [] false (mk_ring (replicate 512 0) 511 0 7)
             [0; 0; 0; 0] 0 4 0 0 0 0 0 0 0 0 0 0 0 0 in
  let k := Kbd.mk_dev [] false (mk_ring (replicate 256 0) 3 4 7)
             false false false false false false 0 0 0 0 in
  buffer_overflows (Mouse.q (Mouse.buffer_push m 0x09)) = 8 /\
  buffer_overflows (Kbd.q (Kbd.buffer_push k 0x09)) = 8.
Proof.
  intros m k.
  destruct (full_push_counts_overflow m k 0x09) as ((_ & Hm & _) & (_ & Hk & _)).
  - reflexivity.
  - reflexivity.
  - split.
    + apply Hm. unfold C.ULONG_MAX. simpl. lia.
    + apply Hk. unfold C.ULONG_MAX. simpl. lia.
Defined.

(** C6, as stated, fails on the keys device: its queue has 256 slots, and
    is already full, and drops the next byte, when it holds 255 bytes. *)
Lemma keys_queue_full_at_255 :
  let r := pushes Kbd.BUFFER_SIZE (ring_init Kbd.BUFFER_SIZE) (replicate 255 0x1E) in
  Kbd.BUFFER_SIZE <> 512 /\
  contents Kbd.BUFFER_SIZE r = replicate 255 0x1E /\
  buffer_full Kbd.BUFFER_SIZE r = true /\
  buffer_overflows (buffer_push Kbd.BUFFER_SIZE r 0x1E) = 1 /\
  ~ (buffer_full Kbd.BUFFER_SIZE r = true <-> Z.of_nat (length (contents Kbd.BUFFER_SIZE r)) = 512 - 1).
Proof.
  vm_compute. repeat split; try congruence.
  intros [H _]. specialize (H eq_refl). discriminate H.
Qed.

(** C6, amended. The queue has 256 slots on the keys device and 512 on the
    motion device, and in both it reports full exactly when it holds
    [BUFFER_SIZE - 1] bytes. *)
Theorem queue_capacity (rk rm : ring) :
  ring_wf Kbd.BUFFER_SIZE rk ->
  ring_wf Mouse.BUFFER_SIZE rm ->
  Kbd.BUFFER_SIZE = 256 /\
  Mouse.BUFFER_SIZE = 512 /\
  (buffer_full Kbd.BUFFER_SIZE rk = true <->
     Z.of_nat (length (contents Kbd.BUFFER_SIZE rk)) = Kbd.BUFFER_SIZE - 1) /\
  (buffer_full Mouse.BUFFER_SIZE rm = true <->
     Z.of_nat (length (contents Mouse.BUFFER_SIZE rm)) = Mouse.BUFFER_SIZE - 1).
Proof.
  intros Hk Hm.
  assert (HK : 0 < Kbd.BUFFER_SIZE < 2 ^ 32) by (unfold Kbd.BUFFER_SIZE; lia).
  assert (HM : 0 < Mouse.BUFFER_SIZE < 2 ^ 32) by (unfold Mouse.BUFFER_SIZE; lia).
  split; [reflexivity|]. split; [reflexivity|].
  rewrite !length_contents by assumption.
  split; apply buffer_full_count; assumption.
Qed.

Lemma queue_capacity_witness :
  let rk := pushes Kbd.BUFFER_SIZE (ring_init Kbd.BUFFER_SIZE) (replicate 255 0x1E) in
  let rm := pushes Mouse.BUFFER_SIZE (ring_init Mouse.BUFFER_SIZE) (replicate 255 0x08) in
  buffer_full Kbd.BUFFER_SIZE rk = true /\ buffer_full Mouse.BUFFER_SIZE rm = false.
Proof.
  intros rk rm.
  destruct (queue_capacity rk rm) as (_ & _ & Hk & Hm).
  - vm_compute. repeat split; congruence.
  - vm_compute. repeat split; congruence.
  - split.
    + apply Hk. vm_compute. reflexivity.
    + apply not_true_is_false. intros E.
      apply Hm in E. vm_compute in E. discriminate E.
Defined.

(** ** Packet assembler *)

Lemma land_low_nibble (x m : Z) :
  Z.land 0x0F m = m -> Z.land x m = Z.land (x mod 16) m.
Proof.
  intros Hm. change 16 with (2 ^ 4). rewrite <- Z.land_ones by lia.
  change (Z.ones 4) with 0x0F. rewrite <- Z.land_assoc, Hm. reflexivity.
Qed.

Lemma land_bit3 (x : Z) : Z.land x 8 = if Z.testbit x 3 then 8 else 0.
Proof.
  apply Z.bits_inj'. intros n Hn.
  rewrite Z.land_spec. change 8 with (2 ^ 3).
  rewrite Z.pow2_bits_eqb by lia.
  destruct (Z.eqb_spec 3 n) as [<-|Hne].
  - rewrite andb_true_r. destruct (Z.testbit x 3).
    + rewrite Z.pow2_bits_true; [reflexivity|lia].
    + apply eq_sym, Z.bits_0.
  - rewrite andb_false_r. destruct (Z.testbit x 3).
    + rewrite Z.pow2_bits_false; [reflexivity|lia].
    + apply eq_sym, Z.bits_0.
Qed.

(** The wheel value of byte 3: low nibble, sign-extended from bit 3. *)
Lemma wheel_range (extra : Z) :
  -8 <= C.schar (Z.lor (Z.land extra Mouse.IM_WHEEL_MASK)
                       (if C.truthy (Z.land extra 0x08) then 0xF0 else 0x00)) <= 7.
Proof.
  unfold Mouse.IM_WHEEL_MASK.
  rewrite (land_low_nibble extra 0x0F), (land_low_nibble extra 0x08) by reflexivity.
  pose proof (Z.mod_pos_bound extra 16 ltac:(lia)) as H.
  assert (Hcases : Exists (fun n => extra mod 16 = n)
                     [0; 1; 2; 3; 4; 5; 6; 7; 8; 9; 10; 11; 12; 13; 14; 15]).
  { repeat rewrite Exists_cons. rewrite Exists_nil. lia. }
  repeat rewrite Exists_cons in Hcases. rewrite Exists_nil in Hcases.
  repeat (destruct Hcases as [-> | Hcases]; [vm_compute; split; discriminate|]).
  destruct Hcases.
Qed.

Lemma decode_scroll_range (dpi : Z) (dev : Mouse.vmouse_device) (m : Mouse.MotionState) :
  Mouse.decode dpi dev = Some m -> -8 <= Mouse.scroll m <= 7.
Proof.
  unfold Mouse.decode.
  destruct (negb _); [discriminate|].
  destruct (_ =? _); intros [= <-]; simpl; [apply wheel_range | lia].
Qed.

(** C3 (decoding examples). In 3-byte mode the bytes [0x09 0x0A 0x05]
    complete a frame that decodes to left held, right and middle released,
    [dx = 10], [dy = -5] at scale 100 and [dx = 20], [dy = -10] at scale
    200. In 4-byte mode [0x08 0x00 0x00 0x01] decodes to [scroll = 1] with
    no button held and [dx = dy = 0], and [0x08 0x00 0x00 0xFF] to
    [scroll = -1]. Each time the assembler hands the frame to
    [process_packet], reports the decoded state and starts a fresh frame.
    Whatever the frame, a decoded scroll value lies in [-8, 7]. *)
Theorem decode_examples :
  let std100 := Mouse.vmouse_dev (Mouse.vmouse_init 100 false) in
  let std200 := Mouse.vmouse_dev (Mouse.vmouse_init 200 false) in
  let im100 := Mouse.vmouse_dev (Mouse.vmouse_init 100 true) in
  let framed frame idx dev := Mouse.set_packet_idx idx (Mouse.set_packet frame dev) in
  let fed dpi dev bytes frame idx m :=
    Mouse.decode dpi (framed frame idx dev) = Some m /\
    Mouse.feed_all dpi dev bytes =
      Mouse.set_packet_idx 0 (snd (Mouse.process_packet dpi (framed frame idx dev))) /\
    Mouse.input (Mouse.feed_all dpi dev bytes) = Mouse.report m in
  fed 100 std100 [0x09; 0x0A; 0x05] [0x09; 0x0A; 0x05; 0] 3
      (Mouse.mk_motion true false false false false 10 (-5) 0) /\
  fed 200 std200 [0x09; 0x0A; 0x05] [0x09; 0x0A; 0x05; 0] 3
      (Mouse.mk_motion true false false false false 20 (-10) 0) /\
  fed 100 im100 [0x08; 0x00; 0x00; 0x01] [0x08; 0x00; 0x00; 0x01] 4
      (Mouse.mk_motion false false false false false 0 0 1) /\
  fed 100 im100 [0x08; 0x00; 0x00; 0xFF] [0x08; 0x00; 0x00; 0xFF] 4
      (Mouse.mk_motion false false false true true 0 0 (-1)) /\
  forall dpi dev,
    match Mouse.decode dpi dev with
    | Some m => -8 <= Mouse.scroll m <= 7
    | None => True
    end.
Proof.
  cbv zeta.
  splits;
    try match goal with |- _ = _ => vm_compute; reflexivity end.
  intros dpi dev. destruct (Mouse.decode dpi dev) eqn:E; [|exact I].
  eapply decode_scroll_range. eassumption.
Qed.

(** C4 (invalid frame). When a byte completes a frame whose byte 0 has
    bit 3 clear, [process_packet] returns false and the assembler ends with
    the fill index at 0, [invalid_packets] advanced by one, and nothing
    else changed: nothing is reported and all other statistics are as
    before. *)
Theorem invalid_frame_counted (dpi : Z) (dev : Mouse.vmouse_device) (byte : Z) :
  let dev1 :=
    Mouse.set_packet_idx (C.uint32 (Mouse.packet_idx dev + 1))
      (Mouse.set_packet (wr (Mouse.packet dev) (Mouse.packet_idx dev) byte) dev) in
  Mouse.current_packet_size dev <= Mouse.packet_idx dev1 ->
  Z.testbit (rd (Mouse.packet dev1) 0) 3 = false ->
  let dev' := Mouse.feed dpi dev byte in
  fst (Mouse.process_packet dpi dev1) = false /\
  dev' = Mouse.set_packet_idx 0
           (Mouse.set_invalid_packets (C.ulong (Mouse.invalid_packets dev + 1)) dev1) /\
  Mouse.packet_idx dev' = 0 /\
  Mouse.input dev' = Mouse.input dev /\
  Mouse.invalid_packets dev' = C.ulong (Mouse.invalid_packets dev + 1) /\
  (0 <= Mouse.invalid_packets dev < C.ULONG_MAX ->
   Mouse.invalid_packets dev' = Mouse.invalid_packets dev + 1) /\
  Mouse.total_packets dev' = Mouse.total_packets dev /\
  Mouse.total_clicks dev' = Mouse.total_clicks dev /\
  Mouse.left_clicks dev' = Mouse.left_clicks dev /\
  Mouse.right_clicks dev' = Mouse.right_clicks dev /\
  Mouse.middle_clicks dev' = Mouse.middle_clicks dev /\
  Mouse.side_clicks dev' = Mouse.side_clicks dev /\
  Mouse.forward_clicks dev' = Mouse.forward_clicks dev /\
  Mouse.scroll_events dev' = Mouse.scroll_events dev /\
  Mouse.total_dx dev' = Mouse.total_dx dev /\
  Mouse.total_dy dev' = Mouse.total_dy dev /\
  Mouse.total_distance dev' = Mouse.total_distance dev /\
  buffer_overflows (Mouse.q dev') = buffer_overflows (Mouse.q dev).
Proof.
  intros dev1 Hfull Hbit dev'.
  assert (Hdec : Mouse.decode dpi dev1 = None).
  { unfold Mouse.decode, Mouse.PS2_ALWAYS_ONE. change (Z.shiftl 1 3) with 8.
    rewrite land_bit3, Hbit. reflexivity. }
  assert (Hpp : Mouse.process_packet dpi dev1 =
                (false, Mouse.set_invalid_packets
                          (C.ulong (Mouse.invalid_packets dev + 1)) dev1)).
  { unfold Mouse.process_packet. rewrite Hdec. reflexivity. }
  assert (Hfeed : dev' = Mouse.set_packet_idx 0
             (Mouse.set_invalid_packets (C.ulong (Mouse.invalid_packets dev + 1)) dev1)).
  { subst dev'. unfold Mouse.feed. fold dev1.
    change (Mouse.current_packet_size dev1) with (Mouse.current_packet_size dev).
    apply Z.leb_le in Hfull. rewrite Hfull, Hpp. reflexivity. }
  rewrite Hpp, Hfeed.
  splits; try reflexivity.
  intros H. cbn [Mouse.invalid_packets Mouse.set_packet_idx Mouse.set_invalid_packets].
  apply ulong_small. lia.
Qed.

Lemma invalid_frame_counted_witness :
  let dev := Mouse.mk_dev [] false (ring_init Mouse.BUFFER_SIZE)
               [0x00; 0x0A; 0x05; 0] 2 3 4 2 1 1 0 0 0 0 10 (-5) 15 0 in
  Mouse.feed 100 dev 0x05 =
    Mouse.mk_dev [] false (ring_init Mouse.BUFFER_SIZE)
      [0x00; 0x0A; 0x05; 0] 0 3 4 2 1 1 0 0 0 0 10 (-5) 15 1.
Proof.
  intros dev.
  destruct (invalid_frame_counted 100 dev 0x05) as (_ & H & _).
  - vm_compute. discriminate.
  - reflexivity.
  - rewrite H. reflexivity.
Defined.

(** C10 (ignored status bits). Two frames that differ only in bits 4 to 7
    of byte 0 are treated alike: they decode to the same state (or are both
    invalid), [process_packet] returns the same value, reports the same
    events and makes the same statistics update; the resulting devices
    differ in the stored [packet] only. *)
Theorem status_high_bits_ignored
  (dpi : Z) (dev : Mouse.vmouse_device) (status1 status2 : Z) (rest : list Z) :
  Z.land status1 0x0F = Z.land status2 0x0F ->
  let dev1 := Mouse.set_packet (status1 :: rest) dev in
  let dev2 := Mouse.set_packet (status2 :: rest) dev in
  Mouse.decode dpi dev1 = Mouse.decode dpi dev2 /\
  fst (Mouse.process_packet dpi dev1) = fst (Mouse.process_packet dpi dev2) /\
  Mouse.set_packet (status2 :: rest) (snd (Mouse.process_packet dpi dev1))
    = snd (Mouse.process_packet dpi dev2).
Proof.
  intros Hlow dev1 dev2.
  assert (Hbits : forall m, Z.land 0x0F m = m ->
                            Z.land status1 m = Z.land status2 m).
  { intros m Hm. rewrite <- Hm, !Z.land_assoc, Hlow. reflexivity. }
  assert (Hdec : Mouse.decode dpi dev1 = Mouse.decode dpi dev2).
  { unfold Mouse.decode. subst dev1 dev2.
    cbn [Mouse.packet Mouse.set_packet Mouse.current_packet_size].
    change (rd (status1 :: rest) 0) with status1.
    change (rd (status2 :: rest) 0) with status2.
    change Mouse.PS2_ALWAYS_ONE with 8. change Mouse.PS2_LEFT_BTN with 1.
    change Mouse.PS2_RIGHT_BTN with 2. change Mouse.PS2_MIDDLE_BTN with 4.
    rewrite (Hbits 8), (Hbits 1), (Hbits 2), (Hbits 4) by reflexivity.
    reflexivity. }
  split; [assumption|].
  unfold Mouse.process_packet. rewrite Hdec.
  destruct (Mouse.decode dpi dev2); split; reflexivity.
Qed.

Lemma status_high_bits_ignored_witness :
  let dev := Mouse.vmouse_dev (Mouse.vmouse_init 100 false) in
  Mouse.decode 100 (Mouse.set_packet [0xF9; 0x0A; 0x05; 0] dev)
  = Mouse.decode 100 (Mouse.set_packet [0x09; 0x0A; 0x05; 0] dev).
Proof.
  intros dev.
  apply (status_high_bits_ignored 100 dev 0xF9 0x09 [0x0A; 0x05; 0]).
  reflexivity.
Defined.

(** ** Scan-code translator and combo detector *)

Lemma check_combos_release (dev : Kbd.vkbd_device) (keycode : Z) :
  Kbd.check_combos dev keycode false = dev.
Proof. reflexivity. Qed.

Lemma release_bit_set (scancode : Z) :
  (Z.land (Z.lor scancode 0x80) 0x80 =? 0) = false.
Proof.
  apply Z.eqb_neq. rewrite Z.land_lor_distr_l. intros H.
  apply Z.lor_eq_0_iff in H. destruct H as [_ H]. discriminate H.
Qed.

Lemma translate_release_combos (dev : Kbd.vkbd_device) (scancode : Z) :
  Kbd.combo_detections (Kbd.translate dev (Z.lor scancode 0x80))
  = Kbd.combo_detections dev.
Proof.
  unfold Kbd.translate. rewrite release_bit_set.
  cbn [negb]. rewrite check_combos_release.
  repeat match goal with
         | |- context [if ?c then _ else _] => destruct c
         end; reflexivity.
Qed.

(** C8 (press then release of one key). Scan codes [0x1E] and [0x9E] both
    map to [KEY_A]. The first adds one to [total_keypresses] and reports
    the key pressed, the second adds one to [total_keyreleases] and reports
    it released, each report followed by a sync; the modifier flags, and
    every other field of the device, stay as they were. *)
Theorem key_a_press_release (dev : Kbd.vkbd_device) :
  let pressed := Kbd.translate dev 0x1E in
  let released := Kbd.translate pressed 0x9E in
  rd Kbd.scancode_to_keycode (Z.land 0x1E 0x7F) = Kbd.KEY_A /\
  rd Kbd.scancode_to_keycode (Z.land 0x9E 0x7F) = Kbd.KEY_A /\
  pressed =
    Kbd.set_input (Kbd.input dev ++ [report_key Kbd.KEY_A true; sync])
      (Kbd.set_total_keypresses (C.ulong (Kbd.total_keypresses dev + 1)) dev) /\
  released =
    Kbd.set_input (Kbd.input dev ++ [report_key Kbd.KEY_A true; sync;
                                     report_key Kbd.KEY_A false; sync])
      (Kbd.set_total_keyreleases (C.ulong (Kbd.total_keyreleases dev + 1))
         (Kbd.set_total_keypresses (C.ulong (Kbd.total_keypresses dev + 1)) dev)) /\
  (Kbd.shift_pressed pressed, Kbd.ctrl_pressed pressed, Kbd.alt_pressed pressed)
    = (Kbd.shift_pressed dev, Kbd.ctrl_pressed dev, Kbd.alt_pressed dev) /\
  (Kbd.shift_pressed released, Kbd.ctrl_pressed released, Kbd.alt_pressed released)
    = (Kbd.shift_pressed dev, Kbd.ctrl_pressed dev, Kbd.alt_pressed dev).
Proof.
  destruct dev as [inp t r sh ct al cl nl sl kp kr un cd].
  assert (Hp : Kbd.translate (Kbd.mk_dev inp t r sh ct al cl nl sl kp kr un cd) 0x1E
               = Kbd.mk_dev (inp ++ [report_key Kbd.KEY_A true; sync])
                   t r sh ct al cl nl sl (C.ulong (kp + 1)) kr un cd).
  { destruct ct, al; reflexivity. }
  assert (Hr : forall inp' kp',
             Kbd.translate (Kbd.mk_dev inp' t r sh ct al cl nl sl kp' kr un cd) 0x9E
             = Kbd.mk_dev (inp' ++ [report_key Kbd.KEY_A false; sync])
                 t r sh ct al cl nl sl kp' (C.ulong (kr + 1)) un cd).
  { intros. reflexivity. }
  cbv zeta. rewrite Hp, Hr, <- app_assoc.
  splits; reflexivity.
Qed.

(** C9 (ctrl combo). From released modifiers, ctrl press ([0x1D]) counts no
    combo and the press of C ([0x2E]) that follows counts exactly one; with
    ctrl released again ([0x9D]) before it, the press of C counts none. The
    combo check does nothing on a release, whatever the key and the
    modifiers. *)
Theorem ctrl_c_combo (dev : Kbd.vkbd_device) :
  let dev0 :=
    Kbd.set_shift_pressed false
      (Kbd.set_ctrl_pressed false (Kbd.set_alt_pressed false dev)) in
  let held := Kbd.translate dev0 0x1D in
  let released := Kbd.translate held 0x9D in
  Kbd.ctrl_pressed held = true /\
  Kbd.combo_detections held = Kbd.combo_detections dev /\
  Kbd.combo_detections (Kbd.translate held 0x2E)
    = C.ulong (Kbd.combo_detections dev + 1) /\
  (0 <= Kbd.combo_detections dev < C.ULONG_MAX ->
   Kbd.combo_detections (Kbd.translate held 0x2E) = Kbd.combo_detections dev + 1) /\
  Kbd.combo_detections (Kbd.feed_all dev0 [0x1D; 0x2E])
    = Kbd.combo_detections (Kbd.translate held 0x2E) /\
  Kbd.ctrl_pressed released = false /\
  Kbd.combo_detections released = Kbd.combo_detections dev /\
  Kbd.combo_detections (Kbd.translate released 0x2E) = Kbd.combo_detections dev /\
  Kbd.combo_detections (Kbd.feed_all dev0 [0x1D; 0x9D; 0x2E])
    = Kbd.combo_detections dev /\
  (forall d keycode, Kbd.check_combos d keycode false = d) /\
  (forall d scancode,
     Kbd.combo_detections (Kbd.translate d (Z.lor scancode 0x80))
     = Kbd.combo_detections d).
Proof.
  destruct dev as [inp t r sh ct al cl nl sl kp kr un cd].
  cbv zeta.
  splits; try reflexivity.
  - intros H. cbn [Kbd.combo_detections] in H.
    change (C.ulong (cd + 1) = cd + 1). apply ulong_small. lia.
  - apply translate_release_combos.
Qed.

Lemma ctrl_c_combo_witness :
  let dev := Kbd.vkbd_dev (Kbd.vkbd_init 250 33) in
  Kbd.combo_detections (Kbd.feed_all dev [0x1D; 0x2E]) = 1 /\
  Kbd.combo_detections (Kbd.feed_all dev [0x1D; 0x9D; 0x2E]) = 0.
Proof.
  intros dev.
  destruct (ctrl_c_combo dev) as (_ & _ & _ & Hone & Hfed & _ & _ & _ & Hnone & _).
  split.
  - change (Kbd.feed_all dev [0x1D; 0x2E]) with
      (Kbd.feed_all
         (Kbd.set_shift_pressed false
            (Kbd.set_ctrl_pressed false (Kbd.set_alt_pressed false dev)))
         [0x1D; 0x2E]).
    rewrite Hfed. apply Hone. unfold C.ULONG_MAX. simpl. lia.
  - exact Hnone.
Defined.

(** ** Packet assembler: invariants *)

Lemma mouse_buffer_size : 0 < Mouse.BUFFER_SIZE < 2 ^ 32.
Proof. unfold Mouse.BUFFER_SIZE. lia. Qed.

Lemma process_packet_frame (dpi : Z) (dev : Mouse.vmouse_device) :
  let dev' := snd (Mouse.process_packet dpi dev) in
  Mouse.q dev' = Mouse.q dev /\
  Mouse.tasklet dev' = Mouse.tasklet dev /\
  Mouse.packet dev' = Mouse.packet dev /\
  Mouse.packet_idx dev' = Mouse.packet_idx dev /\
  Mouse.current_packet_size dev' = Mouse.current_packet_size dev.
Proof.
  unfold Mouse.process_packet.
  destruct (Mouse.decode dpi dev); cbn; auto.
Qed.

(** One byte fed: the queue and the frame length are untouched, the index
    stays in range and ends strictly below the frame length. *)
Lemma feed_ok (dpi : Z) (dev : Mouse.vmouse_device) (byte : Z) :
  Mouse.dev_ok dev ->
  let dev' := Mouse.feed dpi dev byte in
  Mouse.dev_ok dev' /\
  Mouse.q dev' = Mouse.q dev /\
  Mouse.tasklet dev' = Mouse.tasklet dev /\
  Mouse.current_packet_size dev' = Mouse.current_packet_size dev /\
  Mouse.packet_idx dev' < Mouse.current_packet_size dev'.
Proof.
  intros (Hq & Hlen & Hsize & Hidx). unfold Mouse.feed.
  set (dev1 := Mouse.set_packet_idx _ _).
  assert (H1 : Mouse.packet_idx dev1 = Mouse.packet_idx dev + 1).
  { subst dev1. cbn. apply uint32_small. lia. }
  assert (Hs1 : Mouse.current_packet_size dev1 = Mouse.current_packet_size dev)
    by reflexivity.
  assert (Hl1 : length (Mouse.packet dev1) = 4%nat).
  { subst dev1. cbn. rewrite length_wr. assumption. }
  destruct (process_packet_frame dpi dev1) as (Pq & Pt & Pp & Pi & Ps).
  unfold Mouse.dev_ok, Mouse.PACKET_SIZE_STANDARD, Mouse.PACKET_SIZE_INTELLIMOUSE in *.
  destruct (Z.leb_spec (Mouse.current_packet_size dev1) (Mouse.packet_idx dev1)).
  - cbn. rewrite Pq, Pp, Ps, Hs1, Hl1.
    splits; try assumption; try reflexivity; lia.
  - cbv zeta. rewrite Hs1, Hl1, H1.
    splits; try assumption; try reflexivity; lia.
Qed.

Lemma mouse_pop_spec (dev : Mouse.vmouse_device) :
  Mouse.buffer_pop dev =
    (fst (buffer_pop Mouse.BUFFER_SIZE (Mouse.q dev)),
     Mouse.set_q (snd (buffer_pop Mouse.BUFFER_SIZE (Mouse.q dev))) dev).
Proof.
  unfold Mouse.buffer_pop.
  destruct (buffer_pop Mouse.BUFFER_SIZE (Mouse.q dev)). reflexivity.
Qed.

Lemma set_q_ok (dev : Mouse.vmouse_device) (r : ring) :
  Mouse.dev_ok dev -> ring_wf Mouse.BUFFER_SIZE r -> Mouse.dev_ok (Mouse.set_q r dev).
Proof. intros (_ & H) Hr. split; assumption. Qed.


(** The loop of the tasklet handler ends with the queue empty: the fuel of
    [vmouse_tasklet_handler] is never exhausted. *)
Lemma tasklet_loop_drains (dpi : Z) (fuel : nat) (dev : Mouse.vmouse_device) :
  Mouse.dev_ok dev ->
  count Mouse.BUFFER_SIZE (Mouse.q dev) <= Z.of_nat fuel ->
  Mouse.buffer_empty (Mouse.tasklet_loop fuel dpi dev) = true.
Proof.
  revert dev. induction fuel as [|fuel IH]; intros dev Hok Hc; simpl.
  - apply (buffer_empty_count _ mouse_buffer_size); [apply Hok|].
    pose proof (count_range _ mouse_buffer_size _ (proj1 Hok)). lia.
  - rewrite mouse_pop_spec.
    pose proof (buffer_pop_wf _ mouse_buffer_size (Mouse.q dev) (proj1 Hok)) as Hwf.
    pose proof (set_q_ok dev _ Hok Hwf) as Hok'.
    destruct (buffer_empty (Mouse.q dev)) eqn:He.
    + rewrite (buffer_pop_empty Mouse.BUFFER_SIZE _ He). simpl.
      unfold Mouse.buffer_empty. destruct dev; assumption.
    + destruct (buffer_pop_contents _ mouse_buffer_size _ (proj1 Hok) He)
        as (b & r' & Hpop & Hcont & _).
      rewrite Hpop in *. simpl in *.
      destruct (feed_ok dpi _ b Hok') as (Hf & Hq & _).
      apply IH; [assumption|]. rewrite Hq. cbn.
      rewrite <- !length_contents by apply mouse_buffer_size.
      rewrite <- !length_contents in Hc by apply mouse_buffer_size.
      rewrite Hcont in Hc. simpl in Hc. lia.
Qed.

Lemma tasklet_drains (dpi : Z) (dev : Mouse.vmouse_device) :
  Mouse.dev_ok dev ->
  Mouse.buffer_empty (Mouse.vmouse_tasklet_handler dpi dev) = true.
Proof.
  intros Hok. apply tasklet_loop_drains; [assumption|].
  pose proof (count_range _ mouse_buffer_size _ (proj1 Hok)).
  rewrite Z2Nat.id; unfold Mouse.BUFFER_SIZE in *; lia.
Qed.








(** However the tasklet is scheduled, [inject_packet_store] restores the
    frame length it found. With the tasklet deferred it leaves the fill
    index and the partial frame as they were: nothing in the store resets
    them. *)
Lemma inject_bytes_deferred (dpi : Z) (bytes : list Z) (dev : Mouse.vmouse_device) :
  let dev' := Mouse.inject_bytes [] dpi dev bytes in
  Mouse.packet_idx dev' = Mouse.packet_idx dev /\
  Mouse.packet dev' = Mouse.packet dev /\
  Mouse.current_packet_size dev' = Mouse.current_packet_size dev /\
  Mouse.input dev' = Mouse.input dev.
Proof.
  revert dev. induction bytes as [|b bytes IH]; intros dev; simpl; [auto|].
  destruct (IH (Mouse.vmouse_simulate_irq dev (C.uchar b))) as (H1 & H2 & H3 & H4).
  rewrite H1, H2, H3, H4. auto.
Qed.

Lemma inject_packet_store_deferred (s : Mouse.vmouse) (tokens : list (option Z)) :
  let dev' := Mouse.vmouse_dev (snd (Mouse.inject_packet_store [] s tokens)) in
  Mouse.packet_idx dev' = Mouse.packet_idx (Mouse.vmouse_dev s) /\
  Mouse.current_packet_size dev' = Mouse.current_packet_size (Mouse.vmouse_dev s).
Proof.
  unfold Mouse.inject_packet_store.
  destruct (Mouse.parse_bytes _ tokens) as [bytes|]; [|auto].
  destruct (negb _ && negb _); [auto|].
  destruct (_ && _); cbn.
  - destruct (inject_bytes_deferred (Mouse.dpi_multiplier s) bytes
                (Mouse.set_current_packet_size Mouse.PACKET_SIZE_STANDARD
                   (Mouse.vmouse_dev s))) as (H1 & _).
    rewrite H1. auto.
  - destruct (inject_bytes_deferred (Mouse.dpi_multiplier s) bytes (Mouse.vmouse_dev s))
      as (H1 & _ & H3 & _).
    auto.
Qed.

(** C5 (frame length changes), evaluated on the driver loaded with its
    defaults (4-byte mode, scale 100). A 3-byte packet is written to
    [inject_packet] and the tasklet runs once the store has returned; then a
    4-byte packet is written and the tasklet runs again. The three bytes
    pushed while the frame length was 3 are assembled under length 4, the
    fill index is left at 3, and the first byte of the next packet completes
    a frame [0x09 0x0A 0x05 0x08] that is decoded with scroll [-8]; the
    second packet is never decoded as written. When the tasklet runs right
    after each byte instead, the 3-byte packet is decoded on its own. *)
Theorem inject_standard_packet_misaligned :
  let s0 := Mouse.vmouse_init 100 true in
  let standard := [Some 0x09; Some 0x0A; Some 0x05] in
  let extended := [Some 0x08; Some 0x00; Some 0x00; Some 0x01] in
  let s1 := Mouse.run s0 [Mouse.inject_packet [] standard; Mouse.softirq] in
  let s2 := Mouse.run s1 [Mouse.inject_packet [] extended; Mouse.softirq] in
  let s1' := Mouse.run s0 [Mouse.inject_packet [true; true; true] standard] in
  (Mouse.current_packet_size (Mouse.vmouse_dev s1) = 4 /\
   Mouse.packet_idx (Mouse.vmouse_dev s1) = 3 /\
   Mouse.packet (Mouse.vmouse_dev s1) = [0x09; 0x0A; 0x05; 0] /\
   Mouse.input (Mouse.vmouse_dev s1) = []) /\
  (Mouse.input (Mouse.vmouse_dev s2) =
     Mouse.report (Mouse.mk_motion true false false false false 10 (-5) (-8)) /\
   Mouse.total_packets (Mouse.vmouse_dev s2) = 1 /\
   Mouse.packet_idx (Mouse.vmouse_dev s2) = 3 /\
   Mouse.packet (Mouse.vmouse_dev s2) = [0x00; 0x00; 0x01; 0x08]) /\
  (Mouse.input (Mouse.vmouse_dev s1') =
     Mouse.report (Mouse.mk_motion true false false false false 10 (-5) 0) /\
   Mouse.packet_idx (Mouse.vmouse_dev s1') = 0 /\
   Mouse.current_packet_size (Mouse.vmouse_dev s1') = 4).
Proof. cbv zeta. splits; vm_compute; reflexivity. Qed.

(** ** Scan-code translator: the tasklet drains the queue *)

Lemma kbd_buffer_size : 0 < Kbd.BUFFER_SIZE < 2 ^ 32.
Proof. unfold Kbd.BUFFER_SIZE. lia. Qed.

Lemma check_combos_q (dev : Kbd.vkbd_device) (keycode : Z) (pressed : bool) :
  Kbd.q (Kbd.check_combos dev keycode pressed) = Kbd.q dev.
Proof.
  unfold Kbd.check_combos, Kbd.combo. destruct pressed; cbn [negb]; [|reflexivity].
  repeat match goal with
         | |- context [if ?c then _ else _] => destruct c
         end; reflexivity.
Qed.

Lemma translate_q (dev : Kbd.vkbd_device) (scancode : Z) :
  Kbd.q (Kbd.translate dev scancode) = Kbd.q dev.
Proof.
  unfold Kbd.translate.
  destruct (_ <=? _); [reflexivity|].
  destruct (_ =? 0); [reflexivity|].
  match goal with
  | |- context [Kbd.check_combos ?d ?k ?p] =>
      set (dev1 := d); assert (H1 : Kbd.q dev1 = Kbd.q dev)
  end.
  { subst dev1.
    repeat match goal with
           | |- context [if ?c then _ else _] => destruct c
           end; reflexivity. }
  clearbody dev1.
  destruct (negb (Z.land scancode 128 =? 0));
    cbn [Kbd.q Kbd.set_input Kbd.set_total_keypresses Kbd.set_total_keyreleases];
    rewrite check_combos_q; exact H1.
Qed.

Lemma kbd_pop_spec (dev : Kbd.vkbd_device) :
  Kbd.buffer_pop dev =
    (fst (buffer_pop Kbd.BUFFER_SIZE (Kbd.q dev)),
     Kbd.set_q (snd (buffer_pop Kbd.BUFFER_SIZE (Kbd.q dev))) dev).
Proof.
  unfold Kbd.buffer_pop.
  destruct (buffer_pop Kbd.BUFFER_SIZE (Kbd.q dev)). reflexivity.
Qed.

(** The loop of the keyboard tasklet ends with the queue empty: the fuel of
    [vkbd_tasklet_handler] is never exhausted. *)
Lemma kbd_tasklet_loop_drains (fuel : nat) (dev : Kbd.vkbd_device) :
  ring_wf Kbd.BUFFER_SIZE (Kbd.q dev) ->
  count Kbd.BUFFER_SIZE (Kbd.q dev) <= Z.of_nat fuel ->
  Kbd.buffer_empty (Kbd.tasklet_loop fuel dev) = true.
Proof.
  revert dev. induction fuel as [|fuel IH]; intros dev Hwf Hc; simpl.
  - apply (buffer_empty_count _ kbd_buffer_size); [assumption|].
    pose proof (count_range _ kbd_buffer_size _ Hwf). lia.
  - rewrite kbd_pop_spec.
    pose proof (buffer_pop_wf _ kbd_buffer_size (Kbd.q dev) Hwf) as Hwf'.
    destruct (buffer_empty (Kbd.q dev)) eqn:He.
    + rewrite (buffer_pop_empty Kbd.BUFFER_SIZE _ He). simpl.
      unfold Kbd.buffer_empty. destruct dev; assumption.
    + destruct (buffer_pop_contents _ kbd_buffer_size _ Hwf He)
        as (b & r' & Hpop & Hcont & _).
      rewrite Hpop in *. simpl in *.
      apply IH; rewrite translate_q; cbn; [assumption|].
      rewrite <- !length_contents by apply kbd_buffer_size.
      rewrite <- !length_contents in Hc by apply kbd_buffer_size.
      rewrite Hcont in Hc. simpl in Hc. lia.
Qed.

Lemma kbd_tasklet_drains (dev : Kbd.vkbd_device) :
  ring_wf Kbd.BUFFER_SIZE (Kbd.q dev) ->
  Kbd.buffer_empty (Kbd.vkbd_tasklet_handler dev) = true.
Proof.
  intros Hwf. apply kbd_tasklet_loop_drains; [assumption|].
  pose proof (count_range _ kbd_buffer_size _ Hwf).
  rewrite Z2Nat.id; unfold Kbd.BUFFER_SIZE in *; lia.
Qed.

(** ** Statistics *)


Lemma int32_range (x : Z) : - 2 ^ 31 <= C.int32 x < 2 ^ 31.
Proof.
  unfold C.int32, C.sint.
  pose proof (Z.mod_pos_bound x (2 ^ 32) ltac:(lia)).
  change (2 ^ (32 - 1)) with (2 ^ 31).
  destruct (Z.ltb_spec (x mod 2 ^ 32) (2 ^ 31)); lia.
Qed.

Lemma int32_small (x : Z) : - 2 ^ 31 <= x < 2 ^ 31 -> C.int32 x = x.
Proof.
  intros Hx. unfold C.int32, C.sint. change (2 ^ (32 - 1)) with (2 ^ 31).
  destruct (Z.ltb_spec x 0).
  - rewrite (mod_cases (2 ^ 32) x) by lia.
    destruct (Z.ltb_spec x 0); [|lia].
    destruct (Z.ltb_spec (x + 2 ^ 32) (2 ^ 31)); lia.
  - rewrite Z.mod_small by lia.
    destruct (Z.ltb_spec x (2 ^ 31)); lia.
Qed.

(** Dividing by 100 keeps a scaled displacement far from the ends of
    [int], whatever the scale factor. *)
Lemma apply_dpi_range (dpi value : Z) :
  - 21474836 <= Mouse.apply_dpi dpi value <= 21474836.
Proof.
  unfold Mouse.apply_dpi. pose proof (int32_range (value * dpi)) as H.
  set (a := C.int32 (value * dpi)) in *.
  pose proof (Z.quot_rem' a 100) as Hqr.
  destruct (Z.le_ge_cases 0 a) as [Ha|Ha].
  - pose proof (Z.rem_bound_pos a 100 Ha ltac:(lia)). lia.
  - pose proof (Z.rem_nonpos a 100 ltac:(lia) Ha).
    pose proof (Z.rem_bound_abs a 100 ltac:(lia)). lia.
Qed.




Lemma combo_spec (held : bool) (key keycode : Z) (dev : Kbd.vkbd_device) :
  Kbd.combo held key keycode dev =
    Kbd.set_combo_detections
      (Mouse.bump (held && (keycode =? key)) (Kbd.combo_detections dev)) dev.
Proof.
  unfold Kbd.combo, Mouse.bump. destruct (held && _); [reflexivity|].
  destruct dev; reflexivity.
Qed.


(* ================================================================== *)
(** * Further properties of the drivers *)

(** ** Queue *)

Lemma ring_run_refines (N : Z) (HN : 0 < N < 2 ^ 32) (ops : list queue_op) (r : ring) :
  ring_wf N r ->
  let '(rs, r') := ring_run N r ops in
  let '(rs', (held, dropped)) :=
    fifo_run (N - 1) (contents N r) (buffer_overflows r) ops in
  rs = rs' /\ contents N r' = held /\ buffer_overflows r' = dropped /\ ring_wf N r'.
Proof.
  revert r. induction ops as [|[byte|] ops IH]; intros r Hwf; simpl.
  - auto.
  - rewrite (length_contents N HN).
    pose proof (buffer_full_count N HN r Hwf) as Hfull.
    pose proof (count_range N HN r Hwf) as Hrange.
    pose proof (buffer_push_wf N HN r byte Hwf) as Hwf'.
    specialize (IH _ Hwf').
    destruct (Z.ltb_spec (count N r) (N - 1)) as [Hlt|Hge].
    + assert (Hnf : buffer_full N r = false).
      { destruct (buffer_full N r); [|reflexivity].
        destruct Hfull as [Hfull _]. specialize (Hfull eq_refl). lia. }
      destruct (buffer_push_contents N HN r byte Hwf Hnf) as (Hc & Ho).
      rewrite Hc, Ho in IH. exact IH.
    + assert (Hf : buffer_full N r = true) by (apply Hfull; lia).
      assert (Hpush : buffer_push N r byte =
                      mk_ring (buffer r) (head r) (tail r)
                              (C.ulong (buffer_overflows r + 1))).
      { unfold buffer_push. rewrite Hf. reflexivity. }
      rewrite Hpush in IH |- *. exact IH.
  - destruct (buffer_empty r) eqn:He.
    + rewrite (buffer_pop_empty N r He).
      assert (Hnil : contents N r = []).
      { apply length_zero_iff_nil.
        pose proof (length_contents N HN r).
        pose proof (proj1 (buffer_empty_count N HN r Hwf) He). lia. }
      specialize (IH r Hwf). rewrite Hnil in IH |- *.
      destruct (ring_run N r ops) as [rs r'].
      destruct (fifo_run (N - 1) [] (buffer_overflows r) ops) as [rs' [held dropped]].
      destruct IH as (-> & IH). auto.
    + destruct (buffer_pop_contents N HN r Hwf He) as (b & r1 & Hpop & Hc & Ho).
      pose proof (buffer_pop_wf N HN r Hwf) as Hwf1. rewrite Hpop in Hwf1 |- *.
      simpl in Hwf1. specialize (IH r1 Hwf1). rewrite Hc, <- Ho.
      destruct (ring_run N r1 ops) as [rs r'].
      destruct (fifo_run (N - 1) (contents N r1) (buffer_overflows r1) ops)
        as [rs' [held dropped]].
      destruct IH as (-> & IH). auto.
Qed.

(** X1 (queue as a bounded FIFO). Under any interleaving of pushes and pops
    a well-formed ring of [BUFFER_SIZE] slots behaves as a FIFO list of at
    most [BUFFER_SIZE - 1] bytes: each pop returns what the list would
    return, a push on a full list is refused and counted, and the ring ends
    well formed holding the bytes of the list. *)
Theorem queue_is_bounded_fifo (N : Z) (ops : list queue_op) (r : ring) :
  0 < N < 2 ^ 32 ->
  ring_wf N r ->
  fst (ring_run N r ops)
    = fst (fifo_run (N - 1) (contents N r) (buffer_overflows r) ops) /\
  (contents N (snd (ring_run N r ops)), buffer_overflows (snd (ring_run N r ops)))
    = snd (fifo_run (N - 1) (contents N r) (buffer_overflows r) ops) /\
  ring_wf N (snd (ring_run N r ops)).
Proof.
  intros HN Hwf. pose proof (ring_run_refines N HN ops r Hwf) as H.
  destruct (ring_run N r ops) as [rs r'].
  destruct (fifo_run (N - 1) (contents N r) (buffer_overflows r) ops)
    as [rs' [held dropped]].
  destruct H as (-> & <- & <- & Hwf'). simpl. auto.
Qed.

Lemma queue_is_bounded_fifo_witness :
  fst (ring_run Kbd.BUFFER_SIZE (ring_init Kbd.BUFFER_SIZE)
         [q_pop; q_push 0x1D; q_push 0x2E; q_pop; q_push 0x9D; q_pop; q_pop; q_pop])
  = [None; Some 0x1D; Some 0x2E; Some 0x9D; None].
Proof.
  destruct (queue_is_bounded_fifo Kbd.BUFFER_SIZE
              [q_pop; q_push 0x1D; q_push 0x2E; q_pop; q_push 0x9D; q_pop; q_pop; q_pop]
              (ring_init Kbd.BUFFER_SIZE)) as (H & _).
  - unfold Kbd.BUFFER_SIZE. lia.
  - apply ring_init_wf. unfold Kbd.BUFFER_SIZE. lia.
  - rewrite H. reflexivity.
Defined.

(** X2 (which bytes an overflow loses). When bytes are pushed with no pop
    in between, the queue keeps the first ones up to its free room of
    [BUFFER_SIZE - 1 - count] and refuses all later ones: the newest bytes
    are lost, the bytes already queued never are, and [buffer_overflows]
    advances by exactly the number of bytes refused. *)
Theorem pushes_keep_oldest (N : Z) (bytes : list Z) (r : ring) :
  0 < N < 2 ^ 32 ->
  ring_wf N r ->
  0 <= buffer_overflows r ->
  buffer_overflows r + Z.of_nat (length bytes) <= C.ULONG_MAX ->
  let room := Z.to_nat (N - 1 - count N r) in
  contents N (pushes N r bytes) = contents N r ++ take room bytes /\
  buffer_overflows (pushes N r bytes)
    = buffer_overflows r + Z.of_nat (length (drop room bytes)).
Proof.
  intros HN. revert r. induction bytes as [|b bytes IH]; intros r Hwf Hov Hmax room.
  - simpl. rewrite take_nil, drop_nil, app_nil_r. simpl. split; [reflexivity | lia].
  - pose proof (count_range N HN r Hwf) as Hrange.
    pose proof (buffer_full_count N HN r Hwf) as Hfull.
    pose proof (buffer_push_wf N HN r b Hwf) as Hwf'.
    cbn [length] in Hmax. rewrite Nat2Z.inj_succ in Hmax.
    change (pushes N r (b :: bytes)) with (pushes N (buffer_push N r b) bytes).
    destruct (buffer_full N r) eqn:Hf.
    + assert (Hc : count N r = N - 1) by (apply Hfull; reflexivity).
      assert (Hpush : buffer_push N r b =
                      mk_ring (buffer r) (head r) (tail r)
                              (C.ulong (buffer_overflows r + 1))).
      { unfold buffer_push. rewrite Hf. reflexivity. }
      rewrite Hpush in Hwf' |- *.
      set (r1 := mk_ring _ _ _ _) in *.
      assert (Ho1 : buffer_overflows r1 = buffer_overflows r + 1).
      { subst r1. cbn. apply ulong_small. lia. }
      destruct (IH r1 Hwf') as (IHc & IHo); [lia | lia |].
      change (count N r1) with (count N r) in IHc, IHo.
      change (contents N r1) with (contents N r) in IHc.
      subst room. rewrite Hc in *. replace (N - 1 - (N - 1)) with 0 in * by lia.
      change (Z.to_nat 0) with 0%nat in *. rewrite take_0, drop_0 in *.
      split; [exact IHc|]. rewrite IHo, Ho1. cbn [length]. lia.
    + assert (Hc : count N r <> N - 1).
      { intros E. apply Hfull in E. congruence. }
      destruct (buffer_push_contents N HN r b Hwf Hf) as (Hpc & Hpo).
      destruct (IH (buffer_push N r b) Hwf') as (IHc & IHo); [lia | lia |].
      assert (Hcount : count N (buffer_push N r b) = count N r + 1).
      { rewrite <- !(length_contents N HN), Hpc, length_app. simpl. lia. }
      rewrite Hcount in IHc, IHo.
      subst room.
      replace (Z.to_nat (N - 1 - count N r))
        with (S (Z.to_nat (N - 1 - (count N r + 1)))) by lia.
      cbn [take drop]. split.
      * rewrite IHc, Hpc, <- app_assoc. reflexivity.
      * rewrite IHo, Hpo. reflexivity.
Qed.

Lemma pushes_keep_oldest_witness :
  let r := pushes Kbd.BUFFER_SIZE (ring_init Kbd.BUFFER_SIZE) (replicate 254 0x1E) in
  contents Kbd.BUFFER_SIZE (pushes Kbd.BUFFER_SIZE r [0x1D; 0x2E; 0x9D])
    = contents Kbd.BUFFER_SIZE r ++ [0x1D] /\
  buffer_overflows (pushes Kbd.BUFFER_SIZE r [0x1D; 0x2E; 0x9D]) = 2.
Proof.
  intros r.
  destruct (pushes_keep_oldest Kbd.BUFFER_SIZE [0x1D; 0x2E; 0x9D] r) as (Hc & Ho).
  - unfold Kbd.BUFFER_SIZE. lia.
  - vm_compute. repeat split; congruence.
  - vm_compute. discriminate.
  - vm_compute. discriminate.
  - split; [rewrite Hc | rewrite Ho]; vm_compute; reflexivity.
Defined.

(** ** Packet assembler *)



Lemma mouse_set_q_set_q (r r1 : ring) (dev : Mouse.vmouse_device) :
  Mouse.set_q r (Mouse.set_q r1 dev) = Mouse.set_q r dev.
Proof. reflexivity. Qed.

Lemma process_packet_set_q (dpi : Z) (r : ring) (dev : Mouse.vmouse_device) :
  Mouse.process_packet dpi (Mouse.set_q r dev)
  = (fst (Mouse.process_packet dpi dev),
     Mouse.set_q r (snd (Mouse.process_packet dpi dev))).
Proof.
  unfold Mouse.process_packet.
  change (Mouse.decode dpi (Mouse.set_q r dev)) with (Mouse.decode dpi dev).
  destruct (Mouse.decode dpi dev); reflexivity.
Qed.

Lemma feed_set_q (dpi : Z) (r : ring) (dev : Mouse.vmouse_device) (byte : Z) :
  Mouse.feed dpi (Mouse.set_q r dev) byte = Mouse.set_q r (Mouse.feed dpi dev byte).
Proof.
  unfold Mouse.feed.
  cbn [Mouse.packet Mouse.packet_idx Mouse.set_q Mouse.current_packet_size
       Mouse.set_packet Mouse.set_packet_idx].
  destruct (_ <=? _); [|reflexivity].
  match goal with
  | |- context [Mouse.process_packet dpi ?d] =>
      change d with
        (Mouse.set_q r
           (Mouse.set_packet_idx (C.uint32 (Mouse.packet_idx dev + 1))
              (Mouse.set_packet (wr (Mouse.packet dev) (Mouse.packet_idx dev) byte) dev)))
  end.
  rewrite process_packet_set_q. reflexivity.
Qed.

Lemma feed_all_set_q (dpi : Z) (r : ring) (bytes : list Z) (dev : Mouse.vmouse_device) :
  Mouse.feed_all dpi (Mouse.set_q r dev) bytes
  = Mouse.set_q r (Mouse.feed_all dpi dev bytes).
Proof.
  revert dev. induction bytes as [|b bytes IH]; intros dev; [reflexivity|].
  cbn [Mouse.feed_all fold_left]. rewrite feed_set_q. apply IH.
Qed.

Lemma mouse_tasklet_loop_spec (dpi : Z) (fuel : nat) (dev : Mouse.vmouse_device) :
  ring_wf Mouse.BUFFER_SIZE (Mouse.q dev) ->
  count Mouse.BUFFER_SIZE (Mouse.q dev) <= Z.of_nat fuel ->
  exists r,
    Mouse.tasklet_loop fuel dpi dev
    = Mouse.set_q r (Mouse.feed_all dpi dev (contents Mouse.BUFFER_SIZE (Mouse.q dev))) /\
    buffer_empty r = true /\
    buffer_overflows r = buffer_overflows (Mouse.q dev).
Proof.
  pose proof mouse_buffer_size as HN.
  revert dev. induction fuel as [|fuel IH]; intros dev Hwf Hc.
  - assert (Hz : count Mouse.BUFFER_SIZE (Mouse.q dev) = 0).
    { pose proof (count_range _ HN _ Hwf). lia. }
    assert (Hnil : contents Mouse.BUFFER_SIZE (Mouse.q dev) = []).
    { apply length_zero_iff_nil. pose proof (length_contents _ HN (Mouse.q dev)). lia. }
    exists (Mouse.q dev). rewrite Hnil. splits.
    + destruct dev; reflexivity.
    + apply (buffer_empty_count _ HN); assumption.
    + reflexivity.
  - cbn [Mouse.tasklet_loop]. rewrite mouse_pop_spec.
    destruct (buffer_empty (Mouse.q dev)) eqn:He.
    + rewrite (buffer_pop_empty Mouse.BUFFER_SIZE _ He). cbn [fst snd].
      assert (Hnil : contents Mouse.BUFFER_SIZE (Mouse.q dev) = []).
      { apply length_zero_iff_nil.
        pose proof (length_contents _ HN (Mouse.q dev)).
        pose proof (proj1 (buffer_empty_count _ HN _ Hwf) He). lia. }
      exists (Mouse.q dev). rewrite Hnil. auto.
    + destruct (buffer_pop_contents _ HN _ Hwf He) as (b & r1 & Hpop & Hcont & Ho).
      pose proof (buffer_pop_wf _ HN _ Hwf) as Hwf1.
      rewrite Hpop in Hwf1 |- *. cbn [fst snd] in Hwf1 |- *.
      rewrite feed_set_q.
      destruct (IH (Mouse.set_q r1 (Mouse.feed dpi dev b))) as (r & Hloop & Hre & Hro).
      { exact Hwf1. }
      { cbn [Mouse.q Mouse.set_q].
        rewrite <- !(length_contents _ HN) in Hc |- *.
        rewrite Hcont in Hc. simpl in Hc. lia. }
      exists r. rewrite Hloop. cbn [Mouse.q Mouse.set_q].
      rewrite feed_all_set_q, Hcont. splits.
      * rewrite mouse_set_q_set_q. reflexivity.
      * exact Hre.
      * cbn [Mouse.q Mouse.set_q] in Hro. congruence.
Qed.

(** X4 (the tasklet feeds the queue in order). One run of the mouse tasklet
    handler on a well-formed queue feeds the assembler every queued byte,
    oldest first, and returns with the queue empty and the overflow count
    untouched: the 512 iterations the model allows always suffice. *)
Theorem tasklet_feeds_queue_in_order (dpi : Z) (dev : Mouse.vmouse_device) :
  ring_wf Mouse.BUFFER_SIZE (Mouse.q dev) ->
  let dev' := Mouse.vmouse_tasklet_handler dpi dev in
  dev' = Mouse.set_q (Mouse.q dev')
           (Mouse.feed_all dpi dev (contents Mouse.BUFFER_SIZE (Mouse.q dev))) /\
  Mouse.buffer_empty dev' = true /\
  buffer_overflows (Mouse.q dev') = buffer_overflows (Mouse.q dev).
Proof.
  intros Hwf dev'.
  destruct (mouse_tasklet_loop_spec dpi (Z.to_nat Mouse.BUFFER_SIZE) dev Hwf)
    as (r & Hloop & He & Ho).
  { pose proof (count_range _ mouse_buffer_size _ Hwf).
    unfold Mouse.BUFFER_SIZE in *. lia. }
  subst dev'. unfold Mouse.vmouse_tasklet_handler, Mouse.buffer_empty.
  rewrite Hloop. cbn [Mouse.q Mouse.set_q]. splits; try assumption.
  destruct (Mouse.feed_all _ _ _); reflexivity.
Qed.

Lemma tasklet_feeds_queue_in_order_witness :
  let dev := Mouse.vmouse_dev
               (Mouse.run (Mouse.vmouse_init 100 false)
                  [Mouse.inject_packet [] [Some 0x09; Some 0x0A; Some 0x05]]) in
  Mouse.input (Mouse.vmouse_tasklet_handler 100 dev)
  = Mouse.report (Mouse.mk_motion true false false false false 10 (-5) 0).
Proof.
  intros dev.
  destruct (tasklet_feeds_queue_in_order 100 dev) as (H & _).
  - vm_compute. repeat split; congruence.
  - rewrite H. vm_compute. reflexivity.
Defined.

Lemma ulong_add_congr (a b k : Z) :
  C.ulong a = C.ulong b -> C.ulong (a + k) = C.ulong (b + k).
Proof.
  unfold C.ulong, C.uint. intros H.
  rewrite <- (Zplus_mod_idemp_l a), H, Zplus_mod_idemp_l. reflexivity.
Qed.

Lemma ulong_add_ulong_l (a b : Z) : C.ulong (C.ulong a + b) = C.ulong (a + b).
Proof. unfold C.ulong, C.uint. apply Zplus_mod_idemp_l. Qed.

Lemma ulong_add_ulong_r (a b : Z) : C.ulong (a + C.ulong b) = C.ulong (a + b).
Proof. unfold C.ulong, C.uint. apply Zplus_mod_idemp_r. Qed.

(** A processed frame is counted once, as valid or as invalid. *)
Lemma process_packet_counts (dpi : Z) (dev : Mouse.vmouse_device) :
  let dev' := snd (Mouse.process_packet dpi dev) in
  C.ulong (Mouse.total_packets dev' + Mouse.invalid_packets dev')
  = C.ulong (Mouse.total_packets dev + Mouse.invalid_packets dev + 1).
Proof.
  unfold Mouse.process_packet. destruct (Mouse.decode dpi dev); cbn.
  - rewrite ulong_add_ulong_l. f_equal. lia.
  - rewrite ulong_add_ulong_r. f_equal. lia.
Qed.

Lemma feed_counts (dpi : Z) (dev : Mouse.vmouse_device) (byte : Z) :
  Mouse.dev_ok dev ->
  Mouse.packet_idx dev < Mouse.current_packet_size dev ->
  let dev' := Mouse.feed dpi dev byte in
  let size := Mouse.current_packet_size dev in
  Mouse.packet_idx dev' = (Mouse.packet_idx dev + 1) mod size /\
  C.ulong (Mouse.total_packets dev' + Mouse.invalid_packets dev')
  = C.ulong (Mouse.total_packets dev + Mouse.invalid_packets dev
             + (Mouse.packet_idx dev + 1) / size).
Proof.
  intros (_ & _ & Hsize & Hidx) Hlt. cbv zeta. unfold Mouse.feed.
  set (dev1 := Mouse.set_packet_idx _ _).
  assert (H1 : Mouse.packet_idx dev1 = Mouse.packet_idx dev + 1).
  { subst dev1. cbn. apply uint32_small. lia. }
  change (Mouse.current_packet_size dev1) with (Mouse.current_packet_size dev).
  rewrite H1.
  unfold Mouse.PACKET_SIZE_STANDARD, Mouse.PACKET_SIZE_INTELLIMOUSE in Hsize.
  destruct (Z.leb_spec (Mouse.current_packet_size dev) (Mouse.packet_idx dev + 1)).
  - assert (Hfull : Mouse.packet_idx dev + 1 = Mouse.current_packet_size dev) by lia.
    rewrite Hfull, Z_mod_same_full, Z_div_same_full by lia.
    split; [reflexivity|].
    change (Mouse.total_packets (Mouse.set_packet_idx 0 ?d)) with (Mouse.total_packets d).
    cbn [Mouse.total_packets Mouse.invalid_packets Mouse.set_packet_idx].
    apply (process_packet_counts dpi dev1).
  - rewrite Z.mod_small, Z.div_small by lia.
    split; [exact H1|]. rewrite Z.add_0_r. reflexivity.
Qed.

(** Feeding bytes from a fill index below the frame length. *)
Lemma feed_all_counts (dpi : Z) (bytes : list Z) (dev : Mouse.vmouse_device) :
  Mouse.dev_ok dev ->
  Mouse.packet_idx dev < Mouse.current_packet_size dev ->
  let dev' := Mouse.feed_all dpi dev bytes in
  let size := Mouse.current_packet_size dev in
  let fed := Mouse.packet_idx dev + Z.of_nat (length bytes) in
  Mouse.current_packet_size dev' = size /\
  Mouse.packet_idx dev' = fed mod size /\
  C.ulong (Mouse.total_packets dev' + Mouse.invalid_packets dev')
  = C.ulong (Mouse.total_packets dev + Mouse.invalid_packets dev + fed / size).
Proof.
  revert dev. induction bytes as [|b bytes IH]; intros dev Hok Hlt; cbv zeta.
  - destruct Hok as (_ & _ & _ & Hidx). cbn [Mouse.feed_all fold_left length].
    rewrite Z.add_0_r, Z.mod_small, Z.div_small, Z.add_0_r by lia. auto.
  - destruct (feed_ok dpi dev b Hok) as (Hok1 & _ & _ & Hs1 & Hlt1).
    destruct (feed_counts dpi dev b Hok Hlt) as (Hi1 & Hc1).
    destruct (IH _ Hok1 Hlt1) as (Hs & Hi & Hc).
    change (Mouse.feed_all dpi dev (b :: bytes))
      with (Mouse.feed_all dpi (Mouse.feed dpi dev b) bytes).
    rewrite Hs1 in Hs, Hi, Hc. rewrite Hi1 in Hi, Hc.
    assert (Hpos : 0 < Mouse.current_packet_size dev).
    { destruct Hok as (_ & _ & [E|E] & _); rewrite E; reflexivity. }
    set (size := Mouse.current_packet_size dev) in *.
    set (i := Mouse.packet_idx dev) in *.
    set (k := Z.of_nat (length bytes)) in *.
    replace (Z.of_nat (length (b :: bytes))) with (k + 1)
      by (subst k; cbn [length]; lia).
    assert (Hsplit : i + (k + 1) = ((i + 1) mod size + k) + size * ((i + 1) / size)).
    { pose proof (Z.div_mod (i + 1) size ltac:(lia)). lia. }
    split; [exact Hs|]. split.
    + rewrite Hi, Hsplit, Z.mul_comm, Z.mod_add by lia. reflexivity.
    + rewrite Hc, Hsplit, Z.mul_comm, Z.div_add by lia.
      rewrite Z.add_assoc.
      rewrite (ulong_add_congr _ _ _ Hc1). f_equal. lia.
Qed.

(** A byte fed at a fill index that is not below the frame length
    completes a frame at once. *)
Lemma feed_counts_late (dpi : Z) (dev : Mouse.vmouse_device) (byte : Z) :
  Mouse.dev_ok dev ->
  Mouse.current_packet_size dev <= Mouse.packet_idx dev ->
  let dev' := Mouse.feed dpi dev byte in
  Mouse.packet_idx dev' = 0 /\
  C.ulong (Mouse.total_packets dev' + Mouse.invalid_packets dev')
  = C.ulong (Mouse.total_packets dev + Mouse.invalid_packets dev + 1).
Proof.
  intros (_ & _ & Hsize & Hidx) Hge. cbv zeta. unfold Mouse.feed.
  set (dev1 := Mouse.set_packet_idx _ _).
  assert (H1 : Mouse.packet_idx dev1 = Mouse.packet_idx dev + 1).
  { subst dev1. cbn. apply uint32_small. lia. }
  change (Mouse.current_packet_size dev1) with (Mouse.current_packet_size dev).
  rewrite H1.
  destruct (Z.leb_spec (Mouse.current_packet_size dev) (Mouse.packet_idx dev + 1));
    [|lia].
  split; [reflexivity|].
  change (Mouse.total_packets (Mouse.set_packet_idx 0 ?d)) with (Mouse.total_packets d).
  cbn [Mouse.total_packets Mouse.invalid_packets Mouse.set_packet_idx].
  apply (process_packet_counts dpi dev1).
Qed.

(** X5 (every frame is counted). In any state satisfying the invariant
    [dev_ok] of the driver (frame length [n] of 3 or 4, fill index [i] of at
    most 3, frame buffer of 4 bytes), feeding [k] bytes to the assembler
    completes exactly [(min i (n - 1) + k) / n] frames: each is counted
    once, in [total_packets] or in [invalid_packets], and for [k > 0] the
    fill index ends at [(min i (n - 1) + k) mod n]. With [i < n], as between
    two operations, these are [(i + k) / n] and [(i + k) mod n]. With
    [i = n = 3], the state in which a 3-byte injection in 4-byte mode can
    find the assembler, the first byte completes a frame at once. *)
Theorem frames_are_counted (dpi : Z) (bytes : list Z) (dev : Mouse.vmouse_device) :
  Mouse.dev_ok dev ->
  let dev' := Mouse.feed_all dpi dev bytes in
  let size := Mouse.current_packet_size dev in
  let fed := Z.min (Mouse.packet_idx dev) (size - 1) + Z.of_nat (length bytes) in
  Mouse.current_packet_size dev' = size /\
  Mouse.packet_idx dev'
    = (match bytes with [] => Mouse.packet_idx dev | _ :: _ => fed mod size end) /\
  C.ulong (Mouse.total_packets dev' + Mouse.invalid_packets dev')
  = C.ulong (Mouse.total_packets dev + Mouse.invalid_packets dev + fed / size).
Proof.
  intros Hok. cbv zeta.
  assert (Hsize : Mouse.current_packet_size dev = 3 \/ Mouse.current_packet_size dev = 4).
  { destruct Hok as (_ & _ & H & _). exact H. }
  assert (Hidx : 0 <= Mouse.packet_idx dev <= 3) by apply Hok.
  destruct (Z.lt_ge_cases (Mouse.packet_idx dev) (Mouse.current_packet_size dev))
    as [Hlt|Hge].
  - rewrite Z.min_l by lia.
    destruct (feed_all_counts dpi bytes dev Hok Hlt) as (Hs & Hi & Hc).
    split; [exact Hs|]. split; [|exact Hc].
    destruct bytes; [|exact Hi].
    cbn [Mouse.feed_all fold_left]. reflexivity.
  - rewrite Z.min_r by lia.
    destruct bytes as [|b bytes].
    + cbn [Mouse.feed_all fold_left length].
      rewrite Z.add_0_r, Z.div_small, Z.add_0_r by lia. auto.
    + destruct (feed_ok dpi dev b Hok) as (Hok1 & _ & _ & Hs1 & Hlt1).
      destruct (feed_counts_late dpi dev b Hok Hge) as (Hi1 & Hc1).
      destruct (feed_all_counts dpi bytes _ Hok1 Hlt1) as (Hs & Hi & Hc).
      change (Mouse.feed_all dpi dev (b :: bytes))
        with (Mouse.feed_all dpi (Mouse.feed dpi dev b) bytes).
      rewrite Hs1 in Hs, Hi, Hc. rewrite Hi1, Z.add_0_l in Hi, Hc.
      set (size := Mouse.current_packet_size dev) in *.
      set (k := Z.of_nat (length bytes)) in *.
      replace (size - 1 + Z.of_nat (length (b :: bytes))) with (k + 1 * size)
        by (subst k; cbn [length]; rewrite Nat2Z.inj_succ; lia).
      rewrite Z.mod_add, Z.div_add by lia.
      split; [exact Hs|]. split; [exact Hi|].
      rewrite Hc. rewrite (ulong_add_congr _ _ _ Hc1). f_equal. lia.
Qed.

Lemma frames_are_counted_witness :
  let dev := Mouse.set_packet_idx 3 (Mouse.vmouse_dev (Mouse.vmouse_init 100 false)) in
  let dev' := Mouse.feed_all 100 dev [0x08; 0x00; 0x00] in
  Mouse.packet_idx dev' = 2 /\
  C.ulong (Mouse.total_packets dev' + Mouse.invalid_packets dev') = 1.
Proof.
  intros dev dev'. subst dev'.
  destruct (frames_are_counted 100 [0x08; 0x00; 0x00] dev) as (_ & Hi & Hc).
  - split; [apply ring_init_wf, mouse_buffer_size|].
    cbn. splits; [reflexivity | left; reflexivity | lia | lia].
  - split; [rewrite Hi | rewrite Hc]; reflexivity.
Defined.

(** X6 (a frame is made of the bytes fed). From fill index 0, the bytes fed
    one by one reach [process_packet] as bytes 0, 1, 2 (and 3) of the frame,
    in that order, and the fill index is back at 0 afterwards. In 3-byte
    mode byte 3 of the buffer keeps whatever it held and plays no part in
    the decoding. *)
Theorem frame_is_the_bytes_fed
  (dpi : Z) (dev : Mouse.vmouse_device) (b0 b1 b2 b3 p0 p1 p2 p3 : Z) :
  Mouse.packet dev = [p0; p1; p2; p3] ->
  Mouse.packet_idx dev = 0 ->
  let framed frame idx := Mouse.set_packet_idx idx (Mouse.set_packet frame dev) in
  (Mouse.current_packet_size dev = Mouse.PACKET_SIZE_STANDARD ->
   Mouse.feed_all dpi dev [b0; b1; b2]
   = Mouse.set_packet_idx 0
       (snd (Mouse.process_packet dpi (framed [b0; b1; b2; p3] 3))) /\
   Mouse.decode dpi (framed [b0; b1; b2; p3] 3)
   = Mouse.decode dpi (framed [b0; b1; b2; 0] 3)) /\
  (Mouse.current_packet_size dev = Mouse.PACKET_SIZE_INTELLIMOUSE ->
   Mouse.feed_all dpi dev [b0; b1; b2; b3]
   = Mouse.set_packet_idx 0
       (snd (Mouse.process_packet dpi (framed [b0; b1; b2; b3] 4)))).
Proof.
  intros Hp Hi framed. subst framed.
  destruct dev as [inp t r pk idx size tp tc lc rc mc sc fc se tdx tdy td ip].
  cbn in Hp, Hi. subst pk idx. split; intros Hs; cbn in Hs; subst size.
  - split.
    + unfold Mouse.feed_all, Mouse.feed. cbn [fold_left].
      cbn [Mouse.packet Mouse.packet_idx Mouse.current_packet_size
           Mouse.set_packet Mouse.set_packet_idx].
      change (C.uint32 (0 + 1)) with 1.
      change (Mouse.PACKET_SIZE_STANDARD <=? 1) with false. cbv iota.
      cbn [Mouse.packet Mouse.packet_idx Mouse.current_packet_size
           Mouse.set_packet Mouse.set_packet_idx].
      change (C.uint32 (1 + 1)) with 2.
      change (Mouse.PACKET_SIZE_STANDARD <=? 2) with false. cbv iota.
      cbn [Mouse.packet Mouse.packet_idx Mouse.current_packet_size
           Mouse.set_packet Mouse.set_packet_idx].
      change (C.uint32 (2 + 1)) with 3.
      change (Mouse.PACKET_SIZE_STANDARD <=? 3) with true. cbv iota.
      reflexivity.
    + unfold Mouse.decode.
      cbn [Mouse.packet Mouse.current_packet_size Mouse.set_packet Mouse.set_packet_idx].
      change (Mouse.PACKET_SIZE_STANDARD =? Mouse.PACKET_SIZE_INTELLIMOUSE) with false.
      reflexivity.
  - unfold Mouse.feed_all, Mouse.feed. cbn [fold_left].
    cbn [Mouse.packet Mouse.packet_idx Mouse.current_packet_size
         Mouse.set_packet Mouse.set_packet_idx].
    change (C.uint32 (0 + 1)) with 1.
    change (Mouse.PACKET_SIZE_INTELLIMOUSE <=? 1) with false. cbv iota.
    cbn [Mouse.packet Mouse.packet_idx Mouse.current_packet_size
         Mouse.set_packet Mouse.set_packet_idx].
    change (C.uint32 (1 + 1)) with 2.
    change (Mouse.PACKET_SIZE_INTELLIMOUSE <=? 2) with false. cbv iota.
    cbn [Mouse.packet Mouse.packet_idx Mouse.current_packet_size
         Mouse.set_packet Mouse.set_packet_idx].
    change (C.uint32 (2 + 1)) with 3.
    change (Mouse.PACKET_SIZE_INTELLIMOUSE <=? 3) with false. cbv iota.
    cbn [Mouse.packet Mouse.packet_idx Mouse.current_packet_size
         Mouse.set_packet Mouse.set_packet_idx].
    change (C.uint32 (3 + 1)) with 4.
    change (Mouse.PACKET_SIZE_INTELLIMOUSE <=? 4) with true. cbv iota.
    reflexivity.
Qed.

Lemma frame_is_the_bytes_fed_witness :
  let dev := Mouse.vmouse_dev (Mouse.vmouse_init 100 true) in
  Mouse.feed_all 100 dev [0x0C; 0x81; 0x7F; 0x2F]
  = Mouse.set_packet_idx 0
      (snd (Mouse.process_packet 100
              (Mouse.set_packet_idx 4 (Mouse.set_packet [0x0C; 0x81; 0x7F; 0x2F] dev)))).
Proof.
  intros dev.
  destruct (frame_is_the_bytes_fed 100 dev 0x0C 0x81 0x7F 0x2F 0 0 0 0) as (_ & H).
  - reflexivity.
  - reflexivity.
  - apply H. reflexivity.
Defined.

Lemma schar_range (x : Z) : -128 <= C.schar x <= 127.
Proof.
  unfold C.schar, C.sint. change (2 ^ 8) with 256. change (2 ^ (8 - 1)) with 128.
  pose proof (Z.mod_pos_bound x 256 ltac:(lia)).
  destruct (Z.ltb_spec (x mod 256) 128); lia.
Qed.

Lemma decode_displacement (dpi : Z) (dev : Mouse.vmouse_device) (m : Mouse.MotionState) :
  Mouse.decode dpi dev = Some m ->
  Mouse.dx m = Mouse.apply_dpi dpi (C.schar (rd (Mouse.packet dev) 1)) /\
  Mouse.dy m = - Mouse.apply_dpi dpi (C.schar (rd (Mouse.packet dev) 2)).
Proof.
  unfold Mouse.decode. destruct (negb _); [discriminate|].
  pose proof (apply_dpi_range dpi (C.schar (rd (Mouse.packet dev) 2))) as Hy.
  destruct (_ =? _); intros [= <-]; cbn [Mouse.dx Mouse.dy];
    rewrite int32_small by lia; auto.
Qed.

(** X7 (scale 100 is the identity). At the default scale factor a decoded
    frame reports byte 1 read as a signed 8-bit value for [dx] and the
    negation of byte 2 read the same way for [dy]: nothing is lost or
    rounded. *)
Theorem default_scale_is_identity (dev : Mouse.vmouse_device) (m : Mouse.MotionState) :
  Mouse.decode 100 dev = Some m ->
  Mouse.dx m = C.schar (rd (Mouse.packet dev) 1) /\
  Mouse.dy m = - C.schar (rd (Mouse.packet dev) 2).
Proof.
  intros Hdec. destruct (decode_displacement 100 dev m Hdec) as (-> & ->).
  pose proof (schar_range (rd (Mouse.packet dev) 1)).
  pose proof (schar_range (rd (Mouse.packet dev) 2)).
  unfold Mouse.apply_dpi. rewrite !int32_small by lia.
  rewrite !Z.quot_mul by lia. auto.
Qed.

Lemma default_scale_is_identity_witness :
  let dev := Mouse.set_packet [0x08; 0x81; 0x7F; 0]
               (Mouse.vmouse_dev (Mouse.vmouse_init 100 false)) in
  let m := Mouse.mk_motion false false false false false (-127) (-127) 0 in
  Mouse.dx m = C.schar (rd (Mouse.packet dev) 1) /\
  Mouse.dy m = - C.schar (rd (Mouse.packet dev) 2).
Proof.
  intros dev m. apply (default_scale_is_identity dev m).
  vm_compute. reflexivity.
Defined.

(** X8 (what scaling does to a displacement). With the scale factor in the
    range the sysfs attribute accepts, [10..1000], the magnitude of a
    decoded displacement is the magnitude of the raw byte times the factor,
    divided by 100 and rounded down: it never exceeds 1280, and a raw
    movement with [|raw| * dpi < 100] is reported as no movement at all. *)
Theorem scaled_displacement (dpi : Z) (dev : Mouse.vmouse_device) (m : Mouse.MotionState) :
  10 <= dpi <= 1000 ->
  Mouse.decode dpi dev = Some m ->
  let raw_x := C.schar (rd (Mouse.packet dev) 1) in
  let raw_y := C.schar (rd (Mouse.packet dev) 2) in
  Z.abs (Mouse.dx m) = Z.abs raw_x * dpi / 100 /\
  Z.abs (Mouse.dy m) = Z.abs raw_y * dpi / 100 /\
  Z.abs (Mouse.dx m) <= 1280 /\
  Z.abs (Mouse.dy m) <= 1280 /\
  (Z.abs raw_x * dpi < 100 -> Mouse.dx m = 0) /\
  (Z.abs raw_y * dpi < 100 -> Mouse.dy m = 0).
Proof.
  intros Hdpi Hdec raw_x raw_y.
  destruct (decode_displacement dpi dev m Hdec) as (Hx & Hy).
  fold raw_x in Hx. fold raw_y in Hy.
  assert (Hmag : forall v, -128 <= v <= 127 ->
                           Z.abs (Mouse.apply_dpi dpi v) = Z.abs v * dpi / 100).
  { intros v Hv. unfold Mouse.apply_dpi. rewrite int32_small by nia.
    rewrite <- Z.quot_abs by lia. rewrite Z.abs_mul, (Z.abs_eq dpi) by lia.
    change (Z.abs 100) with 100. apply Z.quot_div_nonneg; lia. }
  pose proof (schar_range (rd (Mouse.packet dev) 1)) as Rx. fold raw_x in Rx.
  pose proof (schar_range (rd (Mouse.packet dev) 2)) as Ry. fold raw_y in Ry.
  assert (Ex : Z.abs (Mouse.dx m) = Z.abs raw_x * dpi / 100)
    by (rewrite Hx; apply Hmag; assumption).
  assert (Ey : Z.abs (Mouse.dy m) = Z.abs raw_y * dpi / 100)
    by (rewrite Hy, Z.abs_opp; apply Hmag; assumption).
  assert (Hbound : forall v, -128 <= v <= 127 -> Z.abs v * dpi / 100 <= 1280).
  { intros v Hv. apply Z.div_le_upper_bound; nia. }
  splits; try assumption.
  - rewrite Ex. apply Hbound. assumption.
  - rewrite Ey. apply Hbound. assumption.
  - intros Hsmall. rewrite Z.div_small in Ex by lia. lia.
  - intros Hsmall. rewrite Z.div_small in Ey by lia. lia.
Qed.

Lemma scaled_displacement_witness :
  let dev := Mouse.set_packet [0x08; 0xF7; 0x80; 0]
               (Mouse.vmouse_dev (Mouse.vmouse_init 10 false)) in
  let m := Mouse.mk_motion false false false false false 0 12 0 in
  Z.abs (Mouse.dy m) = Z.abs (C.schar (rd (Mouse.packet dev) 2)) * 10 / 100 /\
  Z.abs (Mouse.dy m) <= 1280.
Proof.
  intros dev m.
  destruct (scaled_displacement 10 dev m) as (_ & Hy & _ & Hb & _).
  - lia.
  - vm_compute. reflexivity.
  - split; [exact Hy | exact Hb].
Defined.

(** X9 (scaling is symmetric). Because C division truncates towards zero,
    a raw movement and its opposite scale to opposite displacements,
    whatever the scale factor, as long as the product fits an [int]: equal
    motions back and forth cancel in the running sums. *)
Theorem apply_dpi_opposite (dpi value : Z) :
  - 2 ^ 31 < value * dpi < 2 ^ 31 ->
  Mouse.apply_dpi dpi (- value) = - Mouse.apply_dpi dpi value.
Proof.
  intros H. unfold Mouse.apply_dpi.
  rewrite !int32_small by lia.
  rewrite Z.mul_opp_l. apply Z.quot_opp_l. lia.
Qed.

Lemma apply_dpi_opposite_witness :
  Mouse.apply_dpi 150 (-5) = -7 /\ Mouse.apply_dpi 150 5 = 7.
Proof.
  pose proof (apply_dpi_opposite 150 5 ltac:(lia)) as H.
  split.
  - etransitivity; [exact H | vm_compute; reflexivity].
  - vm_compute. reflexivity.
Defined.

Lemma land_pow2 (x k : Z) :
  0 <= k -> Z.land x (2 ^ k) = if Z.testbit x k then 2 ^ k else 0.
Proof.
  intros Hk. apply Z.bits_inj'. intros n Hn.
  rewrite Z.land_spec, Z.pow2_bits_eqb by lia.
  destruct (Z.eqb_spec k n) as [<-|Hne].
  - rewrite andb_true_r. destruct (Z.testbit x k).
    + rewrite Z.pow2_bits_true; [reflexivity|lia].
    + apply eq_sym, Z.bits_0.
  - rewrite andb_false_r. destruct (Z.testbit x k).
    + rewrite Z.pow2_bits_false; [reflexivity|lia].
    + apply eq_sym, Z.bits_0.
Qed.

Lemma mask_is_testbit (x k : Z) :
  0 <= k -> negb (Z.land x (2 ^ k) =? 0) = Z.testbit x k.
Proof.
  intros Hk. rewrite land_pow2 by assumption.
  destruct (Z.testbit x k); [|reflexivity].
  apply negb_true_iff, Z.eqb_neq. pose proof (Z.pow_pos_nonneg 2 k). lia.
Qed.

Lemma wheel_value (extra : Z) :
  C.schar (Z.lor (Z.land extra Mouse.IM_WHEEL_MASK)
                 (if C.truthy (Z.land extra 0x08) then 0xF0 else 0x00))
  = (extra mod 16 + 8) mod 16 - 8.
Proof.
  unfold Mouse.IM_WHEEL_MASK.
  rewrite (land_low_nibble extra 0x0F), (land_low_nibble extra 0x08) by reflexivity.
  pose proof (Z.mod_pos_bound extra 16 ltac:(lia)) as H.
  assert (Hcases : Exists (fun n => extra mod 16 = n)
                     [0; 1; 2; 3; 4; 5; 6; 7; 8; 9; 10; 11; 12; 13; 14; 15]).
  { repeat rewrite Exists_cons. rewrite Exists_nil. lia. }
  repeat rewrite Exists_cons in Hcases. rewrite Exists_nil in Hcases.
  repeat (destruct Hcases as [-> | Hcases]; [vm_compute; reflexivity|]).
  destruct Hcases.
Qed.

(** X10 (the frame, bit by bit). A frame is valid exactly when bit 3 of
    byte 0 is set. The three buttons are bits 0, 1 and 2 of byte 0; in
    4-byte mode the side and forward buttons are bits 4 and 5 of byte 3 and
    the scroll value is its low nibble read as a 4-bit two's complement
    number, bits 6 and 7 being ignored; in 3-byte mode they are released
    and 0. The displacements are bytes 1 and 2 read as signed 8-bit values
    and scaled, the vertical one negated. *)
Theorem decode_bit_by_bit (dpi : Z) (dev : Mouse.vmouse_device) :
  let status := rd (Mouse.packet dev) 0 in
  let extra := rd (Mouse.packet dev) 3 in
  let extended := Mouse.current_packet_size dev =? Mouse.PACKET_SIZE_INTELLIMOUSE in
  Mouse.decode dpi dev =
    if Z.testbit status 3 then
      Some (Mouse.mk_motion
              (Z.testbit status 0) (Z.testbit status 1) (Z.testbit status 2)
              (extended && Z.testbit extra 4) (extended && Z.testbit extra 5)
              (Mouse.apply_dpi dpi (C.schar (rd (Mouse.packet dev) 1)))
              (- Mouse.apply_dpi dpi (C.schar (rd (Mouse.packet dev) 2)))
              (if extended then (extra mod 16 + 8) mod 16 - 8 else 0))
    else None.
Proof.
  cbv zeta. unfold Mouse.decode, C.truthy.
  change Mouse.PS2_ALWAYS_ONE with (2 ^ 3). change Mouse.PS2_LEFT_BTN with (2 ^ 0).
  change Mouse.PS2_RIGHT_BTN with (2 ^ 1). change Mouse.PS2_MIDDLE_BTN with (2 ^ 2).
  change Mouse.IM_BTN4 with (2 ^ 4). change Mouse.IM_BTN5 with (2 ^ 5).
  rewrite !mask_is_testbit by lia.
  destruct (Z.testbit (rd (Mouse.packet dev) 0) 3); cbn [negb]; [|reflexivity].
  pose proof (apply_dpi_range dpi (C.schar (rd (Mouse.packet dev) 2))) as Hy.
  rewrite int32_small by lia.
  destruct (_ =? _); cbn [andb]; [|reflexivity].
  pose proof (wheel_value (rd (Mouse.packet dev) 3)) as Hw.
  unfold C.truthy in Hw. rewrite Hw. reflexivity.
Qed.

(** ** Click statistics *)

Lemma bump_ulong (b : bool) (x : Z) :
  Mouse.bump b (C.ulong x) = C.ulong (x + Z.b2z b).
Proof.
  unfold Mouse.bump. destruct b; cbn [Z.b2z].
  - apply ulong_add_ulong_l.
  - rewrite Z.add_0_r. reflexivity.
Qed.

Lemma ulong_sum5 (l r c s f l' r' c' s' f' : Z) :
  C.ulong l' = C.ulong l -> C.ulong r' = C.ulong r -> C.ulong c' = C.ulong c ->
  C.ulong s' = C.ulong s -> C.ulong f' = C.ulong f ->
  C.ulong (l' + r' + c' + s' + f') = C.ulong (l + r + c + s + f).
Proof.
  unfold C.ulong, C.uint. intros Hl Hr Hc Hs Hf.
  rewrite (Z.add_mod (l' + r' + c' + s') f'), (Z.add_mod (l' + r' + c') s'),
    (Z.add_mod (l' + r') c'), (Z.add_mod l' r') by lia.
  rewrite Hl, Hr, Hc, Hs, Hf.
  rewrite <- (Z.add_mod l r), <- (Z.add_mod (l + r) c), <- (Z.add_mod (l + r + c) s),
    <- (Z.add_mod (l + r + c + s) f) by lia.
  reflexivity.
Qed.

Lemma ulong_bump_eq (b : bool) (x : Z) : C.ulong (Mouse.bump b x) = C.ulong (x + Z.b2z b).
Proof.
  unfold Mouse.bump. destruct b; cbn [Z.b2z].
  - unfold C.ulong, C.uint. apply Z.mod_mod. lia.
  - rewrite Z.add_0_r. reflexivity.
Qed.

Lemma account_clicks (m : Mouse.MotionState) (dev : Mouse.vmouse_device) :
  clicks_consistent dev -> clicks_consistent (Mouse.account m dev).
Proof.
  unfold clicks_consistent, Mouse.account.
  cbn [Mouse.total_clicks Mouse.left_clicks Mouse.right_clicks Mouse.middle_clicks
       Mouse.side_clicks Mouse.forward_clicks].
  intros ->. rewrite !bump_ulong.
  rewrite (ulong_sum5 _ _ _ _ _ _ _ _ _ _
             (ulong_bump_eq _ _) (ulong_bump_eq _ _) (ulong_bump_eq _ _)
             (ulong_bump_eq _ _) (ulong_bump_eq _ _)).
  f_equal. lia.
Qed.

Lemma process_packet_clicks (dpi : Z) (dev : Mouse.vmouse_device) :
  clicks_consistent dev -> clicks_consistent (snd (Mouse.process_packet dpi dev)).
Proof.
  intros H. unfold Mouse.process_packet.
  destruct (Mouse.decode dpi dev) as [m|]; cbn [snd].
  - exact (account_clicks m dev H).
  - exact H.
Qed.

Lemma feed_clicks (dpi : Z) (dev : Mouse.vmouse_device) (byte : Z) :
  clicks_consistent dev -> clicks_consistent (Mouse.feed dpi dev byte).
Proof.
  intros H. unfold Mouse.feed. set (dev1 := Mouse.set_packet_idx _ _).
  destruct (_ <=? _); [|exact H].
  exact (process_packet_clicks dpi dev1 H).
Qed.

Lemma tasklet_loop_clicks (dpi : Z) (fuel : nat) (dev : Mouse.vmouse_device) :
  clicks_consistent dev -> clicks_consistent (Mouse.tasklet_loop fuel dpi dev).
Proof.
  revert dev. induction fuel as [|fuel IH]; intros dev H; [exact H|].
  cbn [Mouse.tasklet_loop]. rewrite mouse_pop_spec.
  destruct (fst _) as [byte|]; [|exact H].
  apply IH, feed_clicks. exact H.
Qed.

Lemma inject_bytes_clicks (dpi : Z) (bytes : list Z) (sched : list bool)
  (dev : Mouse.vmouse_device) :
  clicks_consistent dev -> clicks_consistent (Mouse.inject_bytes sched dpi dev bytes).
Proof.
  revert sched dev. induction bytes as [|b bytes IH]; intros sched dev H; [exact H|].
  cbn [Mouse.inject_bytes]. apply IH.
  destruct (hd false sched); [|exact H].
  unfold Mouse.run_tasklet. cbn [Mouse.tasklet Mouse.vmouse_simulate_irq Mouse.set_tasklet].
  apply tasklet_loop_clicks. exact H.
Qed.

Lemma step_clicks (s : Mouse.vmouse) (o : Mouse.op) :
  clicks_consistent (Mouse.vmouse_dev s) ->
  clicks_consistent (Mouse.vmouse_dev (Mouse.step s o)).
Proof.
  intros H. destruct o as [sched tokens|val|val|]; cbn [Mouse.step].
  - unfold Mouse.inject_packet_store.
    destruct (Mouse.parse_bytes _ tokens) as [bytes|]; [|exact H].
    destruct (negb _ && negb _); [exact H|].
    destruct ((Z.of_nat (length bytes) =? 3) && _); cbn [snd Mouse.vmouse_dev Mouse.set_dev].
    + exact (inject_bytes_clicks _ bytes sched
               (Mouse.set_current_packet_size Mouse.PACKET_SIZE_STANDARD
                  (Mouse.vmouse_dev s)) H).
    + apply inject_bytes_clicks. exact H.
  - unfold Mouse.dpi_store. destruct val as [val|]; [|exact H].
    destruct (_ || _); exact H.
  - unfold Mouse.intellimouse_store. destruct val as [val|]; exact H.
  - cbn [Mouse.vmouse_dev Mouse.set_dev]. unfold Mouse.run_tasklet.
    destruct (Mouse.tasklet (Mouse.vmouse_dev s)); [|exact H].
    apply tasklet_loop_clicks. exact H.
Qed.

(** X11 (click statistics add up). In every state the mouse driver can
    reach, [total_clicks] equals the sum of the left, right, middle, side
    and forward click counters (in [unsigned long] arithmetic): a frame with
    several buttons held adds one per button to both sides. *)
Theorem clicks_add_up (s : Mouse.vmouse) :
  Mouse.reachable s -> clicks_consistent (Mouse.vmouse_dev s).
Proof.
  intros (dpi & im & ops & ->). unfold Mouse.run.
  assert (H0 : clicks_consistent (Mouse.vmouse_dev (Mouse.vmouse_init dpi im)))
    by reflexivity.
  revert H0. generalize (Mouse.vmouse_init dpi im).
  induction ops as [|o ops IH]; intros s Hs; cbn [fold_left]; [exact Hs|].
  apply IH, step_clicks, Hs.
Qed.

Lemma clicks_add_up_witness :
  let s := Mouse.run (Mouse.vmouse_init 100 true)
             [Mouse.inject_packet [] [Some 0x0F; Some 0x00; Some 0x00; Some 0x30];
              Mouse.softirq;
              Mouse.inject_packet [] [Some 0x09; Some 0x00; Some 0x00; Some 0x00];
              Mouse.softirq] in
  Mouse.total_clicks (Mouse.vmouse_dev s) = 6 /\
  clicks_consistent (Mouse.vmouse_dev s).
Proof.
  intros s. split; [vm_compute; reflexivity|].
  apply (clicks_add_up s). exists 100, true. eexists. reflexivity.
Defined.

(** ** Packet injection *)

Lemma parse_bytes_spec (expected : nat) (tokens : list (option Z)) :
  match Mouse.parse_bytes expected tokens with
  | Some bytes =>
      map Some bytes = take expected tokens /\ Forall (fun v => v <= 0xFF) bytes
  | None =>
      Exists (fun t => match t with Some v => 0xFF < v | None => True end)
             (take expected tokens)
  end.
Proof.
  revert tokens. induction expected as [|e IH]; intros tokens; cbn [Mouse.parse_bytes].
  - rewrite take_0. split; [reflexivity | constructor].
  - destruct tokens as [|[v|] rest]; cbn [take].
    + split; [reflexivity | constructor].
    + destruct (Z.ltb_spec 0xFF v) as [Hv|Hv].
      * apply Exists_cons_hd. exact Hv.
      * specialize (IH rest). destruct (Mouse.parse_bytes e rest) as [bytes|].
        -- destruct IH as (Hm & Hf). cbn [map]. rewrite Hm.
           split; [reflexivity | constructor; assumption].
        -- apply Exists_cons_tl. exact IH.
    + apply Exists_cons_hd. exact I.
Qed.

(** X12 (what [inject_packet] accepts). The store looks at no more values
    than the current frame length; it succeeds exactly when each value it
    looks at is a number not above 255 and there are 3 or 4 of them, and
    whatever follows in the text is ignored. When it fails, the driver is
    left exactly as it was: no byte of a rejected packet is queued. *)
Theorem inject_packet_validation
  (sched : list bool) (s : Mouse.vmouse) (tokens : list (option Z)) :
  let expected := Z.to_nat (Mouse.current_packet_size (Mouse.vmouse_dev s)) in
  let read := take expected tokens in
  let valid (t : option Z) := match t with Some v => v <= 0xFF | None => False end in
  (fst (Mouse.inject_packet_store sched s tokens) = Stored <->
   Forall valid read /\ (length read = 3%nat \/ length read = 4%nat)) /\
  (fst (Mouse.inject_packet_store sched s tokens) = Rejected ->
   snd (Mouse.inject_packet_store sched s tokens) = s).
Proof.
  cbv zeta. unfold Mouse.inject_packet_store.
  pose proof (parse_bytes_spec
                (Z.to_nat (Mouse.current_packet_size (Mouse.vmouse_dev s))) tokens) as Hp.
  destruct (Mouse.parse_bytes _ tokens) as [bytes|].
  - destruct Hp as (Hm & Hf). rewrite <- Hm, length_map.
    assert (Hvalid : Forall (fun t : option Z =>
                               match t with Some v => v <= 0xFF | None => False end)
                            (map Some bytes)).
    { apply Forall_map. exact Hf. }
    destruct (Z.eqb_spec (Z.of_nat (length bytes)) 3) as [H3|H3];
      destruct (Z.eqb_spec (Z.of_nat (length bytes)) 4) as [H4|H4];
      cbn [negb andb]; try lia.
    + destruct (_ =? _); cbn [fst snd]; (split; [split; [intros _|reflexivity]|discriminate]);
        (split; [exact Hvalid | left; lia]).
    + split; [split; [intros _|reflexivity]|discriminate].
      split; [exact Hvalid | right; lia].
    + split; [split; [discriminate|]|reflexivity].
      intros (_ & [E|E]); lia.
  - split; [split; [discriminate|]|reflexivity].
    intros (Hall & _). exfalso.
    apply Exists_exists in Hp. destruct Hp as (t & Hin & Ht).
    rewrite Forall_forall in Hall. specialize (Hall t Hin).
    destruct t as [v|]; [lia | exact Hall].
Qed.

Lemma inject_packet_validation_witness :
  let s := Mouse.vmouse_init 100 true in
  fst (Mouse.inject_packet_store [] s [Some 8; Some 0; Some 0; Some 1]) = Stored /\
  snd (Mouse.inject_packet_store [] s [Some 8; Some 256]) = s.
Proof.
  intros s.
  pose proof (inject_packet_validation [] s [Some 8; Some 0; Some 0; Some 1]) as H1.
  pose proof (inject_packet_validation [] s [Some 8; Some 256]) as H2.
  cbv zeta in H1, H2. destruct H1 as [H1 _]. destruct H2 as [_ H2]. split.
  - apply H1. split; [|right; reflexivity].
    repeat constructor; vm_compute; discriminate.
  - apply H2. vm_compute. reflexivity.
Defined.

Lemma inject_bytes_deferred_queue (dpi : Z) (bytes : list Z) (dev : Mouse.vmouse_device) :
  Mouse.q (Mouse.inject_bytes [] dpi dev bytes)
  = pushes Mouse.BUFFER_SIZE (Mouse.q dev) (map C.uchar bytes) /\
  (bytes <> [] -> Mouse.tasklet (Mouse.inject_bytes [] dpi dev bytes) = true).
Proof.
  revert dev. induction bytes as [|b bytes IH]; intros dev.
  - split; [reflexivity | congruence].
  - cbn [Mouse.inject_bytes hd tl map]. destruct (IH (Mouse.vmouse_simulate_irq dev (C.uchar b)))
      as (Hq & Ht).
    split; [exact Hq|]. intros _.
    destruct bytes as [|b' bytes']; [reflexivity | apply Ht; discriminate].
Qed.

(** X13 (an accepted packet is queued whole and in order). When the store
    accepts a packet and the queue has room for it, and the tasklet does not
    run before the store returns, the queue holds what it held followed by
    the bytes of the packet in the order written, no overflow is counted,
    the tasklet is scheduled, and the assembler (frame length, fill index,
    partial frame, events reported) is untouched. *)
Theorem inject_packet_queues_bytes
  (s : Mouse.vmouse) (tokens : list (option Z)) (bytes : list Z) :
  ring_wf Mouse.BUFFER_SIZE (Mouse.q (Mouse.vmouse_dev s)) ->
  count Mouse.BUFFER_SIZE (Mouse.q (Mouse.vmouse_dev s)) + 4 <= Mouse.BUFFER_SIZE - 1 ->
  Mouse.parse_bytes (Z.to_nat (Mouse.current_packet_size (Mouse.vmouse_dev s))) tokens
    = Some bytes ->
  length bytes = 3%nat \/ length bytes = 4%nat ->
  let dev := Mouse.vmouse_dev s in
  let dev' := Mouse.vmouse_dev (snd (Mouse.inject_packet_store [] s tokens)) in
  fst (Mouse.inject_packet_store [] s tokens) = Stored /\
  contents Mouse.BUFFER_SIZE (Mouse.q dev')
    = contents Mouse.BUFFER_SIZE (Mouse.q dev) ++ map C.uchar bytes /\
  buffer_overflows (Mouse.q dev') = buffer_overflows (Mouse.q dev) /\
  Mouse.tasklet dev' = true /\
  Mouse.current_packet_size dev' = Mouse.current_packet_size dev /\
  Mouse.packet_idx dev' = Mouse.packet_idx dev /\
  Mouse.packet dev' = Mouse.packet dev /\
  Mouse.input dev' = Mouse.input dev.
Proof.
  intros Hwf Hroom Hparse Hlen. cbv zeta.
  unfold Mouse.inject_packet_store. rewrite Hparse.
  assert (Hn : negb (Z.of_nat (length bytes) =? 3) && negb (Z.of_nat (length bytes) =? 4)
               = false).
  { destruct Hlen as [-> | ->]; reflexivity. }
  rewrite Hn.
  assert (Hne : bytes <> []) by (destruct bytes; [destruct Hlen; discriminate | discriminate]).
  assert (Hpush : forall r, ring_wf Mouse.BUFFER_SIZE r ->
            count Mouse.BUFFER_SIZE r + 4 <= Mouse.BUFFER_SIZE - 1 ->
            contents Mouse.BUFFER_SIZE (pushes Mouse.BUFFER_SIZE r (map C.uchar bytes))
              = contents Mouse.BUFFER_SIZE r ++ map C.uchar bytes /\
            buffer_overflows (pushes Mouse.BUFFER_SIZE r (map C.uchar bytes))
              = buffer_overflows r).
  { intros r Hr Hc.
    destruct (pushes_contents _ mouse_buffer_size (map C.uchar bytes) r Hr) as (_ & H1 & H2).
    - rewrite length_map. destruct Hlen as [-> | ->]; lia.
    - auto. }
  destruct ((Z.of_nat (length bytes) =? 3) && _); cbn [fst snd Mouse.vmouse_dev Mouse.set_dev].
  - set (dev0 := Mouse.set_current_packet_size Mouse.PACKET_SIZE_STANDARD (Mouse.vmouse_dev s)).
    destruct (inject_bytes_deferred (Mouse.dpi_multiplier s) bytes dev0) as (H1 & H2 & H3 & H4).
    destruct (inject_bytes_deferred_queue (Mouse.dpi_multiplier s) bytes dev0) as (Hq & Ht).
    cbn [Mouse.q Mouse.tasklet Mouse.current_packet_size Mouse.packet_idx Mouse.packet
         Mouse.input Mouse.set_current_packet_size].
    rewrite Hq, H1, H2, H4, (Ht Hne).
    destruct (Hpush (Mouse.q dev0) Hwf Hroom) as (Hc & Ho).
    splits; try reflexivity; assumption.
  - destruct (inject_bytes_deferred (Mouse.dpi_multiplier s) bytes (Mouse.vmouse_dev s))
      as (H1 & H2 & H3 & H4).
    destruct (inject_bytes_deferred_queue (Mouse.dpi_multiplier s) bytes (Mouse.vmouse_dev s))
      as (Hq & Ht).
    rewrite Hq, H1, H2, H3, H4, (Ht Hne).
    destruct (Hpush _ Hwf Hroom) as (Hc & Ho).
    splits; try reflexivity; assumption.
Qed.

Lemma inject_packet_queues_bytes_witness :
  let s := Mouse.vmouse_init 100 false in
  contents Mouse.BUFFER_SIZE
    (Mouse.q (Mouse.vmouse_dev
       (snd (Mouse.inject_packet_store [] s [Some 0x09; Some 0x0A; Some 0x05; None]))))
  = [] ++ map C.uchar [0x09; 0x0A; 0x05].
Proof.
  intros s.
  destruct (inject_packet_queues_bytes s [Some 0x09; Some 0x0A; Some 0x05; None]
              [0x09; 0x0A; 0x05]) as (_ & H & _).
  - vm_compute. repeat split; congruence.
  - vm_compute. discriminate.
  - reflexivity.
  - left. reflexivity.
  - exact H.
Defined.

(** ** Scan-code translator *)

Lemma land_127_range (x : Z) : 0 <= Z.land x 0x7F < 128.
Proof.
  change 0x7F with (Z.ones 7). rewrite Z.land_ones by lia.
  apply Z.mod_pos_bound. lia.
Qed.

Lemma set_combo_set_combo (a b : Z) (dev : Kbd.vkbd_device) :
  Kbd.set_combo_detections a (Kbd.set_combo_detections b dev)
  = Kbd.set_combo_detections a dev.
Proof. reflexivity. Qed.

Lemma check_combos_fires (dev : Kbd.vkbd_device) (keycode : Z) (pressed : bool) :
  Kbd.check_combos dev keycode pressed
  = Kbd.set_combo_detections
      (Mouse.bump (pressed && combo_fires (Kbd.ctrl_pressed dev) (Kbd.alt_pressed dev) keycode)
                  (Kbd.combo_detections dev))
      dev.
Proof.
  unfold Kbd.check_combos. destruct pressed; cbn [negb andb].
  - rewrite !combo_spec. destruct dev as [inp t r sh ct al cl nl sl kp kr un cd].
    cbn [Kbd.ctrl_pressed Kbd.alt_pressed Kbd.combo_detections Kbd.set_combo_detections
         Kbd.input Kbd.tasklet Kbd.q Kbd.shift_pressed Kbd.caps_lock Kbd.num_lock
         Kbd.scroll_lock Kbd.total_keypresses Kbd.total_keyreleases Kbd.unknown_scancodes].
    rewrite !set_combo_set_combo. f_equal. unfold combo_fires.
    destruct (Z.eqb_spec keycode Kbd.KEY_C) as [->|HC];
      [destruct ct, al; reflexivity|].
    destruct (Z.eqb_spec keycode Kbd.KEY_Z) as [->|HZ];
      [destruct ct, al; reflexivity|].
    destruct (Z.eqb_spec keycode Kbd.KEY_V) as [->|HV];
      [destruct ct, al; reflexivity|].
    destruct (Z.eqb_spec keycode Kbd.KEY_X) as [->|HX];
      [destruct ct, al; reflexivity|].
    destruct (Z.eqb_spec keycode Kbd.KEY_TAB) as [->|HT];
      [destruct ct, al; reflexivity|].
    destruct (Z.eqb_spec keycode Kbd.KEY_F4) as [->|HF];
      [destruct ct, al; reflexivity|].
    destruct (Z.eqb_spec keycode Kbd.KEY_DELETE) as [->|HD];
      destruct ct, al; reflexivity.
  - destruct dev; reflexivity.
Qed.

(** What one scan code with a table entry does to each field. *)
Lemma translate_mapped (dev : Kbd.vkbd_device) (scancode : Z) :
  scancode_key scancode <> 0 ->
  let key := scancode_key scancode in
  let release := scancode_release scancode in
  let on k := key =? k in
  let shift := if on Kbd.KEY_LEFTSHIFT || on Kbd.KEY_RIGHTSHIFT
               then negb release else Kbd.shift_pressed dev in
  let ctrl := if on Kbd.KEY_LEFTCTRL || on Kbd.KEY_RIGHTCTRL
              then negb release else Kbd.ctrl_pressed dev in
  let alt := if on Kbd.KEY_LEFTALT || on Kbd.KEY_RIGHTALT
             then negb release else Kbd.alt_pressed dev in
  Kbd.translate dev scancode =
    Kbd.mk_dev (Kbd.input dev ++ [report_key key (negb release); sync])
      (Kbd.tasklet dev) (Kbd.q dev) shift ctrl alt
      (xorb (Kbd.caps_lock dev) (negb release && on Kbd.KEY_CAPSLOCK))
      (xorb (Kbd.num_lock dev) (negb release && on Kbd.KEY_NUMLOCK))
      (xorb (Kbd.scroll_lock dev) (negb release && on Kbd.KEY_SCROLLLOCK))
      (Mouse.bump (negb release) (Kbd.total_keypresses dev))
      (Mouse.bump release (Kbd.total_keyreleases dev))
      (Kbd.unknown_scancodes dev)
      (Mouse.bump (negb release && combo_fires ctrl alt key) (Kbd.combo_detections dev)).
Proof.
  intros Hkey. cbv zeta. unfold Kbd.translate.
  pose proof (land_127_range scancode) as Hr.
  destruct (Z.leb_spec Kbd.ARRAY_SIZE_scancode_to_keycode (Z.land scancode 127));
    [unfold Kbd.ARRAY_SIZE_scancode_to_keycode in *; lia|].
  fold (scancode_key scancode). fold (scancode_release scancode).
  destruct (Z.eqb_spec (scancode_key scancode) 0) as [E|_]; [contradiction|].
  rewrite check_combos_fires.
  destruct dev as [inp t r sh ct al cl nl sl kp kr un cd].
  destruct (scancode_release scancode);
    destruct ((scancode_key scancode =? Kbd.KEY_LEFTSHIFT)
              || (scancode_key scancode =? Kbd.KEY_RIGHTSHIFT));
    destruct ((scancode_key scancode =? Kbd.KEY_LEFTCTRL)
              || (scancode_key scancode =? Kbd.KEY_RIGHTCTRL));
    destruct ((scancode_key scancode =? Kbd.KEY_LEFTALT)
              || (scancode_key scancode =? Kbd.KEY_RIGHTALT));
    destruct (scancode_key scancode =? Kbd.KEY_CAPSLOCK);
    destruct (scancode_key scancode =? Kbd.KEY_NUMLOCK);
    destruct (scancode_key scancode =? Kbd.KEY_SCROLLLOCK);
    cbn; rewrite ?xorb_false_r; try reflexivity;
    destruct cl, nl, sl; reflexivity.
Qed.

Lemma translate_unmapped (dev : Kbd.vkbd_device) (scancode : Z) :
  scancode_key scancode = 0 ->
  Kbd.translate dev scancode
  = Kbd.set_unknown_scancodes (C.ulong (Kbd.unknown_scancodes dev + 1)) dev.
Proof.
  intros Hkey. unfold Kbd.translate.
  destruct (_ <=? _); [reflexivity|].
  fold (scancode_key scancode). rewrite Hkey. reflexivity.
Qed.

Lemma translate_set_q (r : ring) (dev : Kbd.vkbd_device) (scancode : Z) :
  Kbd.translate (Kbd.set_q r dev) scancode = Kbd.set_q r (Kbd.translate dev scancode).
Proof.
  destruct (Z.eq_dec (scancode_key scancode) 0) as [E|E].
  - rewrite !translate_unmapped by assumption. reflexivity.
  - rewrite !translate_mapped by assumption. reflexivity.
Qed.

Lemma kbd_feed_all_set_q (r : ring) (scancodes : list Z) (dev : Kbd.vkbd_device) :
  Kbd.feed_all (Kbd.set_q r dev) scancodes = Kbd.set_q r (Kbd.feed_all dev scancodes).
Proof.
  revert dev. induction scancodes as [|sc scancodes IH]; intros dev; [reflexivity|].
  cbn [Kbd.feed_all fold_left]. rewrite translate_set_q. apply IH.
Qed.

Lemma kbd_set_q_set_q (r r1 : ring) (dev : Kbd.vkbd_device) :
  Kbd.set_q r (Kbd.set_q r1 dev) = Kbd.set_q r dev.
Proof. reflexivity. Qed.

Lemma kbd_tasklet_loop_spec (fuel : nat) (dev : Kbd.vkbd_device) :
  ring_wf Kbd.BUFFER_SIZE (Kbd.q dev) ->
  count Kbd.BUFFER_SIZE (Kbd.q dev) <= Z.of_nat fuel ->
  exists r,
    Kbd.tasklet_loop fuel dev
    = Kbd.set_q r (Kbd.feed_all dev (contents Kbd.BUFFER_SIZE (Kbd.q dev))) /\
    buffer_empty r = true /\
    buffer_overflows r = buffer_overflows (Kbd.q dev).
Proof.
  pose proof kbd_buffer_size as HN.
  revert dev. induction fuel as [|fuel IH]; intros dev Hwf Hc.
  - assert (Hz : count Kbd.BUFFER_SIZE (Kbd.q dev) = 0).
    { pose proof (count_range _ HN _ Hwf). lia. }
    assert (Hnil : contents Kbd.BUFFER_SIZE (Kbd.q dev) = []).
    { apply length_zero_iff_nil. pose proof (length_contents _ HN (Kbd.q dev)). lia. }
    exists (Kbd.q dev). rewrite Hnil. splits.
    + destruct dev; reflexivity.
    + apply (buffer_empty_count _ HN); assumption.
    + reflexivity.
  - cbn [Kbd.tasklet_loop]. rewrite kbd_pop_spec.
    destruct (buffer_empty (Kbd.q dev)) eqn:He.
    + rewrite (buffer_pop_empty Kbd.BUFFER_SIZE _ He). cbn [fst snd].
      assert (Hnil : contents Kbd.BUFFER_SIZE (Kbd.q dev) = []).
      { apply length_zero_iff_nil.
        pose proof (length_contents _ HN (Kbd.q dev)).
        pose proof (proj1 (buffer_empty_count _ HN _ Hwf) He). lia. }
      exists (Kbd.q dev). rewrite Hnil. auto.
    + destruct (buffer_pop_contents _ HN _ Hwf He) as (b & r1 & Hpop & Hcont & Ho).
      pose proof (buffer_pop_wf _ HN _ Hwf) as Hwf1.
      rewrite Hpop in Hwf1 |- *. cbn [fst snd] in Hwf1 |- *.
      rewrite translate_set_q.
      destruct (IH (Kbd.set_q r1 (Kbd.translate dev b))) as (r & Hloop & Hre & Hro).
      { exact Hwf1. }
      { cbn [Kbd.q Kbd.set_q].
        rewrite <- !(length_contents _ HN) in Hc |- *.
        rewrite Hcont in Hc. simpl in Hc. lia. }
      exists r. rewrite Hloop. cbn [Kbd.q Kbd.set_q].
      rewrite kbd_feed_all_set_q, Hcont. splits.
      * rewrite kbd_set_q_set_q. reflexivity.
      * exact Hre.
      * cbn [Kbd.q Kbd.set_q] in Hro. congruence.
Qed.

(** X14 (the keyboard tasklet translates the queue in order). One run of
    the keyboard tasklet handler on a well-formed queue translates every
    queued scan code, oldest first, and returns with the queue empty and
    the overflow count untouched: the 256 iterations the model allows
    always suffice. *)
Theorem kbd_tasklet_translates_in_order (dev : Kbd.vkbd_device) :
  ring_wf Kbd.BUFFER_SIZE (Kbd.q dev) ->
  let dev' := Kbd.vkbd_tasklet_handler dev in
  dev' = Kbd.set_q (Kbd.q dev')
           (Kbd.feed_all dev (contents Kbd.BUFFER_SIZE (Kbd.q dev))) /\
  Kbd.buffer_empty dev' = true /\
  buffer_overflows (Kbd.q dev') = buffer_overflows (Kbd.q dev).
Proof.
  intros Hwf dev'.
  destruct (kbd_tasklet_loop_spec (Z.to_nat Kbd.BUFFER_SIZE) dev Hwf)
    as (r & Hloop & He & Ho).
  { pose proof (count_range _ kbd_buffer_size _ Hwf).
    unfold Kbd.BUFFER_SIZE in *. lia. }
  subst dev'. unfold Kbd.vkbd_tasklet_handler, Kbd.buffer_empty.
  rewrite Hloop. cbn [Kbd.q Kbd.set_q]. splits; try assumption.
  destruct (Kbd.feed_all _ _); reflexivity.
Qed.

Lemma kbd_tasklet_translates_in_order_witness :
  let dev := Kbd.vkbd_dev
               (Kbd.run (Kbd.vkbd_init 250 33)
                  [Kbd.inject_scancode (Some 0x1D); Kbd.inject_scancode (Some 0x2E)]) in
  Kbd.input (Kbd.vkbd_tasklet_handler dev)
  = [report_key Kbd.KEY_LEFTCTRL true; sync; report_key Kbd.KEY_C true; sync].
Proof.
  intros dev.
  destruct (kbd_tasklet_translates_in_order dev) as (H & _).
  - vm_compute. repeat split; congruence.
  - rewrite H. vm_compute. reflexivity.
Defined.

Lemma unmapped_codes :
  forallb (fun n => Bool.eqb (rd Kbd.scancode_to_keycode (Z.of_nat n) =? 0)
                      (existsb (Z.eqb (Z.of_nat n))
                         [0x00; 0x54; 0x55; 0x59; 0x5A; 0x60; 0x61; 0x62; 0x64; 0x70]))
          (seq 0 128) = true.
Proof. vm_compute. reflexivity. Qed.

(** X15 (scan codes without a key). The ten scan codes 0x00, 0x54, 0x55,
    0x59, 0x5A, 0x60, 0x61, 0x62, 0x64 and 0x70, with or without the release
    bit, are the ones the table maps to no key. For these the translator
    adds one to [unknown_scancodes] and does nothing else: no event, no
    modifier or lock change, no press or release counted. The range check
    before the table lookup can never fail, the index being masked to 7
    bits. *)
Theorem unmapped_scancode_only_counted (dev : Kbd.vkbd_device) (scancode : Z) :
  (scancode_key scancode = 0 <->
   In (Z.land scancode 0x7F)
      [0x00; 0x54; 0x55; 0x59; 0x5A; 0x60; 0x61; 0x62; 0x64; 0x70]) /\
  (scancode_key scancode = 0 ->
   Kbd.translate dev scancode
   = Kbd.set_unknown_scancodes (C.ulong (Kbd.unknown_scancodes dev + 1)) dev) /\
  (Kbd.ARRAY_SIZE_scancode_to_keycode <=? Z.land scancode 0x7F) = false.
Proof.
  pose proof (land_127_range scancode) as Hr. splits.
  - pose proof unmapped_codes as H. rewrite forallb_forall in H.
    specialize (H (Z.to_nat (Z.land scancode 0x7F))).
    rewrite Z2Nat.id in H by lia.
    assert (Hin : In (Z.to_nat (Z.land scancode 127)) (seq 0 128)).
    { apply in_seq. lia. }
    specialize (H Hin). apply eqb_prop in H.
    unfold scancode_key. rewrite <- Z.eqb_eq, H, existsb_exists.
    split.
    + intros (x & Hx & E). apply Z.eqb_eq in E. subst. exact Hx.
    + intros Hx. exists (Z.land scancode 127). split; [exact Hx | apply Z.eqb_refl].
  - apply translate_unmapped.
  - apply Z.leb_gt. unfold Kbd.ARRAY_SIZE_scancode_to_keycode. lia.
Qed.

Lemma unmapped_scancode_only_counted_witness :
  let dev := Kbd.vkbd_dev (Kbd.vkbd_init 250 33) in
  Kbd.translate dev 0xD4 = Kbd.set_unknown_scancodes 1 dev.
Proof.
  intros dev.
  destruct (unmapped_scancode_only_counted dev 0xD4) as (_ & H & _).
  rewrite H; [reflexivity | vm_compute; reflexivity].
Defined.

Lemma translate_counted (dev : Kbd.vkbd_device) (scancode : Z) :
  let dev' := Kbd.translate dev scancode in
  C.ulong (Kbd.total_keypresses dev' + Kbd.total_keyreleases dev'
           + Kbd.unknown_scancodes dev')
  = C.ulong (Kbd.total_keypresses dev + Kbd.total_keyreleases dev
             + Kbd.unknown_scancodes dev + 1) /\
  Kbd.input dev'
  = Kbd.input dev
    ++ (if scancode_key scancode =? 0 then []
        else [report_key (scancode_key scancode) (negb (scancode_release scancode)); sync]).
Proof.
  cbv zeta. destruct (Z.eqb_spec (scancode_key scancode) 0) as [E|E].
  - rewrite translate_unmapped by assumption. cbn. rewrite app_nil_r.
    split; [|reflexivity]. rewrite ulong_add_ulong_r. f_equal. lia.
  - rewrite translate_mapped by assumption. cbn. split; [|reflexivity].
    destruct (scancode_release scancode); cbn.
    + rewrite <- Z.add_assoc, (Z.add_comm (C.ulong _)), Z.add_assoc.
      rewrite ulong_add_ulong_r. f_equal. lia.
    + rewrite <- !Z.add_assoc. rewrite ulong_add_ulong_l. f_equal. lia.
Qed.

(** X16 (every scan code is accounted for, every key reported in order).
    After any run of scan codes, the press, release and unknown counters
    together have advanced by exactly the number of scan codes (in
    [unsigned long] arithmetic), and the events reported are, in the order
    of the scan codes and for those with a table entry only, the key with
    its press or release value followed by a sync. *)
Theorem scancodes_accounted (scancodes : list Z) (dev : Kbd.vkbd_device) :
  let dev' := Kbd.feed_all dev scancodes in
  C.ulong (Kbd.total_keypresses dev' + Kbd.total_keyreleases dev'
           + Kbd.unknown_scancodes dev')
  = C.ulong (Kbd.total_keypresses dev + Kbd.total_keyreleases dev
             + Kbd.unknown_scancodes dev + Z.of_nat (length scancodes)) /\
  Kbd.input dev'
  = Kbd.input dev
    ++ flat_map (fun sc => [report_key (scancode_key sc) (negb (scancode_release sc)); sync])
                (mapped scancodes).
Proof.
  revert dev. induction scancodes as [|sc scancodes IH]; intros dev; cbv zeta.
  - cbn. rewrite Z.add_0_r, app_nil_r. auto.
  - change (Kbd.feed_all dev (sc :: scancodes))
      with (Kbd.feed_all (Kbd.translate dev sc) scancodes).
    destruct (IH (Kbd.translate dev sc)) as (Hc & Hi).
    destruct (translate_counted dev sc) as (Hc1 & Hi1).
    split.
    + rewrite Hc. rewrite (ulong_add_congr _ _ _ Hc1). f_equal.
      cbn [length]. lia.
    + rewrite Hi, Hi1, <- app_assoc. f_equal. unfold mapped. cbn [List.filter].
      destruct (scancode_key sc =? 0); reflexivity.
Qed.

(** X17 (modifier flags follow the last transition of either key). After
    any scan code, each modifier flag is set if the code is a press of the
    left or right key of that modifier, cleared if it is a release of
    either, and unchanged otherwise. Left and right share the flag: with
    both shift keys held, releasing one clears [shift_pressed]. *)
Theorem modifier_flags (dev : Kbd.vkbd_device) (scancode : Z) :
  let key := scancode_key scancode in
  let press := negb (scancode_release scancode) in
  let dev' := Kbd.translate dev scancode in
  Kbd.shift_pressed dev'
    = (if (key =? Kbd.KEY_LEFTSHIFT) || (key =? Kbd.KEY_RIGHTSHIFT)
       then press else Kbd.shift_pressed dev) /\
  Kbd.ctrl_pressed dev'
    = (if (key =? Kbd.KEY_LEFTCTRL) || (key =? Kbd.KEY_RIGHTCTRL)
       then press else Kbd.ctrl_pressed dev) /\
  Kbd.alt_pressed dev'
    = (if (key =? Kbd.KEY_LEFTALT) || (key =? Kbd.KEY_RIGHTALT)
       then press else Kbd.alt_pressed dev) /\
  Kbd.shift_pressed (Kbd.feed_all dev [0x2A; 0x36; 0xB6]) = false.
Proof.
  cbv zeta. splits.
  1-3: destruct (Z.eq_dec (scancode_key scancode) 0) as [E|E];
    [rewrite translate_unmapped by assumption; rewrite E; reflexivity
    |rewrite translate_mapped by assumption; reflexivity].
  cbn [Kbd.feed_all fold_left].
  rewrite (translate_mapped _ 0xB6) by (vm_compute; discriminate).
  reflexivity.
Qed.

Lemma translate_lock (dev : Kbd.vkbd_device) (scancode : Z) :
  let on key := negb (scancode_release scancode) && (scancode_key scancode =? key) in
  Kbd.caps_lock (Kbd.translate dev scancode)
    = xorb (Kbd.caps_lock dev) (on Kbd.KEY_CAPSLOCK) /\
  Kbd.num_lock (Kbd.translate dev scancode)
    = xorb (Kbd.num_lock dev) (on Kbd.KEY_NUMLOCK) /\
  Kbd.scroll_lock (Kbd.translate dev scancode)
    = xorb (Kbd.scroll_lock dev) (on Kbd.KEY_SCROLLLOCK).
Proof.
  cbv zeta. destruct (Z.eq_dec (scancode_key scancode) 0) as [E|E].
  - rewrite translate_unmapped by assumption. rewrite E. cbn.
    rewrite !andb_false_r, !xorb_false_r. auto.
  - rewrite translate_mapped by assumption. cbn. auto.
Qed.

(** X18 (lock flags count presses). After any run of scan codes, each of
    the caps, num and scroll lock flags has flipped once per press of its
    key and is untouched by releases and by every other key: it differs
    from its starting value exactly when its key was pressed an odd number
    of times. *)
Theorem lock_flags_parity (scancodes : list Z) (dev : Kbd.vkbd_device) :
  let dev' := Kbd.feed_all dev scancodes in
  Kbd.caps_lock dev'
    = xorb (Kbd.caps_lock dev) (Nat.odd (presses_of Kbd.KEY_CAPSLOCK scancodes)) /\
  Kbd.num_lock dev'
    = xorb (Kbd.num_lock dev) (Nat.odd (presses_of Kbd.KEY_NUMLOCK scancodes)) /\
  Kbd.scroll_lock dev'
    = xorb (Kbd.scroll_lock dev) (Nat.odd (presses_of Kbd.KEY_SCROLLLOCK scancodes)).
Proof.
  revert dev. induction scancodes as [|sc scancodes IH]; intros dev; cbv zeta.
  - cbn. rewrite !xorb_false_r. auto.
  - change (Kbd.feed_all dev (sc :: scancodes))
      with (Kbd.feed_all (Kbd.translate dev sc) scancodes).
    destruct (IH (Kbd.translate dev sc)) as (Hc & Hn & Hs).
    destruct (translate_lock dev sc) as (Tc & Tn & Ts).
    rewrite Hc, Hn, Hs, Tc, Tn, Ts. unfold presses_of. cbn [List.filter].
    splits;
      match goal with
      | |- context [negb (scancode_release ?x) && ?c] =>
          destruct (negb (scancode_release x) && c)
      end; cbn [length];
      rewrite ?Nat.odd_succ, <- ?Nat.negb_odd, ?xorb_false_r;
      try reflexivity;
      match goal with
      | |- xorb (xorb ?a true) ?b = xorb ?a (negb ?b) => destruct a, b; reflexivity
      end.
Qed.

Lemma combo_fires_update (c a p : bool) (key : Z) :
  combo_fires (if (key =? Kbd.KEY_LEFTCTRL) || (key =? Kbd.KEY_RIGHTCTRL) then p else c)
              (if (key =? Kbd.KEY_LEFTALT) || (key =? Kbd.KEY_RIGHTALT) then p else a)
              key
  = combo_fires c a key.
Proof.
  destruct (Z.eqb_spec key Kbd.KEY_LEFTCTRL) as [->|H1]; [destruct p, c, a; reflexivity|].
  destruct (Z.eqb_spec key Kbd.KEY_RIGHTCTRL) as [->|H2]; [destruct p, c, a; reflexivity|].
  destruct (Z.eqb_spec key Kbd.KEY_LEFTALT) as [->|H3]; [destruct p, c, a; reflexivity|].
  destruct (Z.eqb_spec key Kbd.KEY_RIGHTALT) as [->|H4]; [destruct p, c, a; reflexivity|].
  reflexivity.
Qed.

(** X19 (when a combo is detected). A scan code adds to
    [combo_detections] exactly when it is a press and, with the modifiers
    as they were held before it, ctrl is held and the key is C, Z, V or X,
    or alt is held and the key is Tab or F4, or both are held and the key
    is Delete. It then adds exactly one: no key is in two combos, so one
    key press never counts twice, and a release or an unmapped code never
    counts. *)
Theorem combo_detection (dev : Kbd.vkbd_device) (scancode : Z) :
  Kbd.combo_detections (Kbd.translate dev scancode)
  = if negb (scancode_release scancode)
       && combo_fires (Kbd.ctrl_pressed dev) (Kbd.alt_pressed dev)
                      (scancode_key scancode)
    then C.ulong (Kbd.combo_detections dev + 1)
    else Kbd.combo_detections dev.
Proof.
  change (Kbd.combo_detections (Kbd.translate dev scancode)
          = Mouse.bump (negb (scancode_release scancode)
                        && combo_fires (Kbd.ctrl_pressed dev) (Kbd.alt_pressed dev)
                                       (scancode_key scancode))
                       (Kbd.combo_detections dev)).
  destruct (Z.eq_dec (scancode_key scancode) 0) as [E|E].
  - rewrite translate_unmapped by assumption. rewrite E.
    replace (combo_fires (Kbd.ctrl_pressed dev) (Kbd.alt_pressed dev) 0) with false
      by (destruct (Kbd.ctrl_pressed dev), (Kbd.alt_pressed dev); reflexivity).
    rewrite andb_false_r. reflexivity.
  - rewrite translate_mapped by assumption. cbn [Kbd.combo_detections].
    rewrite combo_fires_update. reflexivity.
Qed.

(** ** Touchpad driver *)

(** X20 (what the touchpad stores accept). A touch is accepted exactly
    when three numbers were read with [x] and [y] in [0..4096] and the
    pressure in [0..255], both ends included; a tap exactly when two
    numbers were read with [x] and [y] in [0..4096]. A two-finger tap and a
    scroll are accepted whenever their numbers were read, whatever their
    values: their coordinates are not checked against the range. A rejected
    write leaves the device as it was. *)
Theorem touchpad_acceptance (dev : Touchpad.vtp_device) :
  (forall args,
     fst (Touchpad.inject_touch_store dev args) = Stored <->
     exists x y p, args = Some (x, y, p) /\
                   0 <= x <= 4096 /\ 0 <= y <= 4096 /\ 0 <= p <= 255) /\
  (forall args,
     fst (Touchpad.inject_tap_store dev args) = Stored <->
     exists x y, args = Some (x, y) /\ 0 <= x <= 4096 /\ 0 <= y <= 4096) /\
  (forall args,
     fst (Touchpad.inject_two_finger_tap_store dev args) = Stored <-> args <> None) /\
  (forall args,
     fst (Touchpad.inject_scroll_store dev args) = Stored <-> args <> None) /\
  (forall o,
     fst (Touchpad.store dev o) = Rejected -> snd (Touchpad.store dev o) = dev).
Proof.
  splits.
  - intros [[[x y] p]|]; cbn.
    + unfold Touchpad.TP_MAX_X, Touchpad.TP_MAX_Y, Touchpad.TP_MAX_PRESSURE.
      destruct (Z.ltb_spec x 0), (Z.ltb_spec 4096 x), (Z.ltb_spec y 0),
        (Z.ltb_spec 4096 y), (Z.ltb_spec p 0), (Z.ltb_spec 255 p); cbn;
        try (split; [discriminate | intros (? & ? & ? & [= <- <- <-] & ? & ? & ?); lia]).
      destruct (0 <? p); cbn; (split; [intros _|reflexivity]);
        exists x, y, p; (split; [reflexivity | lia]).
    + split; [discriminate | intros (? & ? & ? & [=] & _)].
  - intros [[x y]|]; cbn.
    + unfold Touchpad.TP_MAX_X, Touchpad.TP_MAX_Y.
      destruct (Z.ltb_spec x 0), (Z.ltb_spec 4096 x), (Z.ltb_spec y 0),
        (Z.ltb_spec 4096 y); cbn;
        try (split; [discriminate | intros (? & ? & [= <- <-] & ? & ?); lia]).
      split; [intros _|reflexivity]. exists x, y. split; [reflexivity | lia].
    + split; [discriminate | intros (? & ? & [=] & _)].
  - intros [[[[x1 y1] x2] y2]|]; cbn; split; congruence.
  - intros [[dx dy]|]; cbn; split; congruence.
  - intros [args|args|args|args]; cbn.
    + destruct args as [[[x y] p]|]; cbn; [|reflexivity].
      destruct (_ || _); [reflexivity|]. destruct (0 <? p); discriminate.
    + destruct args as [[x y]|]; cbn; [|reflexivity].
      destruct (_ || _); [reflexivity | discriminate].
    + destruct args as [[[[x1 y1] x2] y2]|]; cbn; [discriminate | reflexivity].
    + destruct args as [[dx dy]|]; cbn; [discriminate | reflexivity].
Qed.

Lemma touchpad_acceptance_witness :
  fst (Touchpad.inject_touch_store Touchpad.vtp_init (Some (4096, 0, 255))) = Stored /\
  snd (Touchpad.store Touchpad.vtp_init (Touchpad.inject_tap (Some (4097, 0))))
  = Touchpad.vtp_init.
Proof.
  destruct (touchpad_acceptance Touchpad.vtp_init) as (Ht & _ & _ & _ & Hr). split.
  - apply Ht. exists 4096, 0, 255. split; [reflexivity | lia].
  - apply Hr. vm_compute. reflexivity.
Defined.

Lemma slot_active_app (slot : Z) (calls more : list Touchpad.call) :
  Touchpad.slot_active slot (calls ++ more)
  = snd (fold_left
           (fun (st : Z * bool) (c : Touchpad.call) =>
              match c with
              | Touchpad.tp_slot s => (s, snd st)
              | Touchpad.tp_slot_state _ active =>
                  if fst st =? slot then (fst st, active) else st
              | _ => st
              end)
           more
           (fold_left
              (fun (st : Z * bool) (c : Touchpad.call) =>
                 match c with
                 | Touchpad.tp_slot s => (s, snd st)
                 | Touchpad.tp_slot_state _ active =>
                     if fst st =? slot then (fst st, active) else st
                 | _ => st
                 end)
              calls (0, false))).
Proof. unfold Touchpad.slot_active. rewrite fold_left_app. reflexivity. Qed.

Lemma key_value_app (code : Z) (calls more : list Touchpad.call) :
  Touchpad.key_value code (calls ++ more)
  = fold_left
      (fun (v : Z) (c : Touchpad.call) =>
         match c with
         | Touchpad.tp_key k value => if k =? code then value else v
         | _ => v
         end)
      more (Touchpad.key_value code calls).
Proof. unfold Touchpad.key_value. rewrite fold_left_app. reflexivity. Qed.

(** X21 (what a store leaves held). Whatever was reported before: after a
    touch with positive pressure the contact of slot 0 is active and
    [BTN_TOUCH] is down, after a touch with pressure 0 the contact is gone
    and [BTN_TOUCH] is up; a tap ends with the contact of slot 0 gone and
    [BTN_TOUCH] and [BTN_LEFT] up; a two-finger tap ends with the contacts
    of slots 0 and 1 gone and [BTN_TOUCH] and [BTN_RIGHT] up. A tap never
    leaves a finger or a button stuck. *)
Theorem touchpad_contact_state
  (dev : Touchpad.vtp_device) (x y p x1 y1 x2 y2 : Z) :
  0 <= x <= 4096 -> 0 <= y <= 4096 -> 0 <= p <= 255 ->
  let touch := Touchpad.input (snd (Touchpad.inject_touch_store dev (Some (x, y, p)))) in
  let tap := Touchpad.input (snd (Touchpad.inject_tap_store dev (Some (x, y)))) in
  let tap2 := Touchpad.input
                (snd (Touchpad.inject_two_finger_tap_store dev (Some (x1, y1, x2, y2)))) in
  (Touchpad.slot_active 0 touch = (0 <? p) /\
   Touchpad.key_value Touchpad.BTN_TOUCH touch = (if 0 <? p then 1 else 0)) /\
  (Touchpad.slot_active 0 tap = false /\
   Touchpad.key_value Touchpad.BTN_TOUCH tap = 0 /\
   Touchpad.key_value Touchpad.BTN_LEFT tap = 0) /\
  (Touchpad.slot_active 0 tap2 = false /\
   Touchpad.slot_active 1 tap2 = false /\
   Touchpad.key_value Touchpad.BTN_TOUCH tap2 = 0 /\
   Touchpad.key_value Touchpad.BTN_RIGHT tap2 = 0).
Proof.
  intros Hx Hy Hp. cbv zeta.
  unfold Touchpad.inject_touch_store, Touchpad.inject_tap_store,
    Touchpad.inject_two_finger_tap_store,
    Touchpad.TP_MAX_X, Touchpad.TP_MAX_Y, Touchpad.TP_MAX_PRESSURE.
  destruct (Z.ltb_spec x 0), (Z.ltb_spec 4096 x), (Z.ltb_spec y 0),
    (Z.ltb_spec 4096 y), (Z.ltb_spec p 0), (Z.ltb_spec 255 p); try lia.
  cbn [orb]. destruct (0 <? p); cbn [snd Touchpad.input];
    rewrite !slot_active_app, !key_value_app; cbn; auto 10.
Qed.

Lemma touchpad_contact_state_witness :
  let dev := snd (Touchpad.inject_touch_store Touchpad.vtp_init (Some (100, 200, 50))) in
  Touchpad.slot_active 0 (Touchpad.input dev) = true /\
  Touchpad.slot_active 0
    (Touchpad.input (snd (Touchpad.inject_tap_store dev (Some (4096, 0))))) = false.
Proof.
  intros dev. split; [reflexivity|].
  destruct (touchpad_contact_state dev 4096 0 0 0 0 0 0) as (_ & (H & _) & _); try lia.
  exact H.
Defined.

Lemma touchpad_store_counts (dev : Touchpad.vtp_device) (o : Touchpad.op) :
  let total d := Touchpad.total_touches d + Touchpad.total_taps d
                 + Touchpad.total_two_finger_taps d + Touchpad.total_scrolls d
                 + Touchpad.total_moves d in
  C.ulong (total (snd (Touchpad.store dev o)))
  = C.ulong (total dev
             + match fst (Touchpad.store dev o) with Stored => 1 | Rejected => 0 end).
Proof.
  cbv zeta.
  assert (Hrej : forall a, C.ulong a = C.ulong (a + 0)) by (intros; f_equal; lia).
  assert (Hidem : forall a, C.ulong (C.ulong a) = C.ulong a)
    by (intros; unfold C.ulong, C.uint; apply Z.mod_mod; lia).
  destruct dev as [i t tp tf s m].
  destruct o as [[[[x y] p]|]|[[x y]|]|[[[[x1 y1] x2] y2]|]|[[dx dy]|]]; cbn;
    try apply Hrej.
  - destruct (_ || _); cbn; [apply Hrej|].
    destruct (0 <? p); cbn.
    + replace (t + tp + tf + s + m + 1) with (t + tp + tf + s + (m + 1)) by lia.
      apply ulong_sum5; auto.
    + replace (t + tp + tf + s + m + 1) with ((t + 1) + tp + tf + s + m) by lia.
      apply ulong_sum5; auto.
  - destruct (_ || _); cbn; [apply Hrej|].
    replace (t + tp + tf + s + m + 1) with (t + (tp + 1) + tf + s + m) by lia.
    apply ulong_sum5; auto.
  - replace (t + tp + tf + s + m + 1) with (t + tp + (tf + 1) + s + m) by lia.
    apply ulong_sum5; auto.
  - replace (t + tp + tf + s + m + 1) with (t + tp + tf + (s + 1) + m) by lia.
    apply ulong_sum5; auto.
Qed.

(** X22 (touchpad statistics count the accepted writes). After any run of
    writes to the four touchpad attributes, the five counters together have
    advanced by exactly the number of writes that were accepted (in
    [unsigned long] arithmetic): each accepted write is counted once, in one
    counter, a rejected one nowhere; a scroll of (0, 0) is counted too. *)
Theorem touchpad_counts_accepted (ops : list Touchpad.op) (dev : Touchpad.vtp_device) :
  let total d := Touchpad.total_touches d + Touchpad.total_taps d
                 + Touchpad.total_two_finger_taps d + Touchpad.total_scrolls d
                 + Touchpad.total_moves d in
  C.ulong (total (Touchpad.run dev ops))
  = C.ulong (total dev + Touchpad.accepted dev ops).
Proof.
  cbv zeta. revert dev. induction ops as [|o ops IH]; intros dev.
  - cbn. f_equal. lia.
  - change (Touchpad.run dev (o :: ops))
      with (Touchpad.run (snd (Touchpad.store dev o)) ops).
    rewrite IH. cbn [Touchpad.accepted].
    rewrite (ulong_add_congr _ _ _ (touchpad_store_counts dev o)).
    f_equal. lia.
Qed.

(** ** The event logger and the drivers *)

Lemma table_keycodes_below_buttons (scancode : Z) :
  0 <= scancode_key scancode < Logger.BTN_MOUSE.
Proof.
  assert (Hall : forallb (fun n => (0 <=? rd Kbd.scancode_to_keycode (Z.of_nat n))
                                   && (rd Kbd.scancode_to_keycode (Z.of_nat n)
                                       <? Logger.BTN_MOUSE))
                         (seq 0 128) = true) by (vm_compute; reflexivity).
  rewrite forallb_forall in Hall.
  pose proof (land_127_range scancode) as Hr.
  specialize (Hall (Z.to_nat (Z.land scancode 0x7F))).
  rewrite Z2Nat.id in Hall by lia.
  unfold scancode_key.
  assert (Hin : In (Z.to_nat (Z.land scancode 0x7F)) (seq 0 128)).
  { apply in_seq. lia. }
  apply Hall in Hin. apply andb_prop in Hin. destruct Hin as [H0 H1].
  apply Z.leb_le in H0. apply Z.ltb_lt in H1. lia.
Qed.

(** What the logger makes of a report of the keyboard driver. *)
Lemma keyboard_report_filtered (scancode : Z) (value : bool) :
  let ev := Logger.event_of (report_key (scancode_key scancode) value) in
  Logger.written "keyboard" ev = true /\
  Logger.written "mouse" ev = false /\
  Logger.written "touchpad" ev = false.
Proof.
  pose proof (table_keycodes_below_buttons scancode) as Hk.
  unfold Logger.BTN_MOUSE in Hk.
  set (key := scancode_key scancode) in *. clearbody key.
  unfold Logger.written, Logger.should_log. cbn.
  unfold Logger.BTN_MOUSE, Logger.BTN_JOYSTICK, Logger.BTN_TOUCH, Logger.BTN_LEFT,
    Logger.BTN_RIGHT.
  destruct (Z.ltb_spec key 272), (Z.leb_spec 272 key), (Z.eqb_spec key 330),
    (Z.eqb_spec key 272), (Z.eqb_spec key 273); try lia.
  cbn. auto.
Qed.

Lemma sync_filtered (filter : string) :
  Logger.should_log filter (Logger.event_of sync) = true /\
  Logger.written filter (Logger.event_of sync) = false.
Proof.
  unfold Logger.written, Logger.should_log. cbn.
  repeat match goal with |- context [String.eqb ?a ?b] => destruct (String.eqb a b) end;
    auto.
Qed.

Lemma kbd_translate_reports (P : input_event -> Prop) (dev : Kbd.vkbd_device)
  (scancode : Z) :
  (forall value, P (report_key (scancode_key scancode) value)) -> P sync ->
  Forall P (Kbd.input dev) -> Forall P (Kbd.input (Kbd.translate dev scancode)).
Proof.
  intros Hkey Hsync Hin.
  destruct (Z.eq_dec (scancode_key scancode) 0) as [E|E].
  - rewrite translate_unmapped by assumption. exact Hin.
  - rewrite translate_mapped by assumption. cbn [Kbd.input].
    apply Forall_app. split; [exact Hin|]. repeat constructor; auto.
Qed.

Lemma kbd_tasklet_loop_reports (P : input_event -> Prop) (fuel : nat)
  (dev : Kbd.vkbd_device) :
  (forall scancode value, P (report_key (scancode_key scancode) value)) -> P sync ->
  Forall P (Kbd.input dev) -> Forall P (Kbd.input (Kbd.tasklet_loop fuel dev)).
Proof.
  intros Hkey Hsync. revert dev. induction fuel as [|fuel IH]; intros dev Hin.
  - exact Hin.
  - cbn [Kbd.tasklet_loop]. rewrite kbd_pop_spec.
    destruct (fst (buffer_pop Kbd.BUFFER_SIZE (Kbd.q dev))) as [scancode|].
    + apply IH. apply kbd_translate_reports; auto.
    + exact Hin.
Qed.

Lemma kbd_step_reports (P : input_event -> Prop) (s : Kbd.vkbd) (o : Kbd.op) :
  (forall scancode value, P (report_key (scancode_key scancode) value)) -> P sync ->
  Forall P (Kbd.input (Kbd.vkbd_dev s)) ->
  Forall P (Kbd.input (Kbd.vkbd_dev (Kbd.step s o))).
Proof.
  intros Hkey Hsync Hin.
  destruct o as [[v|]|[v|]|[v|]|[v|]|[v|]|[v|]|]; cbn; try exact Hin.
  - destruct (0xFF <? v); [exact Hin|].
    exact Hin.
  - destruct (_ || _); exact Hin.
  - destruct (_ || _); exact Hin.
  - unfold Kbd.run_tasklet. destruct (Kbd.tasklet (Kbd.vkbd_dev s)); [|exact Hin].
    apply kbd_tasklet_loop_reports; auto.
Qed.

(** X23 (the keyboard filter fits the keyboard driver). Whatever is written
    to the attributes of the keyboard driver and whenever its tasklet runs,
    every event it has reported passes the logger's [keyboard] filter, and
    none of them would be written by a logger run with the [mouse] or the
    [touchpad] filter: every key code of the scan-code table is below
    [BTN_MOUSE]. *)
Theorem keyboard_reports_match_filter (delay rate : Z) (ops : list Kbd.op) :
  Forall (Logger.passes_only "keyboard" ["mouse"; "touchpad"])
         (Kbd.input (Kbd.vkbd_dev (Kbd.run (Kbd.vkbd_init delay rate) ops))).
Proof.
  assert (Hkey : forall scancode value,
             Logger.passes_only "keyboard" ["mouse"; "touchpad"]
               (report_key (scancode_key scancode) value)).
  { intros scancode value.
    destruct (keyboard_report_filtered scancode value) as (Hk & Hm & Ht).
    split.
    - unfold Logger.written in Hk. apply andb_prop in Hk. tauto.
    - repeat constructor; assumption. }
  assert (Hsync : Logger.passes_only "keyboard" ["mouse"; "touchpad"] sync).
  { split; [apply sync_filtered|]. repeat constructor; apply sync_filtered. }
  unfold Kbd.run.
  assert (Hgen : forall s, Forall (Logger.passes_only "keyboard" ["mouse"; "touchpad"])
                             (Kbd.input (Kbd.vkbd_dev s)) ->
                 Forall (Logger.passes_only "keyboard" ["mouse"; "touchpad"])
                   (Kbd.input (Kbd.vkbd_dev (fold_left Kbd.step ops s)))).
  { induction ops as [|o ops IH]; intros s Hs; [exact Hs|].
    cbn [fold_left]. apply IH. apply kbd_step_reports; assumption. }
  apply Hgen. constructor.
Qed.

Lemma mouse_report_filtered (m : Mouse.MotionState) :
  Forall (Logger.passes_only "mouse" ["keyboard"]) (Mouse.report m).
Proof.
  assert (Hsync : Logger.passes_only "mouse" ["keyboard"] sync).
  { split; [apply sync_filtered|]. repeat constructor; apply sync_filtered. }
  assert (Hrel : forall code value,
             Logger.passes_only "mouse" ["keyboard"] (report_rel code value)).
  { intros code value. split; [reflexivity|]. repeat constructor. }
  unfold Mouse.report.
  repeat (apply Forall_app; split);
    repeat match goal with
      | |- Forall _ (if ?c then _ else _) => destruct c
      | |- Forall _ [] => constructor
      | |- Forall _ (_ :: _) => constructor
      end; auto;
    (split; [reflexivity | repeat constructor]).
Qed.

Lemma mouse_feed_reports (P : input_event -> Prop) (dpi : Z)
  (dev : Mouse.vmouse_device) (byte : Z) :
  (forall m, Forall P (Mouse.report m)) ->
  Forall P (Mouse.input dev) -> Forall P (Mouse.input (Mouse.feed dpi dev byte)).
Proof.
  intros Hrep Hin. unfold Mouse.feed. cbv zeta.
  destruct (_ <=? _); [|exact Hin].
  unfold Mouse.process_packet. destruct (Mouse.decode _ _) as [m|]; [|exact Hin].
  cbn. apply Forall_app. split; [exact Hin | apply Hrep].
Qed.

Lemma mouse_tasklet_loop_reports (P : input_event -> Prop) (dpi : Z) (fuel : nat)
  (dev : Mouse.vmouse_device) :
  (forall m, Forall P (Mouse.report m)) ->
  Forall P (Mouse.input dev) -> Forall P (Mouse.input (Mouse.tasklet_loop fuel dpi dev)).
Proof.
  intros Hrep. revert dev. induction fuel as [|fuel IH]; intros dev Hin.
  - exact Hin.
  - cbn [Mouse.tasklet_loop]. rewrite mouse_pop_spec.
    destruct (fst (buffer_pop Mouse.BUFFER_SIZE (Mouse.q dev))) as [byte|].
    + apply IH. apply mouse_feed_reports; auto.
    + exact Hin.
Qed.

Lemma mouse_run_tasklet_reports (P : input_event -> Prop) (dpi : Z)
  (dev : Mouse.vmouse_device) :
  (forall m, Forall P (Mouse.report m)) ->
  Forall P (Mouse.input dev) -> Forall P (Mouse.input (Mouse.run_tasklet dpi dev)).
Proof.
  intros Hrep Hin. unfold Mouse.run_tasklet.
  destruct (Mouse.tasklet dev); [|exact Hin].
  apply mouse_tasklet_loop_reports; auto.
Qed.

Lemma mouse_inject_bytes_reports (P : input_event -> Prop) (dpi : Z) (bytes : list Z)
  (sched : list bool) (dev : Mouse.vmouse_device) :
  (forall m, Forall P (Mouse.report m)) ->
  Forall P (Mouse.input dev) ->
  Forall P (Mouse.input (Mouse.inject_bytes sched dpi dev bytes)).
Proof.
  intros Hrep. revert sched dev.
  induction bytes as [|b bytes IH]; intros sched dev Hin; [exact Hin|].
  cbn [Mouse.inject_bytes]. apply IH.
  destruct (hd false sched); [|exact Hin].
  apply mouse_run_tasklet_reports; auto.
Qed.

Lemma mouse_step_reports (P : input_event -> Prop) (s : Mouse.vmouse) (o : Mouse.op) :
  (forall m, Forall P (Mouse.report m)) ->
  Forall P (Mouse.input (Mouse.vmouse_dev s)) ->
  Forall P (Mouse.input (Mouse.vmouse_dev (Mouse.step s o))).
Proof.
  intros Hrep Hin. destruct o as [sched tokens|[v|]|[v|]|]; cbn; try exact Hin.
  - unfold Mouse.inject_packet_store.
    destruct (Mouse.parse_bytes _ tokens) as [bytes|]; [|exact Hin].
    destruct (negb _ && negb _); [exact Hin|].
    destruct (_ && _); cbn; apply mouse_inject_bytes_reports; auto.
  - destruct (_ || _); exact Hin.
  - apply mouse_run_tasklet_reports; auto.
Qed.

(** X24 (the mouse filter fits the mouse driver). Whatever is written to
    the attributes of the mouse driver and whenever its tasklet runs, every
    event it has reported passes the logger's [mouse] filter and none would
    be written by a logger run with the [keyboard] filter: the five
    buttons lie in [BTN_MOUSE, BTN_JOYSTICK) and the rest is relative
    motion and [SYN]. *)
Theorem mouse_reports_match_filter (dpi : Z) (im : bool) (ops : list Mouse.op) :
  Forall (Logger.passes_only "mouse" ["keyboard"])
         (Mouse.input (Mouse.vmouse_dev (Mouse.run (Mouse.vmouse_init dpi im) ops))).
Proof.
  unfold Mouse.run.
  assert (Hgen : forall s, Forall (Logger.passes_only "mouse" ["keyboard"])
                             (Mouse.input (Mouse.vmouse_dev s)) ->
                 Forall (Logger.passes_only "mouse" ["keyboard"])
                   (Mouse.input (Mouse.vmouse_dev (fold_left Mouse.step ops s)))).
  { induction ops as [|o ops IH]; intros s Hs; [exact Hs|].
    cbn [fold_left]. apply IH. apply mouse_step_reports; [|assumption].
    apply mouse_report_filtered. }
  apply Hgen. constructor.
Qed.

(** X25 (what the filters let through). An event written under the
    [keyboard] filter is written under neither the [mouse] nor the
    [touchpad] filter; the [mouse] and [touchpad] filters both write an
    event exactly when it is a key event for [BTN_LEFT] or [BTN_RIGHT]. A
    [SYN] event passes every filter and is never written. A filter that
    is none of [keyboard], [mouse] and [touchpad] passes every event, as
    [all] does. The [touchpad] filter passes no relative event. *)
Theorem filters_partition (ev : Logger.event) :
  (Logger.written "keyboard" ev = true ->
   Logger.written "mouse" ev = false /\ Logger.written "touchpad" ev = false) /\
  (Logger.written "mouse" ev = true /\ Logger.written "touchpad" ev = true <->
   Logger.type ev = Logger.EV_KEY /\
   (Logger.code ev = Logger.BTN_LEFT \/ Logger.code ev = Logger.BTN_RIGHT)) /\
  (forall filter,
     Logger.type ev = Logger.EV_SYN ->
     Logger.should_log filter ev = true /\ Logger.written filter ev = false) /\
  (forall filter,
     filter <> "keyboard"%string -> filter <> "mouse"%string ->
     filter <> "touchpad"%string ->
     Logger.should_log filter ev = true) /\
  (Logger.type ev = Logger.EV_REL -> Logger.should_log "touchpad" ev = false).
Proof.
  destruct ev as [t c v].
  unfold Logger.written, Logger.should_log,
    Logger.EV_SYN, Logger.EV_KEY, Logger.EV_REL, Logger.EV_ABS, Logger.EV_LED,
    Logger.EV_REP, Logger.BTN_MOUSE, Logger.BTN_JOYSTICK, Logger.BTN_TOUCH,
    Logger.BTN_LEFT, Logger.BTN_RIGHT.
  cbn [Logger.type Logger.code].
  splits.
  - cbn.
    destruct (Z.eqb_spec t 1), (Z.eqb_spec t 0), (Z.eqb_spec t 2), (Z.eqb_spec t 3),
      (Z.eqb_spec t 20), (Z.eqb_spec t 17); try lia; cbn;
      destruct (Z.ltb_spec c 272), (Z.leb_spec 272 c), (Z.eqb_spec c 330),
        (Z.eqb_spec c 272), (Z.eqb_spec c 273); try lia; cbn; auto; discriminate.
  - cbn.
    destruct (Z.eqb_spec t 1), (Z.eqb_spec t 0), (Z.eqb_spec t 2), (Z.eqb_spec t 3);
      try lia; cbn;
      destruct (Z.leb_spec 272 c), (Z.ltb_spec c 288), (Z.eqb_spec c 330),
        (Z.eqb_spec c 272), (Z.eqb_spec c 273); try lia; cbn;
      (split; [intros [? ?]; try discriminate; split; auto; lia
              | intros [? [?|?]]; try lia; auto]).
  - intros filter ->. cbn.
    repeat match goal with |- context [String.eqb ?a ?b] => destruct (String.eqb a b) end;
      auto.
  - intros filter Hk Hm Ht.
    apply String.eqb_neq in Hk, Hm, Ht. rewrite Hk, Hm, Ht.
    destruct (String.eqb filter "all"); reflexivity.
  - intros ->. reflexivity.
Qed.

Lemma filters_partition_witness :
  let key_a := Logger.mk_event Logger.EV_KEY 30 1 in
  Logger.written "mouse" key_a = false /\
  Logger.should_log "json" (Logger.mk_event Logger.EV_REL 0 5) = true.
Proof.
  intros key_a. split.
  - destruct (filters_partition key_a) as (H & _).
    apply H. vm_compute. reflexivity.
  - destruct (filters_partition (Logger.mk_event Logger.EV_REL 0 5)) as (_ & _ & _ & H & _).
    apply H; discriminate.
Defined.

Lemma length_append (s t : string) :
  String.length (s +:+ t) = (String.length s + String.length t)%nat.
Proof.
  induction s as [|c s IH]; [reflexivity|].
  change (String c s +:+ t) with (String c (s +:+ t)). cbn [String.length].
  rewrite IH. reflexivity.
Qed.

Lemma append_inj (s t u : string) : s +:+ t = s +:+ u -> t = u.
Proof.
  induction s as [|c s IH]; [auto|].
  change (String c s +:+ t) with (String c (s +:+ t)).
  change (String c s +:+ u) with (String c (s +:+ u)).
  intros H. injection H as H. auto.
Qed.

Lemma truncate_fits (n : nat) (s : string) :
  (String.length s <= n)%nat -> Logger.truncate n s = s.
Proof.
  revert n. induction s as [|c s IH]; intros [|n] H; cbn in *; try reflexivity; try lia.
  rewrite IH by lia. reflexivity.
Qed.

Lemma truncate_append (s t : string) :
  Logger.truncate (String.length s) (s +:+ t) = s.
Proof.
  induction s as [|c s IH]; [destruct t; reflexivity|].
  change (String c s +:+ t) with (String c (s +:+ t)). cbn [String.length Logger.truncate].
  rewrite IH. reflexivity.
Qed.

Lemma lookup_rename (old new k : string) (files : gmap string (list Z)) :
  files !! new = None ->
  Logger.rename old new files !! k
  = if bool_decide (k = new) then files !! old
    else if bool_decide (k = old) then None else files !! k.
Proof.
  intros Hnew. unfold Logger.rename.
  destruct (files !! old) as [data|] eqn:Hold.
  - assert (old <> new) by congruence.
    repeat case_bool_decide; subst.
    + rewrite lookup_insert_eq. reflexivity.
    + rewrite lookup_insert_ne, lookup_delete_eq by congruence. reflexivity.
    + rewrite lookup_insert_ne, lookup_delete_ne by congruence. reflexivity.
  - repeat case_bool_decide; subst; auto.
Qed.

Lemma rename_missing (old new : string) (files : gmap string (list Z)) :
  files !! old = None -> Logger.rename old new files = files.
Proof. intros H. unfold Logger.rename. rewrite H. reflexivity. Qed.

(** X26 (log rotation shifts the generations, if the names fit). Call
    the log file generation 0 and [path.i] generation [i]. When [path.5]
    fits the 512-byte name buffers (at most 509 characters of path), after
    [rotate_log] there is no generation 0, each generation 1 to 5 holds
    what the generation before it held (or is missing if that one was),
    the former generation 5 is gone, and every other file is untouched,
    whichever of the files exist. With a path of 511 characters every name
    built is cut back to the path itself: the log is deleted and no file
    receives its contents. *)
Theorem rotate_log_shifts (path : string) (files : gmap string (list Z)) :
  let files' := Logger.rotate_log path files in
  let gen (i : nat) : string :=
    match i with
    | O => path
    | S _ => path +:+ "." +:+ NilEmpty.string_of_uint (Nat.to_uint i)
    end in
  ((String.length path <= 509)%nat ->
   files' !! gen 0%nat = None /\
   (forall i, (i < 5)%nat -> files' !! gen (S i) = files !! gen i) /\
   (forall name, (forall i, (i <= 5)%nat -> name <> gen i) ->
                 files' !! name = files !! name)) /\
  (String.length path = 511%nat ->
   files' !! path = None /\
   (forall name, name <> path -> files' !! name = files !! name)).
Proof.
  cbv zeta. split.
  - intros Hlen.
    assert (Hname : forall d : string,
               String.length d = 1%nat ->
               Logger.truncate (Logger.NAME_SIZE - 1) (path +:+ "." +:+ d)
               = path +:+ "." +:+ d).
    { intros d Hd. apply truncate_fits.
      rewrite !length_append, Hd. unfold Logger.NAME_SIZE. cbn. lia. }
    unfold Logger.rotate_log, Logger.MAX_ROTATIONS, Logger.unlink.
    change (5 - 1)%nat with 4%nat. cbn [Logger.shift_rotations].
    unfold Logger.rotation_name.
    change (NilEmpty.string_of_uint (Nat.to_uint 1)) with "1"%string.
    change (NilEmpty.string_of_uint (Nat.to_uint 2)) with "2"%string.
    change (NilEmpty.string_of_uint (Nat.to_uint 3)) with "3"%string.
    change (NilEmpty.string_of_uint (Nat.to_uint 4)) with "4"%string.
    change (NilEmpty.string_of_uint (Nat.to_uint 5)) with "5"%string.
    change (path +:+ ".1") with (path +:+ "." +:+ "1").
    rewrite !Hname by reflexivity.
    set (n1 := path +:+ "." +:+ "1"). set (n2 := path +:+ "." +:+ "2").
    set (n3 := path +:+ "." +:+ "3"). set (n4 := path +:+ "." +:+ "4").
    set (n5 := path +:+ "." +:+ "5").
    assert (Hp : forall d : string, path <> path +:+ "." +:+ d).
    { intros d E. apply (f_equal String.length) in E.
      rewrite !length_append in E. cbn in E. lia. }
    assert (Hd : forall d e : string,
               d <> e -> path +:+ "." +:+ d <> path +:+ "." +:+ e).
    { intros d e Hne E. apply append_inj, append_inj in E. contradiction. }
    assert (D12 : n1 <> n2) by (apply Hd; discriminate).
    assert (D13 : n1 <> n3) by (apply Hd; discriminate).
    assert (D14 : n1 <> n4) by (apply Hd; discriminate).
    assert (D15 : n1 <> n5) by (apply Hd; discriminate).
    assert (D23 : n2 <> n3) by (apply Hd; discriminate).
    assert (D24 : n2 <> n4) by (apply Hd; discriminate).
    assert (D25 : n2 <> n5) by (apply Hd; discriminate).
    assert (D34 : n3 <> n4) by (apply Hd; discriminate).
    assert (D35 : n3 <> n5) by (apply Hd; discriminate).
    assert (D45 : n4 <> n5) by (apply Hd; discriminate).
    assert (P1 : path <> n1) by apply Hp. assert (P2 : path <> n2) by apply Hp.
    assert (P3 : path <> n3) by apply Hp. assert (P4 : path <> n4) by apply Hp.
    assert (P5 : path <> n5) by apply Hp.
    assert (E1 : path +:+ "." +:+ NilEmpty.string_of_uint (Nat.to_uint 1) = n1)
      by reflexivity.
    assert (E2 : path +:+ "." +:+ NilEmpty.string_of_uint (Nat.to_uint 2) = n2)
      by reflexivity.
    assert (E3 : path +:+ "." +:+ NilEmpty.string_of_uint (Nat.to_uint 3) = n3)
      by reflexivity.
    assert (E4 : path +:+ "." +:+ NilEmpty.string_of_uint (Nat.to_uint 4) = n4)
      by reflexivity.
    assert (E5 : path +:+ "." +:+ NilEmpty.string_of_uint (Nat.to_uint 5) = n5)
      by reflexivity.
    clearbody n1 n2 n3 n4 n5. clear Hname Hp Hd.
    set (f0 := delete n5 files).
    assert (L0 : forall k, f0 !! k = if bool_decide (k = n5) then None else files !! k).
    { intros k. subst f0. case_bool_decide; subst.
      - apply lookup_delete_eq.
      - apply lookup_delete_ne. congruence. }
    clearbody f0.
    set (f1 := Logger.rename n4 n5 f0).
    assert (L1 : forall k, f1 !! k = if bool_decide (k = n5) then files !! n4
                                     else if bool_decide (k = n4) then None
                                          else files !! k).
    { intros k. subst f1. rewrite lookup_rename.
      - rewrite !L0. repeat case_bool_decide; subst; congruence.
      - rewrite L0. case_bool_decide; congruence. }
    clearbody f1. clear L0 f0.
    set (f2 := Logger.rename n3 n4 f1).
    assert (L2 : forall k, f2 !! k = if bool_decide (k = n5) then files !! n4
                                     else if bool_decide (k = n4) then files !! n3
                                          else if bool_decide (k = n3) then None
                                               else files !! k).
    { intros k. subst f2. rewrite lookup_rename.
      - rewrite !L1. repeat case_bool_decide; subst; congruence.
      - rewrite L1. repeat case_bool_decide; congruence. }
    clearbody f2. clear L1 f1.
    set (f3 := Logger.rename n2 n3 f2).
    assert (L3 : forall k, f3 !! k = if bool_decide (k = n5) then files !! n4
                                     else if bool_decide (k = n4) then files !! n3
                                          else if bool_decide (k = n3) then files !! n2
                                               else if bool_decide (k = n2) then None
                                                    else files !! k).
    { intros k. subst f3. rewrite lookup_rename.
      - rewrite !L2. repeat case_bool_decide; subst; congruence.
      - rewrite L2. repeat case_bool_decide; congruence. }
    clearbody f3. clear L2 f2.
    set (f4 := Logger.rename n1 n2 f3).
    assert (L4 : forall k, f4 !! k = if bool_decide (k = n5) then files !! n4
                                     else if bool_decide (k = n4) then files !! n3
                                          else if bool_decide (k = n3) then files !! n2
                                               else if bool_decide (k = n2) then files !! n1
                                                    else if bool_decide (k = n1) then None
                                                         else files !! k).
    { intros k. subst f4. rewrite lookup_rename.
      - rewrite !L3. repeat case_bool_decide; subst; congruence.
      - rewrite L3. repeat case_bool_decide; congruence. }
    clearbody f4. clear L3 f3.
    assert (L5 : forall k, Logger.rename path n1 f4 !! k
                           = if bool_decide (k = n1) then files !! path
                             else if bool_decide (k = path) then None else f4 !! k).
    { intros k. rewrite lookup_rename.
      - rewrite !L4. repeat case_bool_decide; subst; congruence.
      - rewrite L4. repeat case_bool_decide; congruence. }
    splits.
    + rewrite L5. repeat case_bool_decide; congruence.
    + intros i Hi.
      destruct i as [|[|[|[|[|i]]]]]; [| | | | |lia];
        rewrite ?E1, ?E2, ?E3, ?E4, ?E5, L5, ?L4; repeat case_bool_decide; congruence.
    + intros name Hother.
      assert (O0 : name <> path) by (apply (Hother 0%nat); lia).
      assert (O1 : name <> n1) by (rewrite <- E1; apply (Hother 1%nat); lia).
      assert (O2 : name <> n2) by (rewrite <- E2; apply (Hother 2%nat); lia).
      assert (O3 : name <> n3) by (rewrite <- E3; apply (Hother 3%nat); lia).
      assert (O4 : name <> n4) by (rewrite <- E4; apply (Hother 4%nat); lia).
      assert (O5 : name <> n5) by (rewrite <- E5; apply (Hother 5%nat); lia).
      rewrite L5, L4. repeat case_bool_decide; congruence.
  - intros Hlen.
    assert (Hname : forall d : string,
               Logger.truncate (Logger.NAME_SIZE - 1) (path +:+ d) = path).
    { intros d. change (Logger.NAME_SIZE - 1)%nat with 511%nat.
      rewrite <- Hlen. apply truncate_append. }
    unfold Logger.rotate_log, Logger.MAX_ROTATIONS, Logger.unlink.
    change (5 - 1)%nat with 4%nat. cbn [Logger.shift_rotations].
    unfold Logger.rotation_name. rewrite !Hname.
    assert (Hgone : delete path files !! path = None) by apply lookup_delete_eq.
    rewrite !(rename_missing path path (delete path files)) by assumption.
    split; [assumption|]. intros name Hne. apply lookup_delete_ne. congruence.
Qed.

Lemma rotate_log_shifts_witness :
  let files : gmap string (list Z) :=
    <["events.json" := [1]]> (<["events.json.5" := [2]]> empty) in
  let long_path := String.concat "" (List.repeat "x"%string 511) in
  (Logger.rotate_log "events.json" files !! "events.json.1" = Some [1] /\
   Logger.rotate_log "events.json" files !! "events.json" = None) /\
  (Logger.rotate_log long_path (<[long_path := [1]]> empty) !! long_path = None /\
   Logger.rotate_log long_path (<[long_path := [1]]> empty) !! (long_path +:+ ".1")
   = None).
Proof.
  intros files long_path. split.
  - pose proof (rotate_log_shifts "events.json" files) as H. cbv zeta in H.
    destruct H as [H _]. destruct H as (Hlog & Hshift & _); [cbn; lia|]. split.
    + refine (eq_trans (Hshift 0%nat _) _); [lia | reflexivity].
    + exact Hlog.
  - pose proof (rotate_log_shifts long_path (<[long_path := [1]]> empty)) as H.
    cbv zeta in H. destruct H as [_ H].
    destruct H as (Hlog & Hrest); [vm_compute; reflexivity|]. split.
    + exact Hlog.
    + rewrite Hrest.
      * rewrite lookup_insert_ne; [apply lookup_empty|].
        intros E. apply (f_equal String.length) in E.
        rewrite length_append in E. cbn [String.length] in E. lia.
      * intros E. apply (f_equal String.length) in E.
        rewrite length_append in E. cbn [String.length] in E. lia.
Defined.

(** X27 (the touchpad filter and the touchpad driver). A store of the
    touchpad driver only appends calls to those made before. Every
    position, pressure and button report of a touch, a tap or a two-finger
    tap passes the logger's [touchpad] filter. The reports of a scroll do
    not: a logger run with the [touchpad] filter writes none of them,
    because they are relative wheel events, which pass the [mouse] filter. *)
Theorem touchpad_filter_drops_scroll (dev : Touchpad.vtp_device) (o : Touchpad.op) :
  exists new,
    Touchpad.input (snd (Touchpad.store dev o)) = Touchpad.input dev ++ new /\
    forall c ev,
      In c new -> Logger.event_of_call c = Some ev ->
      match o with
      | Touchpad.inject_scroll _ =>
          Logger.written "touchpad" ev = false /\ Logger.should_log "mouse" ev = true
      | _ => Logger.should_log "touchpad" ev = true
      end.
Proof.
  assert (Hnil : exists new : list Touchpad.call,
             Touchpad.input dev = Touchpad.input dev ++ new /\
             forall c ev, In c new -> Logger.event_of_call c = Some ev ->
                          match o with
                          | Touchpad.inject_scroll _ =>
                              Logger.written "touchpad" ev = false /\
                              Logger.should_log "mouse" ev = true
                          | _ => Logger.should_log "touchpad" ev = true
                          end).
  { exists []. split; [symmetry; apply app_nil_r | intros c ev []]. }
  destruct o as [[[[x y] p]|]|[[x y]|]|[[[[x1 y1] x2] y2]|]|[[dx dy]|]];
    cbn [Touchpad.store Touchpad.inject_touch_store Touchpad.inject_tap_store
         Touchpad.inject_two_finger_tap_store Touchpad.inject_scroll_store];
    try exact Hnil.
  - destruct (_ || _); [exact Hnil|].
    destruct (0 <? p); cbn [snd Touchpad.input]; eexists; (split; [reflexivity|]);
      intros c ev Hin Hev; cbn [In] in Hin;
      repeat (destruct Hin as [<-|Hin]; [cbn in Hev; try discriminate;
                                         injection Hev as <-; reflexivity|]);
      destruct Hin.
  - destruct (_ || _); [exact Hnil|].
    cbn [snd Touchpad.input]; eexists; (split; [reflexivity|]);
      intros c ev Hin Hev; cbn [In] in Hin;
      repeat (destruct Hin as [<-|Hin]; [cbn in Hev; try discriminate;
                                         injection Hev as <-; reflexivity|]);
      destruct Hin.
  - cbn [snd Touchpad.input]; eexists; (split; [reflexivity|]);
      intros c ev Hin Hev; cbn [In] in Hin;
      repeat (destruct Hin as [<-|Hin]; [cbn in Hev; try discriminate;
                                         injection Hev as <-; reflexivity|]);
      destruct Hin.
  - cbn [snd Touchpad.input]; eexists; (split; [reflexivity|]).
    intros c ev Hin Hev.
    destruct (negb (dy =? 0)), (negb (dx =? 0)); cbn [app In] in Hin;
      repeat (destruct Hin as [<-|Hin]; [cbn in Hev; injection Hev as <-;
                                         split; reflexivity|]);
      destruct Hin.
Qed.

Lemma touchpad_filter_drops_scroll_witness :
  Logger.written "touchpad"
    (Logger.mk_event Logger.EV_REL Touchpad.REL_WHEEL (C.int32 (- 3))) = false.
Proof.
  destruct (touchpad_filter_drops_scroll Touchpad.vtp_init
              (Touchpad.inject_scroll (Some (0, 3)))) as (new & Hnew & H).
  cbn in Hnew. subst new.
  destruct (H _ _ (or_introl eq_refl) eq_refl) as [Hw _]. exact Hw.
Defined.

(** ** Statistics only accumulate *)


































